(** * Campaign-bounded voucher issuance: the REST handlers and their store

    A shallow embedding of the voucher endpoints of the rewards backend:

    - [POST /api/vouchers]          (request a voucher, optionally for a campaign)
    - [PUT  /api/voucher/:id/status] (status transition)
    - [GET  /api/vouchers/count]    (vouchers claimed for a campaign)

    The repository carries the same API four times.  The three relational
    servers (PostgreSQL, sqlite3, better-sqlite3, all in [src/server.js]) run the
    same statements and are embedded once, in [Module Sql]; the document server
    ([src/unnamed/part_000], MongoDB) is embedded in [Module Mongo].

    Handlers are written in a small monad over the database: a statement may
    return a value, send the HTTP response (which ends the handler, as
    [return res.json(...)] does) or throw. *)

From Stdlib Require Import List String Ascii ZArith NArith Arith Bool Lia.
From Stdlib Require Import DecimalString.
Import ListNotations.
Local Open Scope string_scope.
Local Open Scope list_scope.

(* ===================================================================== *)
(** ** Values that arrive in a request *)

(** A JSON value of a request body or of the query string.  [JUndefined] is an
    absent key; [JObj] stands for any array or object.  Numbers are integers:
    a fractional number is truthy and is the key of no row, as a non-zero
    integer may be. *)
Inductive JsValue : Type :=
| JUndefined
| JNull
| JBool (b : bool)
| JNum (n : Z)
| JStr (s : string)
| JObj.

(** [if (v)] and [!v]: the truthiness test of the language. *)
Definition truthy (v : JsValue) : bool :=
  match v with
  | JUndefined => false
  | JNull => false
  | JBool b => b
  | JNum n => negb (n =? 0)%Z
  | JStr s => negb (s =? "")
  | JObj => true
  end.

(* ===================================================================== *)
(** ** Data model *)

(** A row of [vouchers].  Every column but the key is nullable text: [None] is
    SQL [NULL] (a [null] or missing field of a document). *)
Record Voucher : Type := mkVoucher
  { v_id : N;
    username : option string;
    value : option string;
    prize : option string;
    status : option string;
    claimedAt : option string }.

(** A row of [voucher_campaigns]. *)
Record Campaign : Type := mkCampaign
  { c_id : N;
    content : string;
    quantity : Z;
    c_status : option string;
    created_at : string }.

(** The two tables (collections) the handlers touch, and the key the store
    gives to the next inserted voucher ([SERIAL], [AUTOINCREMENT], a generated
    [_id]). *)
Record Db : Type := mkDb
  { vouchers : list Voucher;
    voucher_campaigns : list Campaign;
    next_id : N }.

(** The body of [POST /api/vouchers]:
    [{ username, value, prize, status, claimedAt, campaignId }]. *)
Record VoucherBody : Type := mkBody
  { b_username : option string;
    b_value : option string;
    b_prize : option string;
    b_status : option string;
    b_claimedAt : option string;
    campaignId : JsValue }.

(** What a handler sends: [res.status(code).json(body)]. *)
Inductive Json : Type :=
| Success (b : bool)            (* { success: b } *)
| Error (msg : string)          (* { error: msg } *)
| Count (n : nat)               (* { count: n }, [n] a number *)
| CountText (digits : string).  (* { count: digits }, [digits] a string *)

Record Response : Type := mkResponse { code : nat; body : Json }.

(** How the driver turns a request value into a primary key: the parameter of
    [WHERE id = $1], or [new ObjectId(x)].  It may throw (a malformed id), give
    a key, or give a value that equals no key. *)
Inductive Bound : Type :=
| Throws (msg : string)
| Key (k : N)
| NoRow.

(* ===================================================================== *)
(** ** The handler monad *)

Inductive Outcome (A : Type) : Type :=
| Val (a : A)               (* the statement finished with a value      *)
| Sent (r : Response)       (* the response went out: the handler ends   *)
| Exc (msg : string).       (* an exception is in flight ([err.message]) *)

Arguments Val {A} a.
Arguments Sent {A} r.
Arguments Exc {A} msg.

Definition M (A : Type) : Type := Db -> Outcome A * Db.

Definition ret {A} (a : A) : M A := fun db => (Val a, db).

Definition bind {A B} (m : M A) (k : A -> M B) : M B :=
  fun db =>
    match m db with
    | (Val a, db') => k a db'
    | (Sent r, db') => (Sent r, db')
    | (Exc msg, db') => (Exc msg, db')
    end.

Definition throw {A} (msg : string) : M A := fun db => (Exc msg, db).

(** [return res.status(c).json(b)] *)
Definition send {A} (c : nat) (b : Json) : M A :=
  fun db => (Sent (mkResponse c b), db).

(** [try { m } catch (err) { h err.message }] *)
Definition try_catch {A} (m : M A) (h : string -> M A) : M A :=
  fun db =>
    match m db with
    | (Exc msg, db') => h msg db'
    | other => other
    end.

(** [if (c) { m }] *)
Definition when (c : bool) (m : M unit) : M unit :=
  if c then m else ret tt.

Definition get_db : M Db := fun db => (Val db, db).
Definition put_db (db' : Db) : M unit := fun _ => (Val tt, db').

Declare Scope handler_scope.
Delimit Scope handler_scope with handler.
Notation "x <- m ;; k" := (bind m (fun x => k))
  (at level 61, m at next level, right associativity) : handler_scope.
Notation "m ;; k" := (bind m (fun _ => k))
  (at level 61, right associativity) : handler_scope.
Local Open Scope handler_scope.

(** Running a handler on a database: the response it sent, if any, and the
    database it leaves. *)
Definition handle (m : M unit) (db : Db) : option Response * Db :=
  match m db with
  | (Sent r, db') => (Some r, db')
  | (_, db') => (None, db')
  end.

(* ===================================================================== *)
(** ** Queries shared by the four servers *)

Module Store.

(** SQL [a = b] on nullable text: never true when a side is [NULL]. *)
Definition text_eq (a b : option string) : bool :=
  match a, b with
  | Some x, Some y => (x =? y)
  | _, _ => false
  end.

(** [SELECT COUNT( * ) FROM vouchers WHERE value = x],
    [vouchers.countDocuments({ value: x })]. *)
Definition countVouchersByValue (x : option string) (vs : list Voucher) : nat :=
  List.length (filter (fun v => text_eq (value v) x) vs).

(** [SELECT * FROM voucher_campaigns WHERE id = k], first row;
    [voucher_campaigns.findOne({ _id: k })]. *)
Definition getCampaign (k : N) (cs : list Campaign) : option Campaign :=
  find (fun c => (c_id c =? k)%N) cs.

Definition getVoucher (k : N) (vs : list Voucher) : option Voucher :=
  find (fun v => (v_id v =? k)%N) vs.

(** [INSERT INTO vouchers (username, value, prize, status, claimedAt)],
    [vouchers.insertOne({ username, value, prize, status, claimedAt })]:
    the row takes the caller's fields and the next key. *)
Definition insertVoucher (b : VoucherBody) (db : Db) : Db :=
  mkDb (vouchers db ++
          [mkVoucher (next_id db) (b_username b) (b_value b) (b_prize b)
                     (b_status b) (b_claimedAt b)])
       (voucher_campaigns db)
       (N.succ (next_id db)).

Definition set_vouchers (vs : list Voucher) (db : Db) : Db :=
  mkDb vs (voucher_campaigns db) (next_id db).

Definition opt_eqb (a b : option string) : bool :=
  match a, b with
  | Some x, Some y => (x =? y)
  | None, None => true
  | _, _ => false
  end.

Definition status_is (s : option string) (lit : string) : bool :=
  opt_eqb s (Some lit).

End Store.

Import Store.

Definition with_status (s : option string) (v : Voucher) : Voucher :=
  mkVoucher (v_id v) (username v) (value v) (prize v) s (claimedAt v).

Definition with_claimedAt (c : option string) (v : Voucher) : Voucher :=
  mkVoucher (v_id v) (username v) (value v) (prize v) (status v) c.

(** [err.message] of the [TypeError] raised by [campaign.quantity] when
    [campaign] is [undefined] (the wording is the engine's; this is V8's). *)
Definition TypeError_quantity : string :=
  "Cannot read properties of undefined (reading 'quantity')".

Definition out_of_stock : Response := mkResponse 400 (Error "Out of stock").
Definition campaign_not_found : Response := mkResponse 400 (Error "Campaign not found").
Definition success_true : Response := mkResponse 200 (Success true).

(* ===================================================================== *)
(** ** The relational servers ([src/server.js]) *)

Module Sql.
Section Server.

Variable bindId : JsValue -> Bound.

(** Binding the id parameter of a statement. *)
Definition bindParam (x : JsValue) : M (option N) :=
  match bindId x with
  | Throws msg => throw msg
  | Key k => ret (Some k)
  | NoRow => ret None
  end.

(** [SELECT content FROM voucher_campaigns WHERE id = $1] as a scalar
    subquery: [NULL] when no row has the key. *)
Definition content_of (k : option N) (db : Db) : option string :=
  match k with
  | Some k => option_map content (getCampaign k (voucher_campaigns db))
  | None => None
  end.

(** [dbGet('SELECT COUNT( * ) as count FROM vouchers WHERE value =
    (SELECT content FROM voucher_campaigns WHERE id = $1)', [campaignId])],
    then [.count]. *)
Definition count_for_campaign (cid : JsValue) : M nat :=
  k <- bindParam cid ;;
  db <- get_db ;;
  ret (countVouchersByValue (content_of k db) (vouchers db)).

(** [dbGet('SELECT * FROM voucher_campaigns WHERE id = $1', [campaignId])]:
    the first row, [undefined] (here [None]) when there is none. *)
Definition select_campaign (cid : JsValue) : M (option Campaign) :=
  k <- bindParam cid ;;
  db <- get_db ;;
  ret (match k with
       | Some k => getCampaign k (voucher_campaigns db)
       | None => None
       end).

(** [dbGet('SELECT COUNT( * ) as count FROM vouchers WHERE value = $1', [x])],
    then [.count]. *)
Definition count_by_value (x : string) : M nat :=
  db <- get_db ;;
  ret (countVouchersByValue (Some x) (vouchers db)).

(** [campaign.quantity]: a [TypeError] on [undefined]. *)
Definition dot_quantity (campaign : option Campaign) : M Z :=
  match campaign with
  | Some c => ret (quantity c)
  | None => throw TypeError_quantity
  end.

(** [dbRun('INSERT INTO vouchers (username, value, prize, status, claimedAt)
    VALUES ($1, $2, $3, $4, $5)', [username, value, prize, status, claimedAt])]. *)
Definition insert_voucher (b : VoucherBody) : M unit :=
  db <- get_db ;;
  put_db (insertVoucher b db).

(** [dbRun('UPDATE vouchers SET ... WHERE id = $n', [..., id])]: every row
    with the key is rewritten by [set]; the result is the row count. *)
Definition update_vouchers (set : Voucher -> Voucher) (id : JsValue) : M nat :=
  k <- bindParam id ;;
  db <- get_db ;;
  let hit v := match k with Some k => (v_id v =? k)%N | None => false end in
  put_db (set_vouchers (map (fun v => if hit v then set v else v) (vouchers db)) db) ;;
  ret (List.length (filter hit (vouchers db))).

(** [app.post('/api/vouchers', ...)], server.js lines 101-118. *)
Definition post_vouchers (b : VoucherBody) : M unit :=
  try_catch
    (when (truthy (campaignId b))
       (countRow <- count_for_campaign (campaignId b) ;;
        campaign <- select_campaign (campaignId b) ;;
        q <- dot_quantity campaign ;;
        when (Z.of_nat countRow >=? q)%Z
          (send 400 (Error "Out of stock"))) ;;
     insert_voucher b ;;
     send 200 (Success true))
    (fun msg => send 500 (Error msg)).

(** [app.put('/api/voucher/:id/status', ...)], server.js lines 185-200.
    [now] is the reading of [new Date().toISOString()]. *)
Definition put_voucher_status (id : string) (st : option string) (now : string)
  : M unit :=
  try_catch
    ((if status_is st "Issued" then
        update_vouchers
          (fun v => with_claimedAt (Some now) (with_status st v)) (JStr id)
      else if status_is st "Void" then
        update_vouchers
          (fun v => with_claimedAt None (with_status st v)) (JStr id)
      else
        update_vouchers (with_status st) (JStr id)) ;;
     send 200 (Success true))
    (fun msg => send 500 (Error msg)).

(** [app.get('/api/vouchers/count', ...)], server.js lines 304-315, 620-631
    and 908-919, with [row.count] taken as the number counted.  How each
    driver hands that column over, and so what is sent, is in
    [SqlApp.get_vouchers_count_by]. *)
Definition get_vouchers_count (cid : JsValue) : M unit :=
  when (negb (truthy cid)) (send 200 (Count 0)) ;;
  try_catch
    (campaign <- select_campaign cid ;;
     match campaign with
     | None => send 200 (Count 0)
     | Some c =>
         row <- count_by_value (content c) ;;
         send 200 (Count row)
     end)
    (fun msg => send 500 (Error msg)).

End Server.
End Sql.

(* ===================================================================== *)
(** ** The document server ([src/unnamed/part_000]) *)

Module Mongo.

(** The [$set] document of the status update: [status] is always set,
    [claimedAt] only when the key was added to [update]. *)
Record SetDoc : Type := mkSet
  { set_status : option string;
    set_claimedAt : option (option string) }.

(** The fields of an update result the handlers read. *)
Record UpdateResult : Type := mkResult
  { matchedCount : nat;
    modifiedCount : nat }.

Definition apply_set (u : SetDoc) (v : Voucher) : Voucher :=
  mkVoucher (v_id v) (username v) (value v) (prize v)
            (set_status u)
            (match set_claimedAt u with
             | Some c => c
             | None => claimedAt v
             end).

Definition voucher_eqb (a b : Voucher) : bool :=
  (v_id a =? v_id b)%N
  && opt_eqb (username a) (username b)
  && opt_eqb (value a) (value b)
  && opt_eqb (prize a) (prize b)
  && opt_eqb (status a) (status b)
  && opt_eqb (claimedAt a) (claimedAt b).

(** [updateOne({ _id: k }, { $set: u })] on the documents: the first one with
    the key is matched; it counts as modified when the [$set] changed it. *)
Fixpoint updateFirst (k : N) (u : SetDoc) (vs : list Voucher)
  : list Voucher * UpdateResult :=
  match vs with
  | [] => ([], mkResult 0 0)
  | v :: rest =>
      if (v_id v =? k)%N then
        let v' := apply_set u v in
        (v' :: rest, mkResult 1 (if voucher_eqb v v' then 0 else 1))
      else
        let '(rest', r) := updateFirst k u rest in
        (v :: rest', r)
  end.

Section Server.

Variable bindId : JsValue -> Bound.

(** [new ObjectId(x)] *)
Definition new_ObjectId (x : JsValue) : M (option N) :=
  match bindId x with
  | Throws msg => throw msg
  | Key k => ret (Some k)
  | NoRow => ret None
  end.

(** [voucher_campaigns.findOne({ _id: oid })] *)
Definition findOne_campaign (oid : option N) : M (option Campaign) :=
  db <- get_db ;;
  ret (match oid with
       | Some k => getCampaign k (voucher_campaigns db)
       | None => None
       end).

(** [vouchers.countDocuments({ value: x })] *)
Definition countDocuments_value (x : string) : M nat :=
  db <- get_db ;;
  ret (countVouchersByValue (Some x) (vouchers db)).

(** [vouchers.insertOne({ username, value, prize, status, claimedAt })] *)
Definition insertOne_voucher (b : VoucherBody) : M unit :=
  db <- get_db ;;
  put_db (insertVoucher b db).

(** [vouchers.updateOne({ _id: oid }, { $set: u })] *)
Definition updateOne_voucher (oid : option N) (u : SetDoc) : M UpdateResult :=
  db <- get_db ;;
  match oid with
  | Some k =>
      let '(vs, r) := updateFirst k u (vouchers db) in
      put_db (set_vouchers vs db) ;;
      ret r
  | None => ret (mkResult 0 0)
  end.

(** [app.post('/api/vouchers', ...)], part_000 lines 50-66. *)
Definition post_vouchers (b : VoucherBody) : M unit :=
  try_catch
    (when (truthy (campaignId b))
       (oid <- new_ObjectId (campaignId b) ;;
        campaign <- findOne_campaign oid ;;
        match campaign with
        | None => send 400 (Error "Campaign not found")
        | Some c =>
            count <- countDocuments_value (content c) ;;
            when (Z.of_nat count >=? quantity c)%Z
              (send 400 (Error "Out of stock"))
        end) ;;
     insertOne_voucher b ;;
     send 200 (Success true))
    (fun msg => send 500 (Error msg)).

(** [app.put('/api/voucher/:id/status', ...)], part_000 lines 124-136. *)
Definition put_voucher_status (id : string) (st : option string) (now : string)
  : M unit :=
  try_catch
    (let update := mkSet st None in
     let update :=
       if status_is st "Issued" then mkSet (set_status update) (Some (Some now))
       else update in
     let update :=
       if status_is st "Void" then mkSet (set_status update) (Some None)
       else update in
     oid <- new_ObjectId (JStr id) ;;
     result <- updateOne_voucher oid update ;;
     send 200 (Success (0 <? modifiedCount result)%nat))
    (fun msg => send 500 (Error msg)).

(** [app.get('/api/vouchers/count', ...)], part_000 lines 230-241. *)
Definition get_vouchers_count (cid : JsValue) : M unit :=
  when (negb (truthy cid)) (send 200 (Count 0)) ;;
  try_catch
    (oid <- new_ObjectId cid ;;
     campaign <- findOne_campaign oid ;;
     match campaign with
     | None => send 200 (Count 0)
     | Some c =>
         count <- countDocuments_value (content c) ;;
         send 200 (Count count)
     end)
    (fun msg => send 500 (Error msg)).

End Server.
End Mongo.

(* ===================================================================== *)
(** ** Sequential requests *)

(** A list of [POST /api/vouchers] requests served one after the other by the
    handler [post]: the responses in order, and the final database. *)
Fixpoint serve (post : VoucherBody -> M unit) (bs : list VoucherBody) (db : Db)
  : list (option Response) * Db :=
  match bs with
  | [] => ([], db)
  | b :: rest =>
      let '(r, db1) := handle (post b) db in
      let '(rs, db2) := serve post rest db1 in
      (r :: rs, db2)
  end.

(* ===================================================================== *)
(** ** Two concrete id bindings, used in the examples *)

Module Drivers.

Definition decDigit (c : ascii) : option N :=
  let n := N_of_ascii c in
  if (48 <=? n)%N && (n <=? 57)%N then Some (n - 48)%N else None.

Definition hexDigit (c : ascii) : option N :=
  let n := N_of_ascii c in
  if (48 <=? n)%N && (n <=? 57)%N then Some (n - 48)%N
  else if (97 <=? n)%N && (n <=? 102)%N then Some (n - 87)%N
  else if (65 <=? n)%N && (n <=? 70)%N then Some (n - 55)%N
  else None.

Fixpoint digits (base : N) (digit : ascii -> option N) (s : string) (acc : N)
  : option N :=
  match s with
  | EmptyString => Some acc
  | String c rest =>
      match digit c with
      | Some d => digits base digit rest (acc * base + d)%N
      | None => None
      end
  end.

(** An integer key column: a non-negative number or a decimal string is a
    key, anything else is refused by the engine. *)
Definition intKey (x : JsValue) : Bound :=
  match x with
  | JNum n => if (0 <=? n)%Z then Key (Z.to_N n) else NoRow
  | JStr EmptyString => Throws "invalid input syntax for type integer"
  | JStr s =>
      match digits 10 decDigit s 0 with
      | Some k => Key k
      | None => Throws "invalid input syntax for type integer"
      end
  | _ => Throws "invalid input syntax for type integer"
  end.

(** [new ObjectId(x)] on a string of 24 hexadecimal digits gives that id; the
    examples pass it nothing else, and every other argument is taken to be
    refused. *)
Definition objectId (x : JsValue) : Bound :=
  match x with
  | JStr s =>
      if (String.length s =? 24)%nat then
        match digits 16 hexDigit s 0 with
        | Some k => Key k
        | None => Throws "input must be a 24 character hex string"
        end
      else Throws "input must be a 24 character hex string"
  | _ => Throws "input must be a 24 character hex string"
  end.

End Drivers.

(* ===================================================================== *)
(** ** The endpoints, by server *)

Inductive Server : Type :=
| Relational    (* src/server.js *)
| Document.     (* src/unnamed/part_000 *)

Definition post_vouchers (s : Server) (bindId : JsValue -> Bound)
  : VoucherBody -> M unit :=
  match s with
  | Relational => Sql.post_vouchers bindId
  | Document => Mongo.post_vouchers bindId
  end.

Definition put_voucher_status (s : Server) (bindId : JsValue -> Bound)
  : string -> option string -> string -> M unit :=
  match s with
  | Relational => Sql.put_voucher_status bindId
  | Document => Mongo.put_voucher_status bindId
  end.

Definition get_vouchers_count (s : Server) (bindId : JsValue -> Bound)
  : JsValue -> M unit :=
  match s with
  | Relational => Sql.get_vouchers_count bindId
  | Document => Mongo.get_vouchers_count bindId
  end.

(** The request names the campaign [c] of [db]: its [campaignId] is truthy and
    binds to the key of [c]. *)
Definition references (bindId : JsValue -> Bound) (db : Db) (c : Campaign)
  (cid : JsValue) : Prop :=
  truthy cid = true /\
  exists k, bindId cid = Key k /\ getCampaign k (voucher_campaigns db) = Some c.

(** The request names a campaign that [db] does not have: its [campaignId] is
    truthy and binds to a key of no row. *)
Definition unknown_campaign (bindId : JsValue -> Bound) (db : Db)
  (cid : JsValue) : Prop :=
  truthy cid = true /\
  (bindId cid = NoRow \/
   exists k, bindId cid = Key k /\ getCampaign k (voucher_campaigns db) = None).

(* ===================================================================== *)
(** ** Derived descriptions used in the statements *)

(** What either server writes into a row it updates. *)
Definition transition (st : option string) (now : string) (v : Voucher) : Voucher :=
  if status_is st "Issued" then with_claimedAt (Some now) (with_status st v)
  else if status_is st "Void" then with_claimedAt None (with_status st v)
  else with_status st v.

(** The [$set] document the document server builds, and what it does. *)
Definition update_doc (st : option string) (now : string) : Mongo.SetDoc :=
  let update := Mongo.mkSet st None in
  let update :=
    if status_is st "Issued"
    then Mongo.mkSet (Mongo.set_status update) (Some (Some now)) else update in
  if status_is st "Void"
  then Mongo.mkSet (Mongo.set_status update) (Some None) else update.

(** The rows after [UPDATE ... WHERE id = k] with the row function [f]. *)
Definition rewrite_rows (k : N) (f : Voucher -> Voucher) (vs : list Voucher)
  : list Voucher :=
  map (fun v => if (v_id v =? k)%N then f v else v) vs.

(** Vouchers that carry the content of campaign [c]. *)
Definition issued (c : Campaign) (db : Db) : nat :=
  countVouchersByValue (Some (content c)) (vouchers db).

(** The request names [c] and carries its content as [value]. *)
Definition grabs (bindId : JsValue -> Bound) (c : Campaign) (db : Db)
  (b : VoucherBody) : Prop :=
  references bindId db c (campaignId b) /\ b_value b = Some (content c).

(** How many requests of [bs] carry [x] as their [value]. *)
Definition asking (x : string) (bs : list VoucherBody) : nat :=
  List.length (filter (fun b => text_eq (b_value b) (Some x)) bs).

(** The update kept everything of a row but [status] and [claimedAt]. *)
Definition only_status_changed (v v' : Voucher) : Prop :=
  v_id v' = v_id v /\ username v' = username v
  /\ value v' = value v /\ prize v' = prize v.

(** ... and nothing at all of a row whose key is not [k]. *)
Definition kept (k : N) (v v' : Voucher) : Prop :=
  only_status_changed v v' /\ (v_id v <> k -> v' = v).

(* ===================================================================== *)
(** ** Example data *)

Module Scenario.

(** The campaign of the scenario: [{ content: "10% off", quantity: 2 }]. *)
Definition promo : Campaign :=
  mkCampaign 1 "10% off" 2 (Some "active") "2024-01-01T00:00:00.000Z".

(** A relational database holding that campaign under key 1, no voucher yet. *)
Definition shop : Db := mkDb [] [promo] 1.

Definition oid : string := "64b7f0c2a1d3e4f5a6b7c8d9".
Definition other_oid : string := "64b7f0c2a1d3e4f5a6b7c8d0".

Definition key_of (x : Bound) : N :=
  match x with
  | Key k => k
  | _ => 0%N
  end.

(** The same campaign as a document whose [_id] is [oid]. *)
Definition promo_doc : Campaign :=
  mkCampaign (key_of (Drivers.objectId (JStr oid))) "10% off" 2 (Some "active")
             "2024-01-01T00:00:00.000Z".

Definition shop_docs : Db := mkDb [] [promo_doc] 1.

(** [{ username: "alice", value: v, prize: "p1", status: "Pending",
      claimedAt: null, campaignId: cid }] *)
Definition grab (v : string) (cid : JsValue) : VoucherBody :=
  mkBody (Some "alice") (Some v) (Some "p1") (Some "Pending") None cid.

Definition pending : Voucher :=
  mkVoucher 1 (Some "alice") (Some "10% off") (Some "p1") (Some "Pending") None.

(** A database with one pending voucher, key 1. *)
Definition wallet : Db := mkDb [pending] [promo] 2.

(** The same voucher as a document whose [_id] is [oid]. *)
Definition pending_doc : Voucher :=
  mkVoucher (key_of (Drivers.objectId (JStr oid))) (Some "alice")
            (Some "10% off") (Some "p1") (Some "Pending") None.

Definition wallet_docs : Db := mkDb [pending_doc] [promo_doc] 2.

Definition noon : string := "2024-06-01T12:00:00.000Z".

End Scenario.

(* ===================================================================== *)
(** * The rest of the API *)

From Stdlib Require Import Permutation Sorted OrderedTypeEx.

(** ** The other tables *)

(** A row of [referrals]. *)
Record Referral : Type := mkReferral
  { r_id : N;
    referrer : string;
    referred : string;
    r_created_at : string }.

(** A row of [spin_wheel_config]. *)
Record Prize : Type := mkPrize
  { p_id : N;
    prize_label : option string;
    win_chance : option Z;
    campaign_id : JsValue;
    p_status : option string;
    p_created_at : option string }.

(** A row of [referral_rewards]. *)
Record Reward : Type := mkReward
  { rw_id : N;
    rw_content : string;
    rw_status : option string;
    rw_created_at : option string }.

(** All the tables (collections) of a server.  [spin_wheel_active] exists on
    the document server only and holds the [activeSpinConfigId] of each of its
    documents ([None] is an id that is the key of no row); [w_next] is the key
    the store gives to the next row inserted outside [vouchers]. *)
Record World : Type := mkWorld
  { w_db : Db;
    referrals : list Referral;
    spin_wheel_config : list Prize;
    referral_rewards : list Reward;
    spin_wheel_active : list (option N);
    w_next : N }.

(** One element of the [prizes] array of [POST /api/admin/spin-wheel]:
    [{ prize_label, win_chance, campaign_id, status }]. *)
Record PrizeIn : Type := mkPrizeIn
  { in_label : option string;
    in_chance : option Z;
    in_campaign : JsValue;
    in_status : option string }.

(** ** What the other handlers send *)

Inductive Reply : Type :=
| Plain (j : Json)
| SuccessMessage (msg : string)          (* { success: true, message: msg } *)
| VoucherRows (rows : list Voucher)
| ReferralRows (rows : list Referral)
| CampaignRows (rows : list Campaign)
| PrizeRows (rows : list Prize)
| RewardRows (rows : list Reward)
| Names (users : list string)
| TopReferrers (rows : list (string * nat))   (* [{ referrer, referrals }] *)
| WheelConfig (configVersion : option string) (prizes : list Prize)
| ActiveWheel (activeSpinConfigId : N) (prizes : list Prize)
| DefaultWheel (prizes : list (string * Z))   (* activeSpinConfigId: null *)
| ErrorPage (msg : string)               (* the framework's answer to next(err) *)
| NotFoundPage.                          (* the framework's answer to no route *)

Record Answer : Type := mkAnswer { a_code : nat; a_body : Reply }.

(** ** The handler monad over all the tables *)

Inductive Step (A : Type) : Type :=
| Next (a : A)
| Done (r : Answer)
| Raise (msg : string).

Arguments Next {A} a.
Arguments Done {A} r.
Arguments Raise {A} msg.

Definition W (A : Type) : Type := World -> Step A * World.

Definition wret {A} (a : A) : W A := fun w => (Next a, w).

Definition wbind {A B} (m : W A) (k : A -> W B) : W B :=
  fun w =>
    match m w with
    | (Next a, w') => k a w'
    | (Done r, w') => (Done r, w')
    | (Raise msg, w') => (Raise msg, w')
    end.

Definition wthrow {A} (msg : string) : W A := fun w => (Raise msg, w).

(** [return res.status(c).json(b)] *)
Definition reply {A} (c : nat) (b : Reply) : W A :=
  fun w => (Done (mkAnswer c b), w).

(** [try { m } catch (err) { h err.message }] *)
Definition wtry {A} (m : W A) (h : string -> W A) : W A :=
  fun w =>
    match m w with
    | (Raise msg, w') => h msg w'
    | other => other
    end.

Definition get_world : W World := fun w => (Next w, w).
Definition put_world (w' : World) : W unit := fun _ => (Next tt, w').

Declare Scope world_scope.
Delimit Scope world_scope with world.
Notation "x <- m ;; k" := (wbind m (fun x => k))
  (at level 61, m at next level, right associativity) : world_scope.
Notation "m ;; k" := (wbind m (fun _ => k))
  (at level 61, right associativity) : world_scope.

(** Running a handler: the answer it sent, if any, and the tables it leaves. *)
Definition respond (m : W unit) (w : World) : option Answer * World :=
  match m w with
  | (Done r, w') => (Some r, w')
  | (_, w') => (None, w')
  end.

Definition set_db (db : Db) (w : World) : World :=
  mkWorld db (referrals w) (spin_wheel_config w) (referral_rewards w)
          (spin_wheel_active w) (w_next w).

Definition set_config (ps : list Prize) (w : World) : World :=
  mkWorld (w_db w) (referrals w) ps (referral_rewards w)
          (spin_wheel_active w) (w_next w).

Definition set_rewards (rs : list Reward) (w : World) : World :=
  mkWorld (w_db w) (referrals w) (spin_wheel_config w) rs
          (spin_wheel_active w) (w_next w).

Definition set_active (xs : list (option N)) (w : World) : World :=
  mkWorld (w_db w) (referrals w) (spin_wheel_config w) (referral_rewards w)
          xs (w_next w).

Definition set_next (n : N) (w : World) : World :=
  mkWorld (w_db w) (referrals w) (spin_wheel_config w) (referral_rewards w)
          (spin_wheel_active w) n.

(** A handler of the voucher endpoints, run on the [vouchers] and
    [voucher_campaigns] tables of the world. *)
Definition lift {A} (m : M A) : W A :=
  fun w =>
    match m (w_db w) with
    | (Val a, db') => (Next a, set_db db' w)
    | (Sent r, db') => (Done (mkAnswer (code r) (Plain (body r))), set_db db' w)
    | (Exc msg, db') => (Raise msg, set_db db' w)
    end.

(** ** Queries on the other tables *)

Module Query.

(** [ORDER BY]: insertion of a row before the first row it must precede. *)
Fixpoint insert_by {A} (before : A -> A -> bool) (x : A) (xs : list A) : list A :=
  match xs with
  | [] => [x]
  | y :: rest =>
      if before x y then x :: y :: rest else y :: insert_by before x rest
  end.

Fixpoint sort_by {A} (before : A -> A -> bool) (xs : list A) : list A :=
  match xs with
  | [] => []
  | x :: rest => insert_by before x (sort_by before rest)
  end.

Definition mem (x : string) (xs : list string) : bool :=
  existsb (String.eqb x) xs.

(** [Array.from(new Set(xs))]: every value once, at its first place.  [seen]
    are the values already out. *)
Fixpoint dedup (seen : list string) (xs : list string) : list string :=
  match xs with
  | [] => []
  | x :: rest =>
      if mem x seen then dedup seen rest else x :: dedup (x :: seen) rest
  end.

Definition distinct (xs : list string) : list string := dedup [] xs.

Definition count_of (x : string) (xs : list string) : nat :=
  List.length (filter (String.eqb x) xs).

(** [SELECT referrer, COUNT( * ) as referrals FROM referrals GROUP BY referrer],
    [{ $group: { _id: '$referrer', referrals: { $sum: 1 } } }]. *)
Definition referrals_by_referrer (rs : list Referral) : list (string * nat) :=
  map (fun who => (who, count_of who (map referrer rs)))
      (distinct (map referrer rs)).

(** [ORDER BY referrals DESC, referrer ASC], [{ $sort: { referrals: -1, _id: 1 } }];
    [leb] is the text order of the store. *)
Definition ranks_before (leb : string -> string -> bool) (a b : string * nat)
  : bool :=
  (snd b <? snd a)%nat || ((snd a =? snd b)%nat && leb (fst a) (fst b)).

(** The whole query of [/api/top-referrers], with [LIMIT 10]. *)
Definition top_referrers (leb : string -> string -> bool) (rs : list Referral)
  : list (string * nat) :=
  firstn 10 (sort_by (ranks_before leb) (referrals_by_referrer rs)).

(** [.filter(Boolean)] on names: the empty string goes. *)
Definition nonempty (s : string) : bool := negb (s =? "").

(** The user list of [/api/admin/users]: the distinct non-null usernames of
    the vouchers, the distinct referrers, the distinct referred, one after the
    other, without the empty string and without repetition.  The three lists
    come from the store ([SELECT DISTINCT], [collection.distinct]), which
    chooses their order: [store_distinct xs] is what the store returns for
    the column [xs].  The last step, [Array.from(new Set(allUsers))], is the
    language's and keeps first places. *)
Definition admin_users (store_distinct : list string -> list string)
  (vs : list Voucher) (rs : list Referral) : list string :=
  let voucherUsers :=
    store_distinct (flat_map (fun v => match username v with
                                       | Some u => [u]
                                       | None => []
                                       end) vs) in
  let referrerUsers := store_distinct (map referrer rs) in
  let referredUsers := store_distinct (map referred rs) in
  distinct (filter nonempty (voucherUsers ++ referrerUsers ++ referredUsers)).

(** What the statements ask of a store's distinct: the values of the column,
    each one once, in an order of the store's choice. *)
Definition is_distinct (store_distinct : list string -> list string) : Prop :=
  forall xs,
    NoDup (store_distinct xs)
    /\ forall x, In x (store_distinct xs) <-> In x xs.

End Query.

(** ** Requests *)

Inductive Method : Type := GET | POST | PUT | DELETE.

(** The keys the handlers read from [req.body].  [status] is the voucher
    body's; [content] and [quantity] are taken as the string and the integer
    the campaign and reward tables hold; [prizes] is [None] when the key is
    missing. *)
Record Body : Type := mkReqBody
  { voucher : VoucherBody;
    b_content : string;
    b_quantity : Z;
    b_prizes : option (list PrizeIn) }.

(** A request: method, path segments, the [Origin] header, the query keys the
    handlers read, the body, and the reading of the clock while it is served. *)
Record Request : Type := mkRequest
  { method : Method;
    path : list string;
    origin : option string;
    q_campaignId : JsValue;
    q_username : option string;
    req_body : Body;
    at_time : string }.

(** A segment of a route path: a literal or a [:name] parameter. *)
Inductive Segment : Type :=
| Lit (s : string)
| Param.

(** Matching a path against a route: the parameter values, in order.  Paths
    are taken in the letter case the routes are written in and without a
    trailing slash. *)
Fixpoint match_path (pattern : list Segment) (p : list string)
  : option (list string) :=
  match pattern, p with
  | [], [] => Some []
  | Lit s :: pattern', x :: p' =>
      if (s =? x) then match_path pattern' p' else None
  | Param :: pattern', x :: p' =>
      if (x =? "") then None
      else option_map (cons x) (match_path pattern' p')
  | _, _ => None
  end.

Definition method_eqb (a b : Method) : bool :=
  match a, b with
  | GET, GET | POST, POST | PUT, PUT | DELETE, DELETE => true
  | _, _ => false
  end.

(** A registered route: [app.METHOD(path, handler)]. *)
Record Route : Type := mkRoute
  { r_method : Method;
    r_path : list Segment;
    r_handler : list string -> Request -> W unit }.

(** The routes are tried in the order of registration; the first one whose
    method and path match handles the request (no handler here calls
    [next]). *)
Fixpoint dispatch (routes : list Route) (req : Request) : W unit :=
  match routes with
  | [] => reply 404 NotFoundPage
  | r :: rest =>
      if method_eqb (r_method r) (method req) then
        match match_path (r_path r) (path req) with
        | Some params => r_handler r params req
        | None => dispatch rest req
        end
      else dispatch rest req
  end.

(** The place of the route that handles a request, and its parameters. *)
Fixpoint route_index (routes : list Route) (m : Method) (p : list string)
  : option (nat * list string) :=
  match routes with
  | [] => None
  | r :: rest =>
      let later :=
        match route_index rest m p with
        | Some (i, params) => Some (S i, params)
        | None => None
        end in
      if method_eqb (r_method r) m then
        match match_path (r_path r) p with
        | Some params => Some (0, params)
        | None => later
        end
      else later
  end.

(** [req.params.id] *)
Definition param_id (params : list string) : string :=
  match params with
  | id :: _ => id
  | [] => ""
  end.

(** ** Collection operations of the document store *)

Module Coll.

(** [deleteOne(filter)]: the first matching document goes; the result is
    [deletedCount]. *)
Fixpoint deleteFirst {A} (hit : A -> bool) (xs : list A) : list A * nat :=
  match xs with
  | [] => ([], 0)
  | x :: rest =>
      if hit x then (rest, 1)
      else let '(rest', n) := deleteFirst hit rest in (x :: rest', n)
  end.

Definition with_p_status (st : option string) (p : Prize) : Prize :=
  mkPrize (p_id p) (prize_label p) (win_chance p) (campaign_id p) st
          (p_created_at p).

(** [updateOne({ _id: k }, { $set: { status } })] on prizes: the result is
    [modifiedCount], 1 when the first matching document had another status. *)
Fixpoint setStatusFirst (k : N) (st : option string) (ps : list Prize)
  : list Prize * nat :=
  match ps with
  | [] => ([], 0)
  | p :: rest =>
      if (p_id p =? k)%N then
        (with_p_status st p :: rest, if opt_eqb (p_status p) st then 0 else 1)
      else let '(rest', n) := setStatusFirst k st rest in (p :: rest', n)
  end.

(** [sort({ field: -1 })] on a nullable text field: greater first, documents
    without the field last. *)
Definition desc (a b : option string) : bool :=
  match a, b with
  | Some x, Some y => String.ltb y x
  | Some _, None => true
  | None, _ => false
  end.

(** The documents of [insertMany(docs)] for the prizes of a request: each
    takes the next key, the clock reading as [created_at], and its status or
    ['active'] ([prize.status || 'active']). *)
Fixpoint prize_docs (next : N) (now : string) (prizes : list PrizeIn)
  : list Prize :=
  match prizes with
  | [] => []
  | p :: rest =>
      mkPrize next (in_label p) (in_chance p) (in_campaign p)
              (match in_status p with
               | Some s => if (s =? "") then Some "active" else Some s
               | None => Some "active"
               end)
              (Some now)
      :: prize_docs (N.succ next) now rest
  end.

End Coll.

Definition TypeError_map : string :=
  "Cannot read properties of undefined (reading 'map')".

(** [err.message] of the driver's refusal of [insertMany([])]. *)
Definition empty_batch : string :=
  "Invalid BulkOperation, Batch cannot be empty".

Definition default_prizes : list (string * Z) :=
  [("Better luck next time", 100%Z); ("Try again", 0%Z)].

Definition allowedOrigins : list string :=
  ["https://apps-frontend-pi.vercel.app";
   "https://apps-frontend-6pys1v3kd-mizanurs-projects-24e9ba9d.vercel.app";
   "https://apps-frontend-git-main-mizanurs-projects-24e9ba9d.vercel.app";
   "http://localhost:3000";
   "https://apps-frontend-pj4ygfytk-mizanurs-projects-24e9ba9d.vercel.app"].

Definition cors_message : string :=
  "The CORS policy for this site does not allow access from the specified Origin.".

(** The [origin] function given to [cors], part_000 lines 23-30: [None] lets
    the request through, [Some msg] is [callback(new Error(msg), false)]. *)
Definition cors_origin (o : option string) : option string :=
  match o with
  | None => None
  | Some s =>
      if (s =? "") then None
      else if Query.mem s allowedOrigins then None
      else Some cors_message
  end.

(* ===================================================================== *)
(** ** The document server, every route ([src/unnamed/part_000]) *)

Module MongoApp.
Section App.

Variable bindId : JsValue -> Bound.

(** [collection.distinct(field)]: the values in the order the server returns
    them. *)
Variable distinct_values : list string -> list string.

Local Open Scope world_scope.

(** [new ObjectId(x)] *)
Definition new_ObjectId (x : JsValue) : W (option N) :=
  match bindId x with
  | Throws msg => wthrow msg
  | Key k => wret (Some k)
  | NoRow => wret None
  end.

Definition is_key {A} (key : A -> N) (oid : option N) (x : A) : bool :=
  match oid with
  | Some k => (key x =? k)%N
  | None => false
  end.

Definition server_error (msg : string) : W unit := reply 500 (Plain (Error msg)).

(** lines 50-66 *)
Definition post_vouchers (params : list string) (req : Request) : W unit :=
  lift (Mongo.post_vouchers bindId (voucher (req_body req))).

(** lines 68-80 *)
Definition get_top_referrers (params : list string) (req : Request) : W unit :=
  wtry
    (w <- get_world ;;
     reply 200 (TopReferrers (Query.top_referrers String.leb (referrals w))))
    server_error.

(** lines 83-90: [vouchers.find({}).sort({ claimedAt: -1 })] *)
Definition get_admin_vouchers (params : list string) (req : Request) : W unit :=
  wtry
    (w <- get_world ;;
     reply 200 (VoucherRows
                  (Query.sort_by (fun a b => Coll.desc (claimedAt a) (claimedAt b))
                     (vouchers (w_db w)))))
    server_error.

(** lines 92-99 *)
Definition get_admin_referrals (params : list string) (req : Request) : W unit :=
  wtry
    (w <- get_world ;;
     reply 200 (ReferralRows
                  (Query.sort_by
                     (fun a b => String.ltb (r_created_at b) (r_created_at a))
                     (referrals w))))
    server_error.

(** lines 101-112 *)
Definition get_admin_users (params : list string) (req : Request) : W unit :=
  wtry
    (w <- get_world ;;
     reply 200 (Names (Query.admin_users distinct_values (vouchers (w_db w))
                         (referrals w))))
    server_error.

(** lines 114-122: [vouchers.find({ username })]; an absent [username] is
    sent as [null] and matches the vouchers without one. *)
Definition get_my_vouchers (params : list string) (req : Request) : W unit :=
  wtry
    (w <- get_world ;;
     reply 200 (VoucherRows
                  (filter (fun v => opt_eqb (username v) (q_username req))
                     (vouchers (w_db w)))))
    server_error.

(** lines 124-136 *)
Definition put_voucher_status (params : list string) (req : Request) : W unit :=
  lift (Mongo.put_voucher_status bindId (param_id params)
          (b_status (voucher (req_body req))) (at_time req)).

(** lines 139-146 *)
Definition get_campaigns (params : list string) (req : Request) : W unit :=
  wtry
    (w <- get_world ;;
     reply 200 (CampaignRows
                  (Query.sort_by
                     (fun a b => String.ltb (created_at b) (created_at a))
                     (voucher_campaigns (w_db w)))))
    server_error.

(** lines 147-155: [insertOne({ content, quantity, status, created_at })] *)
Definition post_campaign (params : list string) (req : Request) : W unit :=
  wtry
    (w <- get_world ;;
     put_world
       (set_next (N.succ (w_next w))
          (set_db (mkDb (vouchers (w_db w))
                        (voucher_campaigns (w_db w)
                         ++ [mkCampaign (w_next w) (b_content (req_body req))
                               (b_quantity (req_body req))
                               (b_status (voucher (req_body req)))
                               (at_time req)])
                        (next_id (w_db w))) w)) ;;
     reply 200 (Plain (Success true)))
    server_error.

(** lines 156-164 *)
Definition delete_campaign (params : list string) (req : Request) : W unit :=
  wtry
    (oid <- new_ObjectId (JStr (param_id params)) ;;
     w <- get_world ;;
     let '(cs, deletedCount) :=
       Coll.deleteFirst (is_key c_id oid) (voucher_campaigns (w_db w)) in
     put_world (set_db (mkDb (vouchers (w_db w)) cs (next_id (w_db w))) w) ;;
     reply 200 (Plain (Success (0 <? deletedCount)%nat)))
    server_error.

(** lines 167-177 *)
Definition get_spin_wheel (params : list string) (req : Request) : W unit :=
  wtry
    (w <- get_world ;;
     let rows :=
       Query.sort_by (fun a b => Coll.desc (p_created_at a) (p_created_at b))
         (spin_wheel_config w) in
     let configVersion :=
       match rows with
       | first :: _ => p_created_at first
       | [] => None
       end in
     reply 200 (WheelConfig configVersion rows))
    server_error.

(** lines 178-189 *)
Definition post_spin_wheel (params : list string) (req : Request) : W unit :=
  wtry
    (w <- get_world ;;
     put_world (set_config [] w) ;;
     let now := at_time req in
     docs <- match b_prizes (req_body req) with
             | Some prizes => wret (Coll.prize_docs (w_next w) now prizes)
             | None => wthrow TypeError_map
             end ;;
     match docs with
     | [] => wthrow empty_batch
     | _ :: _ => wret tt
     end ;;
     w1 <- get_world ;;
     put_world (set_next (w_next w1 + N.of_nat (List.length docs))
                  (set_config docs w1)) ;;
     reply 200 (Plain (Success true)))
    server_error.

(** lines 190-199 *)
Definition put_spin_wheel_status (params : list string) (req : Request)
  : W unit :=
  wtry
    (oid <- new_ObjectId (JStr (param_id params)) ;;
     w <- get_world ;;
     let '(ps, modifiedCount) :=
       match oid with
       | Some k =>
           Coll.setStatusFirst k (b_status (voucher (req_body req)))
             (spin_wheel_config w)
       | None => (spin_wheel_config w, 0)
       end in
     put_world (set_config ps w) ;;
     reply 200 (Plain (Success (0 <? modifiedCount)%nat)))
    server_error.

(** lines 202-209 *)
Definition get_rewards (params : list string) (req : Request) : W unit :=
  wtry
    (w <- get_world ;;
     reply 200 (RewardRows
                  (Query.sort_by
                     (fun a b => Coll.desc (rw_created_at a) (rw_created_at b))
                     (referral_rewards w))))
    server_error.

(** lines 210-218 *)
Definition post_reward (params : list string) (req : Request) : W unit :=
  wtry
    (w <- get_world ;;
     put_world
       (set_next (N.succ (w_next w))
          (set_rewards
             (referral_rewards w
              ++ [mkReward (w_next w) (b_content (req_body req))
                    (b_status (voucher (req_body req))) (Some (at_time req))])
             w)) ;;
     reply 200 (Plain (Success true)))
    server_error.

(** lines 219-227 *)
Definition delete_reward (params : list string) (req : Request) : W unit :=
  wtry
    (oid <- new_ObjectId (JStr (param_id params)) ;;
     w <- get_world ;;
     let '(rs, deletedCount) :=
       Coll.deleteFirst (is_key rw_id oid) (referral_rewards w) in
     put_world (set_rewards rs w) ;;
     reply 200 (Plain (Success (0 <? deletedCount)%nat)))
    server_error.

(** lines 230-241 *)
Definition get_vouchers_count (params : list string) (req : Request) : W unit :=
  lift (Mongo.get_vouchers_count bindId (q_campaignId req)).

(** lines 244-252 *)
Definition delete_voucher (params : list string) (req : Request) : W unit :=
  wtry
    (oid <- new_ObjectId (JStr (param_id params)) ;;
     w <- get_world ;;
     let '(vs, deletedCount) :=
       Coll.deleteFirst (is_key v_id oid) (vouchers (w_db w)) in
     put_world (set_db (set_vouchers vs (w_db w)) w) ;;
     reply 200 (Plain (Success (0 <? deletedCount)%nat)))
    server_error.

(** lines 255-264: the collection is emptied before [new ObjectId(id)] is
    evaluated for the document to insert. *)
Definition post_spin_wheel_id_start (params : list string) (req : Request)
  : W unit :=
  wtry
    (w <- get_world ;;
     put_world (set_active [] w) ;;
     oid <- new_ObjectId (JStr (param_id params)) ;;
     w1 <- get_world ;;
     put_world (set_active (spin_wheel_active w1 ++ [oid]) w1) ;;
     reply 200 (Plain (Success true)))
    server_error.

(** lines 266-273 *)
Definition post_spin_wheel_stop_active (params : list string) (req : Request)
  : W unit :=
  wtry
    (w <- get_world ;;
     put_world (set_active [] w) ;;
     reply 200 (Plain (Success true)))
    server_error.

(** lines 276-293 *)
Definition get_spin_wheel_active (params : list string) (req : Request)
  : W unit :=
  wtry
    (w <- get_world ;;
     let prizes :=
       filter (fun p => status_is (p_status p) "active") (spin_wheel_config w) in
     match prizes with
     | [] => reply 200 (DefaultWheel default_prizes)
     | first :: _ => reply 200 (ActiveWheel (p_id first) prizes)
     end)
    server_error.

(** lines 296-303 *)
Definition post_spin_wheel_start (params : list string) (req : Request)
  : W unit :=
  wtry
    (w <- get_world ;;
     put_world
       (set_config (map (Coll.with_p_status (Some "active")) (spin_wheel_config w))
          w) ;;
     reply 200
       (SuccessMessage "Spin is now started. Admin rewards are active."))
    server_error.

(** lines 305-312 *)
Definition post_spin_wheel_stop (params : list string) (req : Request)
  : W unit :=
  wtry
    (w <- get_world ;;
     put_world
       (set_config
          (map (Coll.with_p_status (Some "inactive")) (spin_wheel_config w)) w) ;;
     reply 200
       (SuccessMessage "Spin is now stopped. Default rewards will be shown."))
    server_error.

Definition api (rest : list string) : list Segment :=
  Lit "api" :: map Lit rest.

(** The routes, in the order [main] registers them. *)
Definition routes : list Route :=
  [ mkRoute POST (api ["vouchers"]) post_vouchers;
    mkRoute GET (api ["top-referrers"]) get_top_referrers;
    mkRoute GET (api ["admin"; "vouchers"]) get_admin_vouchers;
    mkRoute GET (api ["admin"; "referrals"]) get_admin_referrals;
    mkRoute GET (api ["admin"; "users"]) get_admin_users;
    mkRoute GET (api ["my-vouchers"]) get_my_vouchers;
    mkRoute PUT [Lit "api"; Lit "voucher"; Param; Lit "status"] put_voucher_status;
    mkRoute GET (api ["admin"; "voucher-campaigns"]) get_campaigns;
    mkRoute POST (api ["admin"; "voucher-campaigns"]) post_campaign;
    mkRoute DELETE [Lit "api"; Lit "admin"; Lit "voucher-campaigns"; Param]
      delete_campaign;
    mkRoute GET (api ["admin"; "spin-wheel"]) get_spin_wheel;
    mkRoute POST (api ["admin"; "spin-wheel"]) post_spin_wheel;
    mkRoute PUT [Lit "api"; Lit "admin"; Lit "spin-wheel"; Param; Lit "status"]
      put_spin_wheel_status;
    mkRoute GET (api ["admin"; "referral-reward"]) get_rewards;
    mkRoute POST (api ["admin"; "referral-reward"]) post_reward;
    mkRoute DELETE [Lit "api"; Lit "admin"; Lit "referral-reward"; Param]
      delete_reward;
    mkRoute GET (api ["vouchers"; "count"]) get_vouchers_count;
    mkRoute DELETE [Lit "api"; Lit "admin"; Lit "vouchers"; Param] delete_voucher;
    mkRoute POST [Lit "api"; Lit "admin"; Lit "spin-wheel"; Param; Lit "start"]
      post_spin_wheel_id_start;
    mkRoute POST (api ["admin"; "spin-wheel"; "stop"]) post_spin_wheel_stop_active;
    mkRoute GET (api ["spin-wheel"; "active"]) get_spin_wheel_active;
    mkRoute POST (api ["admin"; "spin-wheel"; "start"]) post_spin_wheel_start;
    mkRoute POST (api ["admin"; "spin-wheel"; "stop"]) post_spin_wheel_stop ].

(** The application: the [cors] middleware, then the routes. *)
Definition app (req : Request) : W unit :=
  match cors_origin (origin req) with
  | Some msg => reply 500 (ErrorPage msg)
  | None => dispatch routes req
  end.

(** Requests served one after the other. *)
Fixpoint serve_all (reqs : list Request) (w : World)
  : list (option Answer) * World :=
  match reqs with
  | [] => ([], w)
  | req :: rest =>
      let '(a, w1) := respond (app req) w in
      let '(answers, w2) := serve_all rest w1 in
      (a :: answers, w2)
  end.

End App.
End MongoApp.

(* ===================================================================== *)
(** ** More routes of the relational servers ([src/server.js]) *)

(** The three servers of [src/server.js], by the driver they use. *)
Inductive Engine : Type :=
| Pg               (* lines 1-323 *)
| Sqlite3          (* lines 323-635 *)
| BetterSqlite3.   (* lines 635-922 *)

(** What a write statement resolves to, as far as the handlers read it: the
    [pg] result has [rowCount]; the statement object of [sqlite3] and the info
    object of [better-sqlite3] have [changes] and no [rowCount]. *)
Record RunResult : Type := mkRun
  { rowCount : option nat;
    changes : option nat }.

Definition run_result (e : Engine) (affected : nat) : RunResult :=
  match e with
  | Pg => mkRun (Some affected) None
  | Sqlite3 => mkRun None (Some affected)
  | BetterSqlite3 => mkRun None (Some affected)
  end.

(** [{ count: row.count }] of [SELECT COUNT( * ) as count ...], as the row of
    each driver has the column: [pg] hands a [bigint] over as its decimal
    text, the two sqlite drivers as a number. *)
Definition count_json (e : Engine) (n : nat) : Json :=
  match e with
  | Pg => CountText (NilEmpty.string_of_uint (Nat.to_uint n))
  | Sqlite3 => Count n
  | BetterSqlite3 => Count n
  end.

(** [x > 0] where [x] may be [undefined]. *)
Definition gt0 (x : option nat) : bool :=
  match x with
  | Some n => (0 <? n)%nat
  | None => false
  end.

Module SqlApp.
Section App.

Variable bindId : JsValue -> Bound.

(** The text order of the store ([ORDER BY referrer ASC]). *)
Variable collate_leb : string -> string -> bool.

(** Whether the engine enforces [FOREIGN KEY (campaign_id) REFERENCES
    voucher_campaigns(id)] of [spin_wheel_config], and the [err.message] of
    its refusal. *)
Variable foreign_keys : bool.
Variable fk_violation : string.

(** The rows of [SELECT DISTINCT column], in the order the engine returns
    them. *)
Variable select_distinct : list string -> list string.

Local Open Scope world_scope.

Definition server_error (msg : string) : W unit := reply 500 (Plain (Error msg)).

(** [app.post('/api/vouchers', ...)], [app.put('/api/voucher/:id/status', ...)]
    and [app.get('/api/vouchers/count', ...)] on all the tables. *)
Definition post_vouchers (b : VoucherBody) : W unit :=
  lift (Sql.post_vouchers bindId b).

Definition put_voucher_status (id : string) (st : option string) (now : string)
  : W unit :=
  lift (Sql.put_voucher_status bindId id st now).

Definition get_vouchers_count (cid : JsValue) : W unit :=
  lift (Sql.get_vouchers_count bindId cid).

(** [app.get('/api/vouchers/count', ...)] of the server that runs on the
    driver [e] (lines 304-315, 620-631, 908-919): [res.json({ count:
    row.count })] sends the column as the driver handed it over. *)
Definition get_vouchers_count_by (e : Engine) (cid : JsValue) : M unit :=
  (when (negb (truthy cid)) (send 200 (Count 0)) ;;
   try_catch
     (campaign <- Sql.select_campaign bindId cid ;;
      match campaign with
      | None => send 200 (Count 0)
      | Some c =>
          row <- Sql.count_by_value (content c) ;;
          send 200 (count_json e row)
      end)
     (fun msg => send 500 (Error msg)))%handler.

(** [app.get('/api/top-referrers', ...)], lines 120-133. *)
Definition get_top_referrers : W unit :=
  wtry
    (w <- get_world ;;
     reply 200 (TopReferrers (Query.top_referrers collate_leb (referrals w))))
    server_error.

(** [app.get('/api/admin/users', ...)], lines 157-171, 473-487, 755-769. *)
Definition get_admin_users : W unit :=
  wtry
    (w <- get_world ;;
     reply 200 (Names (Query.admin_users select_distinct (vouchers (w_db w))
                         (referrals w))))
    server_error.

(** [app.get('/api/my-vouchers', ...)], lines 174-182, with a [username] in
    the query: [SELECT * FROM vouchers WHERE username = $1]. *)
Definition get_my_vouchers (user : string) : W unit :=
  wtry
    (w <- get_world ;;
     reply 200 (VoucherRows
                  (filter (fun v => text_eq (username v) (Some user))
                     (vouchers (w_db w)))))
    server_error.

(** A prize row points to the campaign with key [k]. *)
Definition points_to (k : N) (p : Prize) : bool :=
  match campaign_id p with
  | JNum n => (n =? Z.of_N k)%Z
  | _ => false
  end.

(** [dbRun('DELETE FROM voucher_campaigns WHERE id = $1', [id])]: refused when
    the foreign key is enforced and a prize points to a row to delete. *)
Definition delete_campaign_rows (e : Engine) (id : string) : W RunResult :=
  match bindId (JStr id) with
  | Throws msg => wthrow msg
  | NoRow => wret (run_result e 0)
  | Key k =>
      w <- get_world ;;
      let hit c := (c_id c =? k)%N in
      if foreign_keys
         && existsb hit (voucher_campaigns (w_db w))
         && existsb (points_to k) (spin_wheel_config w)
      then wthrow fk_violation
      else
        put_world
          (set_db (mkDb (vouchers (w_db w))
                        (filter (fun c => negb (hit c)) (voucher_campaigns (w_db w)))
                        (next_id (w_db w))) w) ;;
        wret (run_result e (List.length (filter hit (voucher_campaigns (w_db w)))))
  end.

(** [app.delete('/api/admin/voucher-campaigns/:id', ...)]: lines 221-233 and
    537-549 test [result.rowCount > 0], lines 819-831 [result.changes > 0]. *)
Definition delete_campaign (e : Engine) (id : string) : W unit :=
  wtry
    (result <- delete_campaign_rows e id ;;
     if gt0 (match e with
             | BetterSqlite3 => changes result
             | _ => rowCount result
             end)
     then reply 200 (Plain (Success true))
     else reply 404 (Plain (Error "Campaign not found")))
    server_error.

End App.
End SqlApp.

(* ===================================================================== *)
(** ** The migration script ([src/add_status_column.js]) *)

Module Migration.

(** Column names are compared by the engine without regard to the case of
    ASCII letters. *)
Definition lower (c : ascii) : ascii :=
  let n := N_of_ascii c in
  if (65 <=? n)%N && (n <=? 90)%N then ascii_of_N (n + 32) else c.

Fixpoint fold_case (s : string) : string :=
  match s with
  | EmptyString => EmptyString
  | String c rest => String (lower c) (fold_case rest)
  end.

(** The script on the columns of [spin_wheel_config], in the order of
    [PRAGMA table_info] ([None]: there is no such table, the pragma gives no
    row and [ALTER TABLE] fails): the columns afterwards.  [ALTER TABLE ... ADD
    COLUMN status] is refused when a column has that name in another case. *)
Definition add_status_column (columns : option (list string))
  : option (list string) :=
  match columns with
  | None => None
  | Some cols =>
      let hasStatus := existsb (fun name => (name =? "status")) cols in
      if hasStatus then Some cols
      else if existsb (fun name => (fold_case name =? "status")) cols
           then Some cols
           else Some (cols ++ ["status"])
  end.

End Migration.

(* ===================================================================== *)
(** ** Descriptions used in the statements about the whole server *)

(** A response of the voucher handlers as an answer of the application. *)
Definition to_answer (r : Response) : Answer :=
  mkAnswer (code r) (Plain (body r)).

(** The handler answers the same whatever [spin_wheel_active] holds, and
    leaves the other tables the same. *)
Definition blind_to_active (m : W unit) : Prop :=
  forall (w : World) (xs : list (option N)),
  exists ys,
    respond m (set_active xs w)
    = (fst (respond m w), set_active ys (snd (respond m w))).

(** The rows are listed newest first by the nullable text field [key]: no row
    comes after a row whose field is smaller or missing while its own is
    greater. *)
Definition newest_first {A} (key : A -> option string) (rows : list A) : Prop :=
  StronglySorted (fun a b => Coll.desc (key b) (key a) = false) rows.

(* ===================================================================== *)
(** * Proofs *)

(** Unfolding a handler down to the store functions. *)
Ltac run_handler :=
  unfold handle, post_vouchers, put_voucher_status, get_vouchers_count,
    Sql.post_vouchers, Sql.put_voucher_status, Sql.get_vouchers_count,
    Sql.count_for_campaign, Sql.select_campaign, Sql.count_by_value,
    Sql.dot_quantity, Sql.insert_voucher, Sql.update_vouchers, Sql.bindParam,
    Mongo.post_vouchers, Mongo.put_voucher_status, Mongo.get_vouchers_count,
    Mongo.new_ObjectId, Mongo.findOne_campaign, Mongo.countDocuments_value,
    Mongo.insertOne_voucher, Mongo.updateOne_voucher,
    try_catch, when, bind, ret, throw, send, get_db, put_db;
  cbn [fst snd negb].

(** ** [POST /api/vouchers], case by case *)

Section PostCases.

Variable bindId : JsValue -> Bound.
Variables (b : VoucherBody) (db : Db).

Lemma post_falsy (s : Server) :
  truthy (campaignId b) = false ->
  handle (post_vouchers s bindId b) db = (Some success_true, insertVoucher b db).
Proof.
  intros Hf. destruct s; run_handler; rewrite Hf; reflexivity.
Qed.

Lemma post_throws (s : Server) (msg : string) :
  truthy (campaignId b) = true ->
  bindId (campaignId b) = Throws msg ->
  handle (post_vouchers s bindId b) db = (Some (mkResponse 500 (Error msg)), db).
Proof.
  intros Ht Hb. destruct s; run_handler; rewrite Ht, Hb; reflexivity.
Qed.

Lemma post_found (s : Server) (k : N) (c : Campaign) :
  truthy (campaignId b) = true ->
  bindId (campaignId b) = Key k ->
  getCampaign k (voucher_campaigns db) = Some c ->
  handle (post_vouchers s bindId b) db =
    if (Z.of_nat (countVouchersByValue (Some (content c)) (vouchers db))
          >=? quantity c)%Z
    then (Some out_of_stock, db)
    else (Some success_true, insertVoucher b db).
Proof.
  intros Ht Hb Hc.
  destruct s; run_handler; rewrite Ht, Hb; cbn; rewrite Hc; cbn;
    destruct (_ >=? _)%Z; reflexivity.
Qed.

Lemma sql_post_unknown :
  unknown_campaign bindId db (campaignId b) ->
  handle (Sql.post_vouchers bindId b) db =
    (Some (mkResponse 500 (Error TypeError_quantity)), db).
Proof.
  intros [Ht [Hb | (k & Hb & Hc)]]; run_handler; rewrite Ht, Hb; cbn;
    [| rewrite Hc]; reflexivity.
Qed.

Lemma mongo_post_unknown :
  unknown_campaign bindId db (campaignId b) ->
  handle (Mongo.post_vouchers bindId b) db = (Some campaign_not_found, db).
Proof.
  intros [Ht [Hb | (k & Hb & Hc)]]; run_handler; rewrite Ht, Hb; cbn;
    [| rewrite Hc]; reflexivity.
Qed.

(** Every run of the handler sends a response; it either answers
    [{ success: true }] having inserted the caller's row, or answers with an
    error status and leaves the database as it was. *)
Lemma post_outcome (s : Server) :
  handle (post_vouchers s bindId b) db = (Some success_true, insertVoucher b db)
  \/ exists r, code r <> 200 /\
       handle (post_vouchers s bindId b) db = (Some r, db).
Proof.
  destruct (truthy (campaignId b)) eqn:Ht.
  2:{ left. now apply post_falsy. }
  destruct (bindId (campaignId b)) as [msg | k |] eqn:Hb.
  - right. eexists. split; [| eapply post_throws; eassumption]. cbn. discriminate.
  - destruct (getCampaign k (voucher_campaigns db)) as [c |] eqn:Hc.
    + rewrite (post_found s k c Ht Hb Hc).
      destruct (_ >=? _)%Z; [right | left; reflexivity].
      eexists. split; [| reflexivity]. cbn. discriminate.
    + assert (Hu : unknown_campaign bindId db (campaignId b))
        by (split; [assumption | right; eauto]).
      right. destruct s; cbn [post_vouchers].
      * rewrite (sql_post_unknown Hu). eexists. split; [| reflexivity].
        cbn. discriminate.
      * rewrite (mongo_post_unknown Hu). eexists. split; [| reflexivity].
        cbn. discriminate.
  - assert (Hu : unknown_campaign bindId db (campaignId b))
      by (split; [assumption | now left]).
    right. destruct s; cbn [post_vouchers].
    + rewrite (sql_post_unknown Hu). eexists. split; [| reflexivity].
      cbn. discriminate.
    + rewrite (mongo_post_unknown Hu). eexists. split; [| reflexivity].
      cbn. discriminate.
Qed.

End PostCases.

(** ** Inserting a row *)

Lemma text_eq_refl (x : string) : text_eq (Some x) (Some x) = true.
Proof. cbn. apply String.eqb_refl. Qed.

Lemma count_app (x : option string) (vs ws : list Voucher) :
  countVouchersByValue x (vs ++ ws) =
    countVouchersByValue x vs + countVouchersByValue x ws.
Proof.
  unfold countVouchersByValue. rewrite filter_app. apply List.length_app.
Qed.

Lemma count_insert (x : option string) (b : VoucherBody) (db : Db) :
  countVouchersByValue x (vouchers (insertVoucher b db)) =
    countVouchersByValue x (vouchers db) + (if text_eq (b_value b) x then 1 else 0).
Proof.
  cbn [insertVoucher vouchers]. rewrite count_app. f_equal.
  unfold countVouchersByValue. cbn. destruct (text_eq (b_value b) x); reflexivity.
Qed.

Lemma count_insert_same (x : string) (b : VoucherBody) (db : Db) :
  b_value b = Some x ->
  countVouchersByValue (Some x) (vouchers (insertVoucher b db)) =
    S (countVouchersByValue (Some x) (vouchers db)).
Proof.
  intros Hv. rewrite count_insert, Hv, text_eq_refl. lia.
Qed.

Lemma references_insert bindId (b : VoucherBody) (db : Db) c cid :
  references bindId db c cid -> references bindId (insertVoucher b db) c cid.
Proof. intros H. exact H. Qed.

(** ** Sequential requests against one campaign *)

Section Stock.

Variable s : Server.
Variable bindId : JsValue -> Bound.
Variable c : Campaign.
Variable N : nat.
Hypothesis quantity_N : quantity c = Z.of_nat N.

Lemma post_in_stock (b : VoucherBody) (db : Db) :
  references bindId db c (campaignId b) ->
  issued c db < N ->
  handle (post_vouchers s bindId b) db = (Some success_true, insertVoucher b db).
Proof.
  intros (Ht & k & Hb & Hc) Hlt.
  rewrite (post_found bindId b db s k c Ht Hb Hc), quantity_N.
  destruct (Z.geb_spec (Z.of_nat (countVouchersByValue (Some (content c)) (vouchers db)))
              (Z.of_nat N)) as [Hge | _]; [| reflexivity].
  unfold issued in Hlt. lia.
Qed.

Lemma post_sold_out (b : VoucherBody) (db : Db) :
  references bindId db c (campaignId b) ->
  N <= issued c db ->
  handle (post_vouchers s bindId b) db = (Some out_of_stock, db).
Proof.
  intros (Ht & k & Hb & Hc) Hle.
  rewrite (post_found bindId b db s k c Ht Hb Hc), quantity_N.
  destruct (Z.geb_spec (Z.of_nat (countVouchersByValue (Some (content c)) (vouchers db)))
              (Z.of_nat N)) as [_ | Hlt]; [reflexivity |].
  unfold issued in Hle. lia.
Qed.

(** From any starting count: the first [N - issued c db] requests are served,
    the others are refused, and the campaigns are not touched. *)
Lemma serve_stock (bs : list VoucherBody) :
  forall db,
    Forall (grabs bindId c db) bs ->
    let left_ := N - issued c db in
    fst (serve (post_vouchers s bindId) bs db) =
      repeat (Some success_true) (Nat.min left_ (List.length bs))
      ++ repeat (Some out_of_stock) (List.length bs - left_)
    /\ issued c (snd (serve (post_vouchers s bindId) bs db)) =
         issued c db + Nat.min left_ (List.length bs).
Proof.
  induction bs as [| b rest IH]; intros db Hall; cbn zeta.
  - cbn. rewrite Nat.min_0_r. cbn. split; [reflexivity | lia].
  - inversion Hall as [| ? ? [Href Hval] Hrest]; subst.
    cbn [serve List.length].
    destruct (Nat.lt_ge_cases (issued c db) N) as [Hlt | Hge].
    + rewrite (post_in_stock b db Href Hlt).
      assert (Hrest' : Forall (grabs bindId c (insertVoucher b db)) rest).
      { eapply Forall_impl; [| exact Hrest]. intros b' [H1 H2].
        split; [now apply references_insert | exact H2]. }
      specialize (IH _ Hrest'). cbn zeta in IH.
      destruct (serve (post_vouchers s bindId) rest (insertVoucher b db))
        as [rs db2] eqn:Hserve.
      cbn [fst snd] in *. destruct IH as [IHr IHc].
      assert (Hs : issued c (insertVoucher b db) = S (issued c db))
        by (apply count_insert_same; exact Hval).
      rewrite Hs in IHr, IHc.
      replace (N - issued c db) with (S (N - S (issued c db))) by lia.
      cbn [Nat.min Nat.sub repeat app]. split.
      * f_equal. exact IHr.
      * rewrite IHc. lia.
    + rewrite (post_sold_out b db Href Hge).
      specialize (IH _ Hrest). cbn zeta in IH.
      destruct (serve (post_vouchers s bindId) rest db) as [rs db2] eqn:Hserve.
      cbn [fst snd] in *. destruct IH as [IHr IHc].
      replace (N - issued c db) with 0 in * by lia.
      cbn [Nat.min repeat app] in *. rewrite Nat.sub_0_r in *. split.
      * cbn [repeat]. f_equal. exact IHr.
      * rewrite IHc. lia.
Qed.

(** Whatever the values the requests carry: a served request adds to the count
    only when its [value] is the campaign's content, and nothing is served
    once the count has reached [N]. *)
Lemma serve_issued (bs : list VoucherBody) :
  forall db,
    Forall (fun b => references bindId db c (campaignId b)) bs ->
    issued c (snd (serve (post_vouchers s bindId) bs db))
    = issued c db + Nat.min (N - issued c db) (asking (content c) bs).
Proof.
  induction bs as [| b rest IH]; intros db Hall.
  - cbn. lia.
  - inversion Hall as [| ? ? Href Hrest]; subst.
    cbn [serve].
    destruct (Nat.lt_ge_cases (issued c db) N) as [Hlt | Hge].
    + rewrite (post_in_stock b db Href Hlt).
      assert (Hrest' : Forall (fun b' => references bindId (insertVoucher b db) c
                                           (campaignId b')) rest).
      { eapply Forall_impl; [| exact Hrest]. intros b' H1.
        now apply references_insert. }
      specialize (IH _ Hrest').
      destruct (serve (post_vouchers s bindId) rest (insertVoucher b db))
        as [rs db2] eqn:Hserve.
      cbn [snd] in *. rewrite IH.
      assert (Hs : issued c (insertVoucher b db)
                   = issued c db
                     + (if text_eq (b_value b) (Some (content c)) then 1 else 0))
        by apply count_insert.
      rewrite Hs. unfold asking. cbn [filter].
      destruct (text_eq (b_value b) (Some (content c))); cbn [List.length]; lia.
    + rewrite (post_sold_out b db Href Hge).
      specialize (IH _ Hrest).
      destruct (serve (post_vouchers s bindId) rest db) as [rs db2] eqn:Hserve.
      cbn [snd] in *. rewrite IH. lia.
Qed.

End Stock.

(** ** Sequences of requests, in two parts *)

Lemma serve_app (post : VoucherBody -> M unit) (l1 l2 : list VoucherBody) :
  forall db,
    serve post (l1 ++ l2) db
    = (fst (serve post l1 db) ++ fst (serve post l2 (snd (serve post l1 db))),
       snd (serve post l2 (snd (serve post l1 db)))).
Proof.
  induction l1 as [| b rest IH]; intros db.
  - cbn. destruct (serve post l2 db); reflexivity.
  - cbn [serve app]. destruct (handle (post b) db) as [r db1].
    rewrite IH. destruct (serve post rest db1) as [rs db2]. reflexivity.
Qed.

Lemma serve_length (post : VoucherBody -> M unit) (bs : list VoucherBody) :
  forall db, List.length (fst (serve post bs db)) = List.length bs.
Proof.
  induction bs as [| b rest IH]; intros db; [reflexivity |].
  cbn [serve]. destruct (handle (post b) db) as [r db1].
  specialize (IH db1). destruct (serve post rest db1) as [rs db2].
  cbn [fst List.length] in *. now rewrite IH.
Qed.

Lemma serve_keeps_campaigns (s : Server) bindId (bs : list VoucherBody) :
  forall db,
    voucher_campaigns (snd (serve (post_vouchers s bindId) bs db))
    = voucher_campaigns db.
Proof.
  induction bs as [| b rest IH]; intros db; [reflexivity |].
  cbn [serve].
  destruct (post_outcome bindId b db s) as [Hr | (r & _ & Hr)]; rewrite Hr;
    [specialize (IH (insertVoucher b db)) | specialize (IH db)];
    match goal with
    | |- context [serve ?p rest ?d] => destruct (serve p rest d) as [rs db2]
    end; cbn [snd] in *; rewrite IH; reflexivity.
Qed.

Lemma asking_all (x : string) (bs : list VoucherBody) :
  Forall (fun b => b_value b = Some x) bs -> asking x bs = List.length bs.
Proof.
  induction 1 as [| b rest Hb _ IH]; [reflexivity |].
  unfold asking in *. cbn [filter]. rewrite Hb, text_eq_refl.
  cbn [List.length]. now rewrite IH.
Qed.

(** ** The status update *)

Lemma opt_eqb_eq (a b : option string) : opt_eqb a b = true <-> a = b.
Proof.
  destruct a as [x |], b as [y |]; cbn; try (split; congruence).
  rewrite String.eqb_eq. split; congruence.
Qed.

Lemma status_is_eq (st : option string) (lit : string) :
  status_is st lit = true <-> st = Some lit.
Proof. apply opt_eqb_eq. Qed.

Lemma status_is_neq (st : option string) (lit : string) :
  st <> Some lit -> status_is st lit = false.
Proof.
  intros Hn. destruct (status_is st lit) eqn:E; [| reflexivity].
  apply status_is_eq in E. contradiction.
Qed.

Lemma voucher_eqb_eq (a b : Voucher) : Mongo.voucher_eqb a b = true <-> a = b.
Proof.
  unfold Mongo.voucher_eqb. rewrite !andb_true_iff, !opt_eqb_eq, N.eqb_eq.
  destruct a, b; cbn. split.
  - intros [[[[[-> ->] ->] ->] ->] ->]. reflexivity.
  - intros H. injection H as -> -> -> -> -> ->. repeat split.
Qed.

Lemma set_vouchers_same (db : Db) : set_vouchers (vouchers db) db = db.
Proof. destruct db; reflexivity. Qed.

Lemma transition_frame st now v :
  v_id (transition st now v) = v_id v
  /\ username (transition st now v) = username v
  /\ value (transition st now v) = value v
  /\ prize (transition st now v) = prize v.
Proof.
  unfold transition.
  destruct (status_is st "Issued"); [| destruct (status_is st "Void")];
    repeat split.
Qed.

Lemma mongo_update_doc st now v :
  Mongo.apply_set (update_doc st now) v = transition st now v.
Proof.
  unfold transition, update_doc. destruct (status_is st "Issued") eqn:Hi.
  - apply status_is_eq in Hi. subst st. reflexivity.
  - destruct (status_is st "Void"); destruct v; reflexivity.
Qed.

Lemma getVoucher_rewrite_rows k f vs :
  (forall v, v_id (f v) = v_id v) ->
  getVoucher k (rewrite_rows k f vs) = option_map f (getVoucher k vs).
Proof.
  intros Hid. unfold getVoucher, rewrite_rows.
  induction vs as [| v rest IH]; cbn; [reflexivity |].
  destruct (v_id v =? k)%N eqn:E.
  - rewrite Hid, E. reflexivity.
  - rewrite E. exact IH.
Qed.

Lemma getVoucher_updateFirst k u vs :
  getVoucher k (fst (Mongo.updateFirst k u vs)) =
    option_map (Mongo.apply_set u) (getVoucher k vs).
Proof.
  unfold getVoucher. induction vs as [| v rest IH]; cbn; [reflexivity |].
  destruct (v_id v =? k)%N eqn:E; cbn.
  - rewrite E. reflexivity.
  - destruct (Mongo.updateFirst k u rest) as [rest' r]. cbn in *.
    rewrite E. exact IH.
Qed.

(** [updateOne] reports a modification exactly when the documents changed. *)
Lemma updateFirst_modified k u vs :
  Mongo.modifiedCount (snd (Mongo.updateFirst k u vs)) = 0
  <-> fst (Mongo.updateFirst k u vs) = vs.
Proof.
  induction vs as [| v rest IH]; cbn; [split; reflexivity |].
  destruct (v_id v =? k)%N; cbn.
  - destruct (Mongo.voucher_eqb v (Mongo.apply_set u v)) eqn:E.
    + apply voucher_eqb_eq in E. rewrite <- E. split; reflexivity.
    + split; [discriminate |]. intros H. injection H as H.
      rewrite H in E. assert (Mongo.voucher_eqb v v = true) by now apply voucher_eqb_eq.
      congruence.
  - destruct (Mongo.updateFirst k u rest) as [rest' r]. cbn in *.
    rewrite IH. split; [intros -> | intros H; injection H]; auto.
Qed.

Lemma updateFirst_unmatched k u vs :
  getVoucher k vs = None -> Mongo.updateFirst k u vs = (vs, Mongo.mkResult 0 0).
Proof.
  unfold getVoucher. induction vs as [| v rest IH]; cbn; [reflexivity |].
  destruct (v_id v =? k)%N; [discriminate |].
  intros H. rewrite (IH H). reflexivity.
Qed.

Section PutCases.

Variable bindId : JsValue -> Bound.
Variables (id : string) (st : option string) (now : string) (db : Db).

Lemma put_throws (s : Server) (msg : string) :
  bindId (JStr id) = Throws msg ->
  handle (put_voucher_status s bindId id st now) db =
    (Some (mkResponse 500 (Error msg)), db).
Proof.
  intros Hb. destruct s; run_handler; rewrite Hb;
    [destruct (status_is st "Issued"); [| destruct (status_is st "Void")] |];
    reflexivity.
Qed.

Lemma sql_put_key (k : N) :
  bindId (JStr id) = Key k ->
  handle (Sql.put_voucher_status bindId id st now) db =
    (Some success_true,
     set_vouchers (rewrite_rows k (transition st now) (vouchers db)) db).
Proof.
  intros Hb. unfold transition. run_handler.
  destruct (status_is st "Issued"); [| destruct (status_is st "Void")];
    rewrite Hb; reflexivity.
Qed.

Lemma sql_put_norow :
  bindId (JStr id) = NoRow ->
  handle (Sql.put_voucher_status bindId id st now) db = (Some success_true, db).
Proof.
  intros Hb. run_handler.
  destruct (status_is st "Issued"); [| destruct (status_is st "Void")];
    rewrite Hb; cbn; rewrite map_id, set_vouchers_same; reflexivity.
Qed.

Lemma mongo_put_key (k : N) :
  bindId (JStr id) = Key k ->
  handle (Mongo.put_voucher_status bindId id st now) db =
    (Some (mkResponse 200
             (Success (0 <? Mongo.modifiedCount
                              (snd (Mongo.updateFirst k (update_doc st now)
                                      (vouchers db))))%nat)),
     set_vouchers (fst (Mongo.updateFirst k (update_doc st now) (vouchers db))) db).
Proof.
  intros Hb. run_handler. rewrite Hb. fold (update_doc st now).
  destruct (Mongo.updateFirst k (update_doc st now) (vouchers db)) as [vs r].
  reflexivity.
Qed.

Lemma mongo_put_norow :
  bindId (JStr id) = NoRow ->
  handle (Mongo.put_voucher_status bindId id st now) db =
    (Some (mkResponse 200 (Success false)), db).
Proof. intros Hb. run_handler. rewrite Hb. reflexivity. Qed.

(** The addressed row after the update, on either server. *)
Lemma put_addressed (s : Server) (k : N) :
  bindId (JStr id) = Key k ->
  getVoucher k (vouchers (snd (handle (put_voucher_status s bindId id st now) db)))
  = option_map (transition st now) (getVoucher k (vouchers db)).
Proof.
  intros Hb. destruct s; cbn [put_voucher_status].
  - rewrite (sql_put_key k Hb). cbn [snd set_vouchers vouchers].
    apply getVoucher_rewrite_rows. intros v. apply transition_frame.
  - rewrite (mongo_put_key k Hb). cbn [snd set_vouchers vouchers].
    rewrite getVoucher_updateFirst.
    destruct (getVoucher k (vouchers db)); cbn; [| reflexivity].
    now rewrite mongo_update_doc.
Qed.

End PutCases.

(** ** What the status update leaves alone *)

Section Frame.

Variable k : N.

Lemma kept_refl v : kept k v v.
Proof. repeat split. Qed.

Lemma Forall2_kept_refl vs : Forall2 (kept k) vs vs.
Proof. induction vs; constructor; auto using kept_refl. Qed.

Lemma rewrite_rows_kept f vs :
  (forall v, only_status_changed v (f v)) ->
  Forall2 (kept k) vs (rewrite_rows k f vs).
Proof.
  intros Hf. unfold rewrite_rows.
  induction vs as [| v rest IH]; cbn; constructor; [| exact IH].
  destruct (N.eqb_spec (v_id v) k) as [E | E].
  - split; [apply Hf | intros Hn; contradiction].
  - apply kept_refl.
Qed.

Lemma updateFirst_kept u vs :
  Forall2 (kept k) vs (fst (Mongo.updateFirst k u vs)).
Proof.
  induction vs as [| v rest IH]; cbn; [constructor |].
  destruct (N.eqb_spec (v_id v) k) as [E | E]; cbn.
  - constructor; [| apply Forall2_kept_refl].
    split; [repeat split | intros Hn; contradiction].
  - destruct (Mongo.updateFirst k u rest) as [rest' r]. cbn in *.
    constructor; [apply kept_refl | exact IH].
Qed.

End Frame.

Lemma transition_only_status st now v : only_status_changed v (transition st now v).
Proof. apply transition_frame. Qed.

(** ** [GET /api/vouchers/count], case by case *)

Section CountCases.

Variable bindId : JsValue -> Bound.
Variables (cid : JsValue) (db : Db).

Lemma count_falsy (s : Server) :
  truthy cid = false ->
  handle (get_vouchers_count s bindId cid) db =
    (Some (mkResponse 200 (Count 0)), db).
Proof. intros Hf. destruct s; run_handler; rewrite Hf; reflexivity. Qed.

Lemma count_unknown (s : Server) :
  unknown_campaign bindId db cid ->
  handle (get_vouchers_count s bindId cid) db =
    (Some (mkResponse 200 (Count 0)), db).
Proof.
  intros [Ht [Hb | (k & Hb & Hc)]]; destruct s; run_handler;
    rewrite Ht, Hb; cbn; try rewrite Hc; reflexivity.
Qed.

Lemma count_found (s : Server) (c : Campaign) :
  references bindId db c cid ->
  handle (get_vouchers_count s bindId cid) db =
    (Some (mkResponse 200
             (Count (countVouchersByValue (Some (content c)) (vouchers db)))),
     db).
Proof.
  intros (Ht & k & Hb & Hc); destruct s; run_handler;
    rewrite Ht, Hb; cbn; rewrite Hc; reflexivity.
Qed.

Lemma count_throws (s : Server) (msg : string) :
  truthy cid = true ->
  bindId cid = Throws msg ->
  handle (get_vouchers_count s bindId cid) db =
    (Some (mkResponse 500 (Error msg)), db).
Proof. intros Ht Hb. destruct s; run_handler; rewrite Ht, Hb; reflexivity. Qed.

End CountCases.

(** ** The success flag of the document server *)

Lemma set_vouchers_inj vs db : set_vouchers vs db = db <-> vs = vouchers db.
Proof.
  destruct db as [vs0 cs n]; cbn. split; [intros H; now injection H | now intros ->].
Qed.

Lemma mongo_put_success_iff bindId id st now db b db' :
  handle (Mongo.put_voucher_status bindId id st now) db =
    (Some (mkResponse 200 (Success b)), db') ->
  (b = true <-> db' <> db).
Proof.
  destruct (bindId (JStr id)) as [msg | k |] eqn:Hb.
  - change (Mongo.put_voucher_status bindId) with (put_voucher_status Document bindId).
    rewrite (put_throws bindId id st now db Document msg Hb). discriminate.
  - rewrite (mongo_put_key bindId id st now db k Hb).
    intros H. injection H as Hflag Hdb. subst b db'.
    rewrite set_vouchers_inj, <- updateFirst_modified, Nat.ltb_lt. lia.
  - rewrite (mongo_put_norow bindId id st now db Hb).
    intros H. injection H as Hflag Hdb. subst b db'.
    split; [discriminate | intros Hn; now contradiction Hn].
Qed.

(** The relational servers answer [{ success: true }] whenever the statement
    did not throw, whatever it matched. *)
Lemma sql_put_success bindId id st now db :
  (exists msg, bindId (JStr id) = Throws msg)
  \/ fst (handle (Sql.put_voucher_status bindId id st now) db) = Some success_true.
Proof.
  destruct (bindId (JStr id)) as [msg | k |] eqn:Hb.
  - left. eauto.
  - right. now rewrite (sql_put_key bindId id st now db k Hb).
  - right. now rewrite (sql_put_norow bindId id st now db Hb).
Qed.

(* ===================================================================== *)
(** * The issuance rule *)

Lemma Forall_firstn_keep {A} (P : A -> Prop) (m : nat) (l : list A) :
  Forall P l -> Forall P (firstn m l).
Proof.
  intros H. rewrite <- (firstn_skipn m l) in H.
  apply Forall_app in H. exact (proj1 H).
Qed.

(** C1, as stated, fails on the code: the campaign of the scenario
    ([quantity = 2]) is named by three sequential requests whose [value] is not
    the campaign's content.  All three are served, the third (the (N+1)-th) is
    not refused, and no voucher carries the campaign's content, where the claim
    promises [min 2 3 = 2] of them. *)
Lemma C1_counterexample :
  let bs := [Scenario.grab "free item" (JNum 1);
             Scenario.grab "free item" (JNum 1);
             Scenario.grab "free item" (JNum 1)] in
  quantity Scenario.promo = 2%Z
  /\ Forall (fun b => references Drivers.intKey Scenario.shop Scenario.promo
                        (campaignId b)) bs
  /\ fst (serve (post_vouchers Relational Drivers.intKey) bs Scenario.shop)
     = [Some success_true; Some success_true; Some success_true]
  /\ countVouchersByValue (Some (content Scenario.promo))
       (vouchers (snd (serve (post_vouchers Relational Drivers.intKey) bs
                         Scenario.shop))) = 0
  /\ 0 <> Nat.min 2 (List.length bs).
Proof.
  cbn zeta. split; [reflexivity |]. split.
  - repeat constructor; exists 1%N; split; reflexivity.
  - split; [vm_compute; reflexivity |].
    split; [vm_compute; reflexivity | cbn; discriminate].
Qed.

(** C1, amended: for a campaign C with [quantity = N], take any sequence of
    sequential [POST /api/vouchers] requests that name C, whatever [value]
    they carry, and let [c0] be the number of vouchers with
    [value = C.content] before the first of them.  The service stores the
    caller's [value], so only the requests whose [value] is C's content add
    to that number: after the sequence it is [c0 + min (N - c0) m], with [m]
    the number of such requests ([min N m] when [c0 = 0]).  A request of the
    sequence is answered [400 Out of stock] when [c0] plus the number of such
    requests before it has reached N, and is served otherwise, whatever its
    own [value].  After every prefix of the sequence the number of vouchers
    with [value = C.content] is at most [max N c0], so never above N when it
    started at or below N.  In particular, when [c0 = 0] and every request
    carries C's content, that number ends at [min N attempts] and the
    (N+1)-th request is refused.  This holds on the relational and on the
    document server. *)
Theorem C1_sequential_stock :
  forall (s : Server) (bindId : JsValue -> Bound) (c : Campaign) (N : nat)
         (db : Db) (bs : list VoucherBody),
    quantity c = Z.of_nat N ->
    Forall (fun b => references bindId db c (campaignId b)) bs ->
    let c0 := countVouchersByValue (Some (content c)) (vouchers db) in
    let after l :=
      countVouchersByValue (Some (content c))
        (vouchers (snd (serve (post_vouchers s bindId) l db))) in
    after bs = c0 + Nat.min (N - c0) (asking (content c) bs)
    /\ (forall pre b rest,
          bs = pre ++ b :: rest ->
          nth_error (fst (serve (post_vouchers s bindId) bs db)) (List.length pre)
          = Some (Some (if (N <=? c0 + asking (content c) pre)%nat
                        then out_of_stock else success_true)))
    /\ (forall m, after (firstn m bs) <= Nat.max N c0)
    /\ (c0 = 0 ->
        Forall (fun b => b_value b = Some (content c)) bs ->
        after bs = Nat.min N (List.length bs)
        /\ (N < List.length bs ->
            nth_error (fst (serve (post_vouchers s bindId) bs db)) N
            = Some (Some out_of_stock))).
Proof.
  intros s bindId c N db bs HN Hall c0 after.
  assert (Hafter : forall l,
             Forall (fun b => references bindId db c (campaignId b)) l ->
             after l = c0 + Nat.min (N - c0) (asking (content c) l)).
  { intros l Hl. exact (serve_issued s bindId c N HN l db Hl). }
  assert (Hnth : forall pre b rest,
             bs = pre ++ b :: rest ->
             nth_error (fst (serve (post_vouchers s bindId) bs db))
               (List.length pre)
             = Some (Some (if (N <=? c0 + asking (content c) pre)%nat
                           then out_of_stock else success_true))).
  { intros pre b rest Hbs. subst bs.
    apply Forall_app in Hall. destruct Hall as [Hpre Hcons].
    inversion Hcons as [| ? ? Hb _]; subst.
    rewrite serve_app. cbn [fst].
    rewrite nth_error_app2 by (rewrite serve_length; lia).
    rewrite serve_length, Nat.sub_diag.
    pose proof (Hafter pre Hpre) as Hcount. unfold after in Hcount.
    assert (Href : references bindId
                     (snd (serve (post_vouchers s bindId) pre db)) c
                     (campaignId b)).
    { unfold references in *. now rewrite serve_keeps_campaigns. }
    cbn [serve].
    destruct (Nat.leb_spec N (c0 + asking (content c) pre)) as [Hle | Hlt].
    - rewrite (post_sold_out s bindId c N HN b _ Href)
        by (unfold issued; rewrite Hcount; lia).
      destruct (serve (post_vouchers s bindId) rest _); reflexivity.
    - rewrite (post_in_stock s bindId c N HN b _ Href)
        by (unfold issued; rewrite Hcount; lia).
      destruct (serve (post_vouchers s bindId) rest _); reflexivity. }
  split; [exact (Hafter bs Hall) |]. split; [exact Hnth |]. split.
  - intros m. rewrite (Hafter _ (Forall_firstn_keep _ m bs Hall)). lia.
  - intros H0 Hvalues. rewrite (Hafter bs Hall), H0.
    rewrite (asking_all _ bs Hvalues), Nat.sub_0_r. split; [reflexivity |].
    intros Hlt.
    pose proof (firstn_skipn N bs) as Hsplit.
    destruct (skipn N bs) as [| b rest] eqn:Hskip.
    { apply (f_equal (@List.length _)) in Hskip.
      rewrite List.length_skipn in Hskip. cbn in Hskip. lia. }
    pose proof (Hnth (firstn N bs) b rest (eq_sym Hsplit)) as Hn.
    rewrite List.length_firstn, Nat.min_l in Hn by lia.
    rewrite Hn, H0.
    rewrite (asking_all _ (firstn N bs) (Forall_firstn_keep _ N bs Hvalues)).
    rewrite List.length_firstn, Nat.min_l by lia.
    cbn [Nat.add]. now rewrite Nat.leb_refl.
Qed.

(** The campaign of the scenario ([quantity = 2]) named by four requests, the
    second with another [value]: the first three are served, two vouchers
    carry the campaign's content, and the fourth request is refused. *)
Lemma C1_sequential_stock_witness :
  let bs := [Scenario.grab "10% off" (JNum 1);
             Scenario.grab "free item" (JNum 1);
             Scenario.grab "10% off" (JNum 1);
             Scenario.grab "10% off" (JNum 1)] in
  countVouchersByValue (Some "10% off")
    (vouchers (snd (serve (post_vouchers Relational Drivers.intKey) bs
                      Scenario.shop))) = 2
  /\ nth_error (fst (serve (post_vouchers Relational Drivers.intKey) bs
                       Scenario.shop)) 1
     = Some (Some success_true)
  /\ nth_error (fst (serve (post_vouchers Relational Drivers.intKey) bs
                       Scenario.shop)) 3
     = Some (Some out_of_stock).
Proof.
  cbn zeta.
  pose proof (C1_sequential_stock Relational Drivers.intKey Scenario.promo 2
                Scenario.shop
                [Scenario.grab "10% off" (JNum 1);
                 Scenario.grab "free item" (JNum 1);
                 Scenario.grab "10% off" (JNum 1);
                 Scenario.grab "10% off" (JNum 1)]) as H.
  destruct H as (Hcount & Hresp & _).
  - reflexivity.
  - repeat constructor; exists 1%N; split; reflexivity.
  - split; [exact Hcount |]. split.
    + exact (Hresp [Scenario.grab "10% off" (JNum 1)]
               (Scenario.grab "free item" (JNum 1))
               [Scenario.grab "10% off" (JNum 1);
                Scenario.grab "10% off" (JNum 1)] eq_refl).
    + exact (Hresp [Scenario.grab "10% off" (JNum 1);
                    Scenario.grab "free item" (JNum 1);
                    Scenario.grab "10% off" (JNum 1)]
               (Scenario.grab "10% off" (JNum 1)) [] eq_refl).
Defined.

(** C2, as stated, fails on the code: a request names the existing campaign
    (content "10% off") with [value: "free item"] and is served; the row that
    was written carries "free item", not the campaign's content. *)
Lemma C2_counterexample :
  let b := Scenario.grab "free item" (JNum 1) in
  references Drivers.intKey Scenario.shop Scenario.promo (campaignId b)
  /\ handle (post_vouchers Relational Drivers.intKey b) Scenario.shop
     = (Some success_true,
        mkDb [mkVoucher 1 (Some "alice") (Some "free item") (Some "p1")
                        (Some "Pending") None]
             [Scenario.promo] 2)
  /\ Some "free item" <> Some (content Scenario.promo).
Proof.
  cbn zeta. split.
  - split; [reflexivity | exists 1%N; split; reflexivity].
  - split; [vm_compute; reflexivity | discriminate].
Qed.

(** C2, amended: for every [POST /api/vouchers] request that names an existing
    campaign and is served, exactly one voucher is appended and its [value] is
    the caller-supplied [value]; the campaign's content is used for the stock
    count only and is never written to the voucher. *)
Theorem C2_persisted_value_is_callers :
  forall (s : Server) (bindId : JsValue -> Bound) (b : VoucherBody) (db : Db)
         (c : Campaign),
    references bindId db c (campaignId b) ->
    fst (handle (post_vouchers s bindId b) db) = Some success_true ->
    exists v,
      vouchers (snd (handle (post_vouchers s bindId b) db)) = vouchers db ++ [v]
      /\ value v = b_value b.
Proof.
  intros s bindId b db c _ Hok.
  destruct (post_outcome bindId b db s) as [H | (r & Hcode & H)];
    rewrite H in *; cbn [fst snd] in *.
  - eexists. split; reflexivity.
  - injection Hok as ->. cbn in Hcode. contradiction.
Qed.

Lemma C2_persisted_value_is_callers_witness :
  exists v,
    vouchers (snd (handle (post_vouchers Document Drivers.objectId
                             (Scenario.grab "free item" (JStr Scenario.oid)))
                     Scenario.shop_docs)) = [] ++ [v]
    /\ value v = Some "free item".
Proof.
  apply (C2_persisted_value_is_callers Document Drivers.objectId
           (Scenario.grab "free item" (JStr Scenario.oid)) Scenario.shop_docs
           Scenario.promo_doc).
  - split; [reflexivity |]. eexists. split; vm_compute; reflexivity.
  - vm_compute. reflexivity.
Defined.

(** C3: on the relational servers a request whose [campaignId] names no
    campaign is not answered [400 Campaign not found]: [campaign] is
    [undefined], reading [campaign.quantity] throws, and the handler answers
    [500] with the message of the [TypeError].  No voucher is created.  The
    document server, on the same kind of request, answers
    [400 Campaign not found]. *)
Theorem C3_relational_unknown_campaign :
  unknown_campaign Drivers.intKey Scenario.shop (JNum 7)
  /\ handle (post_vouchers Relational Drivers.intKey
               (Scenario.grab "10% off" (JNum 7))) Scenario.shop
     = (Some (mkResponse 500 (Error TypeError_quantity)), Scenario.shop)
  /\ unknown_campaign Drivers.objectId Scenario.shop_docs (JStr Scenario.other_oid)
  /\ handle (post_vouchers Document Drivers.objectId
               (Scenario.grab "10% off" (JStr Scenario.other_oid)))
       Scenario.shop_docs
     = (Some campaign_not_found, Scenario.shop_docs).
Proof.
  assert (H1 : unknown_campaign Drivers.intKey Scenario.shop (JNum 7)).
  { split; [reflexivity |]. right. exists 7%N. split; reflexivity. }
  assert (H2 : unknown_campaign Drivers.objectId Scenario.shop_docs
                 (JStr Scenario.other_oid)).
  { split; [reflexivity |]. right. eexists. split; vm_compute; reflexivity. }
  split; [exact H1 |]. split; [| split; [exact H2 |]].
  - exact (sql_post_unknown Drivers.intKey (Scenario.grab "10% off" (JNum 7))
             Scenario.shop H1).
  - exact (mongo_post_unknown Drivers.objectId
             (Scenario.grab "10% off" (JStr Scenario.other_oid))
             Scenario.shop_docs H2).
Qed.

(** C4: a request without [campaignId] is served on every database, whatever
    the campaigns and their remaining stock: the answer is [{ success: true }]
    and the voucher built from the caller's fields is appended. *)
Theorem C4_no_campaign_unconditional :
  forall (s : Server) (bindId : JsValue -> Bound)
         (u v p st ca : option string) (db : Db),
    handle (post_vouchers s bindId (mkBody u v p st ca JUndefined)) db
    = (Some success_true, insertVoucher (mkBody u v p st ca JUndefined) db)
    /\ vouchers (insertVoucher (mkBody u v p st ca JUndefined) db)
       = vouchers db ++ [mkVoucher (next_id db) u v p st ca]
    /\ voucher_campaigns (insertVoucher (mkBody u v p st ca JUndefined) db)
       = voucher_campaigns db.
Proof.
  intros. split; [| split; reflexivity].
  apply post_falsy. reflexivity.
Qed.

(** C5: a [POST /api/vouchers] request that is rejected, with
    [400 Out of stock] or [400 Campaign not found] (or answered [500] after an
    exception), leaves the database exactly as it was: no voucher is created. *)
Theorem C5_rejected_leaves_store :
  forall (s : Server) (bindId : JsValue -> Bound) (b : VoucherBody) (db : Db)
         (r : Response),
    fst (handle (post_vouchers s bindId b) db) = Some r ->
    r = out_of_stock \/ r = campaign_not_found \/ code r = 500 ->
    snd (handle (post_vouchers s bindId b) db) = db.
Proof.
  intros s bindId b db r Hr Hrej.
  destruct (post_outcome bindId b db s) as [H | (r' & _ & H)];
    rewrite H in *; cbn [fst snd] in *; [| reflexivity].
  injection Hr as <-. destruct Hrej as [Hrej | [Hrej | Hrej]]; discriminate.
Qed.

Lemma C5_rejected_leaves_store_witness :
  snd (handle (post_vouchers Document Drivers.objectId
                 (Scenario.grab "10% off" (JStr Scenario.other_oid)))
         Scenario.shop_docs) = Scenario.shop_docs.
Proof.
  apply (C5_rejected_leaves_store Document Drivers.objectId
           (Scenario.grab "10% off" (JStr Scenario.other_oid)) Scenario.shop_docs
           campaign_not_found).
  - vm_compute. reflexivity.
  - right. left. reflexivity.
Defined.

(** C10: the test on [campaignId] is truthiness.  [0], the empty string,
    [null] and [undefined] are falsy, and for every falsy [campaignId] the
    handler skips the stock check: it answers [{ success: true }] and inserts
    the voucher, exactly as it does when [campaignId] is absent. *)
Theorem C10_falsy_campaignId :
  forall (s : Server) (bindId : JsValue -> Bound)
         (u v p st ca : option string) (cid : JsValue) (db : Db),
    truthy cid = false ->
    Forall (fun x => truthy x = false) [JNum 0; JStr ""; JNull; JUndefined]
    /\ handle (post_vouchers s bindId (mkBody u v p st ca cid)) db
       = (Some success_true,
          mkDb (vouchers db ++ [mkVoucher (next_id db) u v p st ca])
               (voucher_campaigns db) (N.succ (next_id db)))
    /\ handle (post_vouchers s bindId (mkBody u v p st ca cid)) db
       = handle (post_vouchers s bindId (mkBody u v p st ca JUndefined)) db.
Proof.
  intros s bindId u v p st ca cid db Hf.
  split; [repeat constructor |].
  rewrite (post_falsy bindId (mkBody u v p st ca cid) db s Hf).
  rewrite (post_falsy bindId (mkBody u v p st ca JUndefined) db s eq_refl).
  split; reflexivity.
Qed.

(** A sold-out campaign (quantity 2, two vouchers of its content) and a request
    with [campaignId: 0]: served all the same. *)
Lemma C10_falsy_campaignId_witness :
  handle (post_vouchers Relational Drivers.intKey
            (mkBody (Some "bob") (Some "10% off") None None None (JNum 0)))
    (mkDb [Scenario.pending; Scenario.pending] [Scenario.promo] 3)
  = (Some success_true,
     mkDb ([Scenario.pending; Scenario.pending]
           ++ [mkVoucher 3 (Some "bob") (Some "10% off") None None None])
          [Scenario.promo] 4).
Proof.
  apply (C10_falsy_campaignId Relational Drivers.intKey
           (Some "bob") (Some "10% off") None None None (JNum 0)
           (mkDb [Scenario.pending; Scenario.pending] [Scenario.promo] 3)).
  reflexivity.
Defined.

(* ===================================================================== *)
(** * The status transition *)

(** C6: for an existing voucher, [PUT /api/voucher/:id/status] with "Issued"
    sets [status] to "Issued" and [claimedAt] to the current timestamp (not
    null); with "Void" it sets [status] to "Void" and [claimedAt] to null; with
    any other status it sets [status] to that status and leaves [claimedAt] as
    it was.  This holds on the relational and on the document server. *)
Theorem C6_status_transition :
  forall (s : Server) (bindId : JsValue -> Bound) (id now : string) (db : Db)
         (k : N) (v : Voucher),
    bindId (JStr id) = Key k ->
    getVoucher k (vouchers db) = Some v ->
    (exists v',
        getVoucher k (vouchers (snd (handle
          (put_voucher_status s bindId id (Some "Issued") now) db))) = Some v'
        /\ status v' = Some "Issued" /\ claimedAt v' = Some now
        /\ claimedAt v' <> None)
    /\ (exists v',
        getVoucher k (vouchers (snd (handle
          (put_voucher_status s bindId id (Some "Void") now) db))) = Some v'
        /\ status v' = Some "Void" /\ claimedAt v' = None)
    /\ (forall st : option string,
          st <> Some "Issued" -> st <> Some "Void" ->
          exists v',
            getVoucher k (vouchers (snd (handle
              (put_voucher_status s bindId id st now) db))) = Some v'
            /\ status v' = st /\ claimedAt v' = claimedAt v).
Proof.
  intros s bindId id now db k v Hb Hv.
  split; [| split].
  - exists (transition (Some "Issued") now v). split.
    + rewrite (put_addressed bindId id (Some "Issued") now db s k Hb), Hv.
      reflexivity.
    + cbn. repeat split. discriminate.
  - exists (transition (Some "Void") now v). split.
    + rewrite (put_addressed bindId id (Some "Void") now db s k Hb), Hv.
      reflexivity.
    + cbn. repeat split.
  - intros st Hi Hvo. exists (transition st now v). split.
    + rewrite (put_addressed bindId id st now db s k Hb), Hv. reflexivity.
    + unfold transition.
      rewrite (status_is_neq st "Issued" Hi), (status_is_neq st "Void" Hvo).
      split; reflexivity.
Qed.

Lemma C6_status_transition_witness :
  exists v',
    getVoucher 1 (vouchers (snd (handle
      (put_voucher_status Relational Drivers.intKey "1" (Some "Issued")
         Scenario.noon) Scenario.wallet))) = Some v'
    /\ status v' = Some "Issued" /\ claimedAt v' = Some Scenario.noon
    /\ claimedAt v' <> None.
Proof.
  apply (C6_status_transition Relational Drivers.intKey "1" Scenario.noon
           Scenario.wallet 1 Scenario.pending); reflexivity.
Defined.

(** C7: for every id and every new status, [PUT /api/voucher/:id/status]
    leaves the campaigns alone and keeps the vouchers in place, each with its
    key, [username], [value] and [prize]; a voucher whose key is not the
    addressed one is left exactly as it was. *)
Theorem C7_status_update_frame :
  forall (s : Server) (bindId : JsValue -> Bound) (id : string)
         (st : option string) (now : string) (db : Db),
    voucher_campaigns (snd (handle (put_voucher_status s bindId id st now) db))
    = voucher_campaigns db
    /\ Forall2
         (fun v v' =>
            only_status_changed v v'
            /\ (bindId (JStr id) <> Key (v_id v) -> v' = v))
         (vouchers db)
         (vouchers (snd (handle (put_voucher_status s bindId id st now) db))).
Proof.
  intros s bindId id st now db.
  assert (Hsame : forall vs : list Voucher,
             Forall2 (fun v v' => only_status_changed v v'
                        /\ (bindId (JStr id) <> Key (v_id v) -> v' = v)) vs vs).
  { induction vs; constructor; auto. repeat split. }
  destruct (bindId (JStr id)) as [msg | k |] eqn:Hb.
  - rewrite (put_throws bindId id st now db s msg Hb). cbn [snd]. auto.
  - assert (Hk : forall vs vs' : list Voucher,
               Forall2 (fun v v' => only_status_changed v v'
                          /\ (v_id v <> k -> v' = v)) vs vs' ->
               Forall2 (fun v v' => only_status_changed v v'
                          /\ (Key k <> Key (v_id v) -> v' = v)) vs vs').
    { intros vs vs' H. eapply Forall2_impl; [| exact H].
      intros a a' [H1 H2]. split; [exact H1 |].
      intros Hn. apply H2. intros E. apply Hn. now rewrite E. }
    destruct s; cbn [put_voucher_status].
    + rewrite (sql_put_key bindId id st now db k Hb). cbn [snd set_vouchers
        vouchers voucher_campaigns]. split; [reflexivity |].
      apply Hk, rewrite_rows_kept. intros v. apply transition_only_status.
    + rewrite (mongo_put_key bindId id st now db k Hb). cbn [snd set_vouchers
        vouchers voucher_campaigns]. split; [reflexivity |].
      apply Hk, updateFirst_kept.
  - destruct s; cbn [put_voucher_status].
    + rewrite (sql_put_norow bindId id st now db Hb). cbn [snd]. auto.
    + rewrite (mongo_put_norow bindId id st now db Hb). cbn [snd]. auto.
Qed.

(** C8: on the relational servers the success flag is not derived from the
    affected-row count.  The database holds one voucher, key 1; the status of
    id 42 is updated; no row is modified and the answer is
    [{ success: true }].  The document server, asked for an id of no document,
    answers [{ success: false }]. *)
Theorem C8_relational_success_without_row :
  getVoucher 42 (vouchers Scenario.wallet) = None
  /\ Drivers.intKey (JStr "42") = Key 42
  /\ handle (put_voucher_status Relational Drivers.intKey "42" (Some "Issued")
               Scenario.noon) Scenario.wallet
     = (Some success_true, Scenario.wallet)
  /\ handle (put_voucher_status Document Drivers.objectId Scenario.other_oid
               (Some "Issued") Scenario.noon) Scenario.wallet_docs
     = (Some (mkResponse 200 (Success false)), Scenario.wallet_docs).
Proof. repeat split; vm_compute; reflexivity. Qed.

(* ===================================================================== *)
(** * The count endpoint *)

Section CountByDriver.

Variable bindId : JsValue -> Bound.
Variables (e : Engine) (cid : JsValue) (db : Db).

Lemma count_by_falsy :
  truthy cid = false ->
  handle (SqlApp.get_vouchers_count_by bindId e cid) db =
    (Some (mkResponse 200 (Count 0)), db).
Proof.
  intros Hf. unfold SqlApp.get_vouchers_count_by. run_handler.
  rewrite Hf. reflexivity.
Qed.

Lemma count_by_unknown :
  unknown_campaign bindId db cid ->
  handle (SqlApp.get_vouchers_count_by bindId e cid) db =
    (Some (mkResponse 200 (Count 0)), db).
Proof.
  intros [Ht [Hb | (k & Hb & Hc)]]; unfold SqlApp.get_vouchers_count_by;
    run_handler; rewrite Ht, Hb; cbn; try rewrite Hc; reflexivity.
Qed.

Lemma count_by_throws (msg : string) :
  truthy cid = true ->
  bindId cid = Throws msg ->
  handle (SqlApp.get_vouchers_count_by bindId e cid) db =
    (Some (mkResponse 500 (Error msg)), db).
Proof.
  intros Ht Hb. unfold SqlApp.get_vouchers_count_by. run_handler.
  rewrite Ht, Hb. reflexivity.
Qed.

Lemma count_by_found (c : Campaign) :
  references bindId db c cid ->
  handle (SqlApp.get_vouchers_count_by bindId e cid) db =
    (Some (mkResponse 200
             (count_json e (countVouchersByValue (Some (content c))
                              (vouchers db)))),
     db).
Proof.
  intros (Ht & k & Hb & Hc). unfold SqlApp.get_vouchers_count_by.
  run_handler. rewrite Ht, Hb. cbn. rewrite Hc. reflexivity.
Qed.

End CountByDriver.

(** C9, as stated, fails on the code.  On the document server a
    [campaignId] of "7" names no campaign, and no id the driver would accept:
    [new ObjectId] throws inside the [try] and the answer is [500] with the
    error, not [{ count: 0 }].  The PostgreSQL server does the same with a
    [campaignId] that is not an integer, and sends the count of an existing
    campaign as a string. *)
Lemma C9_counterexample :
  truthy (JStr "7") = true
  /\ (forall c : Campaign,
        ~ references Drivers.objectId Scenario.wallet_docs c (JStr "7"))
  /\ (exists msg : string,
        handle (get_vouchers_count Document Drivers.objectId (JStr "7"))
          Scenario.wallet_docs
        = (Some (mkResponse 500 (Error msg)), Scenario.wallet_docs))
  /\ (exists msg : string,
        handle (SqlApp.get_vouchers_count_by Drivers.intKey Pg (JStr "abc"))
          Scenario.wallet
        = (Some (mkResponse 500 (Error msg)), Scenario.wallet))
  /\ handle (SqlApp.get_vouchers_count_by Drivers.intKey Pg (JStr "1"))
       Scenario.wallet
     = (Some (mkResponse 200 (CountText "1")), Scenario.wallet).
Proof.
  split; [reflexivity |]. split.
  - intros c (_ & k & Hk & _). vm_compute in Hk. discriminate.
  - split; [eexists; vm_compute; reflexivity |].
    split; [eexists; vm_compute; reflexivity | vm_compute; reflexivity].
Qed.

(** C9, amended: [GET /api/vouchers/count] answers [200 { count: 0 }] when
    [campaignId] is missing from the query (or otherwise falsy) and when it
    is an id the driver accepts that is the key of no campaign.  When the
    driver refuses the id (what is not an ObjectId on the document server,
    what is not an integer on the PostgreSQL server) the exception is caught
    and the answer is [500 { error: message }].  When it names the campaign
    [c] the answer is [200 { count: n }] with [n] the number of vouchers
    whose [value] is [c]'s content: a number on the document server and on
    the two sqlite servers, its decimal text on the PostgreSQL server.  The
    database is never changed. *)
Theorem C9_count_endpoint :
  forall (bindId : JsValue -> Bound) (cid : JsValue) (db : Db),
    let document := handle (get_vouchers_count Document bindId cid) db in
    let relational e :=
      handle (SqlApp.get_vouchers_count_by bindId e cid) db in
    (truthy cid = false \/ unknown_campaign bindId db cid ->
     document = (Some (mkResponse 200 (Count 0)), db)
     /\ forall e, relational e = (Some (mkResponse 200 (Count 0)), db))
    /\ (forall msg : string,
          truthy cid = true -> bindId cid = Throws msg ->
          document = (Some (mkResponse 500 (Error msg)), db)
          /\ forall e, relational e = (Some (mkResponse 500 (Error msg)), db))
    /\ (forall c : Campaign,
          references bindId db c cid ->
          let n := countVouchersByValue (Some (content c)) (vouchers db) in
          document = (Some (mkResponse 200 (Count n)), db)
          /\ relational Sqlite3 = (Some (mkResponse 200 (Count n)), db)
          /\ relational BetterSqlite3 = (Some (mkResponse 200 (Count n)), db)
          /\ relational Pg
             = (Some (mkResponse 200
                        (CountText (NilEmpty.string_of_uint (Nat.to_uint n)))),
                db)).
Proof.
  intros bindId cid db. cbn zeta. split; [| split].
  - intros [Hf | Hu]; split.
    + now apply count_falsy.
    + intros e. now apply count_by_falsy.
    + now apply count_unknown.
    + intros e. now apply count_by_unknown.
  - intros msg Ht Hb. split.
    + now apply count_throws.
    + intros e. now apply count_by_throws.
  - intros c Href. split; [now apply count_found |].
    split; [| split].
    + exact (count_by_found bindId Sqlite3 cid db c Href).
    + exact (count_by_found bindId BetterSqlite3 cid db c Href).
    + exact (count_by_found bindId Pg cid db c Href).
Qed.

(** The wallet of the scenario on the relational servers: no [campaignId]
    and the id of no campaign are answered [{ count: 0 }], an id that is not
    an integer is answered [500], and the campaign's one voucher is counted
    as [1] by the sqlite servers and as ["1"] by the PostgreSQL server. *)
Lemma C9_count_endpoint_witness :
  handle (SqlApp.get_vouchers_count_by Drivers.intKey Pg JUndefined)
    Scenario.wallet
  = (Some (mkResponse 200 (Count 0)), Scenario.wallet)
  /\ handle (SqlApp.get_vouchers_count_by Drivers.intKey Pg (JStr "7"))
       Scenario.wallet
     = (Some (mkResponse 200 (Count 0)), Scenario.wallet)
  /\ handle (SqlApp.get_vouchers_count_by Drivers.intKey Pg (JStr "abc"))
       Scenario.wallet
     = (Some (mkResponse 500
                (Error "invalid input syntax for type integer")),
        Scenario.wallet)
  /\ handle (SqlApp.get_vouchers_count_by Drivers.intKey Sqlite3 (JStr "1"))
       Scenario.wallet
     = (Some (mkResponse 200 (Count 1)), Scenario.wallet)
  /\ handle (SqlApp.get_vouchers_count_by Drivers.intKey Pg (JStr "1"))
       Scenario.wallet
     = (Some (mkResponse 200 (CountText "1")), Scenario.wallet).
Proof.
  split; [| split; [| split; [| split]]].
  - apply (proj1 (C9_count_endpoint Drivers.intKey JUndefined Scenario.wallet)).
    left. reflexivity.
  - apply (proj1 (C9_count_endpoint Drivers.intKey (JStr "7") Scenario.wallet)).
    right. split; [reflexivity |]. right. exists 7%N. split; reflexivity.
  - apply (proj1 (proj2 (C9_count_endpoint Drivers.intKey (JStr "abc")
                           Scenario.wallet))); reflexivity.
  - apply (proj2 (proj2 (C9_count_endpoint Drivers.intKey (JStr "1")
                           Scenario.wallet)) Scenario.promo).
    split; [reflexivity |]. exists 1%N. split; reflexivity.
  - apply (proj2 (proj2 (C9_count_endpoint Drivers.intKey (JStr "1")
                           Scenario.wallet)) Scenario.promo).
    split; [reflexivity |]. exists 1%N. split; reflexivity.
Defined.

(* ===================================================================== *)
(** * Stock and the other voucher operations *)

Lemma count_pointwise (x : option string) (vs vs' : list Voucher) :
  Forall2 (fun v v' => value v' = value v) vs vs' ->
  countVouchersByValue x vs' = countVouchersByValue x vs.
Proof.
  unfold countVouchersByValue.
  induction 1 as [| v v' vs vs' Hv _ IH]; cbn; [reflexivity |].
  rewrite Hv. destruct (text_eq (value v) x); cbn; now rewrite IH.
Qed.

Lemma put_keeps_values (s : Server) bindId id st now db :
  voucher_campaigns (snd (handle (put_voucher_status s bindId id st now) db))
  = voucher_campaigns db
  /\ Forall2 (fun v v' => value v' = value v) (vouchers db)
       (vouchers (snd (handle (put_voucher_status s bindId id st now) db))).
Proof.
  assert (Hsame : forall vs : list Voucher,
             Forall2 (fun v v' => value v' = value v) vs vs).
  { induction vs; constructor; auto. }
  assert (Hk : forall k (vs vs' : list Voucher),
             Forall2 (kept k) vs vs' ->
             Forall2 (fun v v' => value v' = value v) vs vs').
  { intros k vs vs' H. eapply Forall2_impl; [| exact H].
    intros a a' [(_ & _ & Hv & _) _]. exact Hv. }
  destruct (bindId (JStr id)) as [msg | k |] eqn:Hb.
  - rewrite (put_throws bindId id st now db s msg Hb). cbn [snd]. auto.
  - destruct s; cbn [put_voucher_status].
    + rewrite (sql_put_key bindId id st now db k Hb).
      cbn [snd set_vouchers vouchers voucher_campaigns]. split; [reflexivity |].
      apply (Hk k), rewrite_rows_kept. intros v. apply transition_only_status.
    + rewrite (mongo_put_key bindId id st now db k Hb).
      cbn [snd set_vouchers vouchers voucher_campaigns]. split; [reflexivity |].
      apply (Hk k), updateFirst_kept.
  - destruct s; cbn [put_voucher_status].
    + rewrite (sql_put_norow bindId id st now db Hb). cbn [snd]. auto.
    + rewrite (mongo_put_norow bindId id st now db Hb). cbn [snd]. auto.
Qed.

(** The answer to a voucher request depends on the database only through the
    campaigns and the number of vouchers of each value. *)
Lemma post_answer_by_counts (s : Server) bindId (b : VoucherBody) (db db' : Db) :
  voucher_campaigns db' = voucher_campaigns db ->
  (forall x, countVouchersByValue x (vouchers db')
             = countVouchersByValue x (vouchers db)) ->
  fst (handle (post_vouchers s bindId b) db')
  = fst (handle (post_vouchers s bindId b) db).
Proof.
  intros Hc Hn.
  destruct (truthy (campaignId b)) eqn:Ht.
  2:{ now rewrite !(post_falsy bindId b _ s Ht). }
  destruct (bindId (campaignId b)) as [msg | k |] eqn:Hb.
  - now rewrite !(post_throws bindId b _ s msg Ht Hb).
  - destruct (getCampaign k (voucher_campaigns db)) as [c |] eqn:Hg.
    + rewrite (post_found bindId b db s k c Ht Hb Hg).
      rewrite (post_found bindId b db' s k c Ht Hb) by (now rewrite Hc).
      rewrite Hn. destruct (_ >=? _)%Z; reflexivity.
    + assert (Hu : unknown_campaign bindId db (campaignId b))
        by (split; [assumption | right; eauto]).
      assert (Hu' : unknown_campaign bindId db' (campaignId b))
        by (split; [assumption | right; exists k; now rewrite Hc]).
      destruct s; cbn [post_vouchers].
      * now rewrite (sql_post_unknown bindId b db Hu),
          (sql_post_unknown bindId b db' Hu').
      * now rewrite (mongo_post_unknown bindId b db Hu),
          (mongo_post_unknown bindId b db' Hu').
  - assert (Hu : unknown_campaign bindId db (campaignId b))
      by (split; [assumption | now left]).
    assert (Hu' : unknown_campaign bindId db' (campaignId b))
      by (split; [assumption | now left]).
    destruct s; cbn [post_vouchers].
    + now rewrite (sql_post_unknown bindId b db Hu),
        (sql_post_unknown bindId b db' Hu').
    + now rewrite (mongo_post_unknown bindId b db Hu),
        (mongo_post_unknown bindId b db' Hu').
Qed.

(** X1: a status update returns no stock.  After [PUT /api/voucher/:id/status],
    whatever the id and the status ("Void" included), every value is carried
    by as many vouchers as before, and every voucher request gets the answer
    it would have got before the update. *)
Theorem X1_status_update_keeps_stock :
  forall (s : Server) (bindId : JsValue -> Bound) (id : string)
         (st : option string) (now : string) (db : Db),
    (forall x : option string,
        countVouchersByValue x
          (vouchers (snd (handle (put_voucher_status s bindId id st now) db)))
        = countVouchersByValue x (vouchers db))
    /\ (forall b : VoucherBody,
          fst (handle (post_vouchers s bindId b)
                 (snd (handle (put_voucher_status s bindId id st now) db)))
          = fst (handle (post_vouchers s bindId b) db)).
Proof.
  intros s bindId id st now db.
  destruct (put_keeps_values s bindId id st now db) as [Hc Hv].
  assert (Hn : forall x : option string,
             countVouchersByValue x
               (vouchers (snd (handle (put_voucher_status s bindId id st now) db)))
             = countVouchersByValue x (vouchers db))
    by (intros x; now apply count_pointwise).
  split; [exact Hn |].
  intros b. now apply post_answer_by_counts.
Qed.

(** X2: the count endpoint and the stock check agree.  When a request names
    the campaign [c], [GET /api/vouchers/count] with the same [campaignId]
    answers some [{ count: n }]; the request is served if [n < quantity] and
    answered [400 Out of stock] if [quantity <= n]. *)
Theorem X2_count_agrees_with_stock_check :
  forall (s : Server) (bindId : JsValue -> Bound) (b : VoucherBody) (db : Db)
         (c : Campaign),
    references bindId db c (campaignId b) ->
    exists n : nat,
      handle (get_vouchers_count s bindId (campaignId b)) db
      = (Some (mkResponse 200 (Count n)), db)
      /\ ((Z.of_nat n < quantity c)%Z ->
          handle (post_vouchers s bindId b) db
          = (Some success_true, insertVoucher b db))
      /\ ((quantity c <= Z.of_nat n)%Z ->
          handle (post_vouchers s bindId b) db = (Some out_of_stock, db)).
Proof.
  intros s bindId b db c Href.
  exists (countVouchersByValue (Some (content c)) (vouchers db)).
  split; [now apply count_found |].
  destruct Href as (Ht & k & Hb & Hc).
  rewrite (post_found bindId b db s k c Ht Hb Hc).
  destruct (Z.geb_spec
              (Z.of_nat (countVouchersByValue (Some (content c)) (vouchers db)))
              (quantity c)); split; intros; try reflexivity; lia.
Qed.

Lemma X2_count_agrees_with_stock_check_witness :
  exists n : nat,
    handle (get_vouchers_count Relational Drivers.intKey (JNum 1)) Scenario.wallet
    = (Some (mkResponse 200 (Count n)), Scenario.wallet)
    /\ ((Z.of_nat n < 2)%Z ->
        handle (post_vouchers Relational Drivers.intKey
                  (Scenario.grab "10% off" (JNum 1))) Scenario.wallet
        = (Some success_true,
           insertVoucher (Scenario.grab "10% off" (JNum 1)) Scenario.wallet))
    /\ ((2 <= Z.of_nat n)%Z ->
        handle (post_vouchers Relational Drivers.intKey
                  (Scenario.grab "10% off" (JNum 1))) Scenario.wallet
        = (Some out_of_stock, Scenario.wallet)).
Proof.
  apply (X2_count_agrees_with_stock_check Relational Drivers.intKey
           (Scenario.grab "10% off" (JNum 1)) Scenario.wallet Scenario.promo).
  split; [reflexivity |]. exists 1%N. split; reflexivity.
Defined.

(** X3: a voucher created without [campaignId] whose [value] is the content of
    a campaign takes one unit of that campaign's stock.  From a database with
    no voucher of the content of [c] ([quantity = N]), such a request is
    served; of the requests for [c] that follow, the first [N - 1] are served
    and the others are answered [400 Out of stock]; [1 + min (N - 1) n]
    vouchers carry the content in the end (so one does when [N = 0]). *)
Theorem X3_campaignless_voucher_takes_stock :
  forall (s : Server) (bindId : JsValue -> Bound) (c : Campaign) (N : nat)
         (db : Db) (b0 : VoucherBody) (bs : list VoucherBody),
    quantity c = Z.of_nat N ->
    countVouchersByValue (Some (content c)) (vouchers db) = 0 ->
    truthy (campaignId b0) = false ->
    b_value b0 = Some (content c) ->
    Forall (fun b => references bindId db c (campaignId b)
                     /\ b_value b = Some (content c)) bs ->
    fst (serve (post_vouchers s bindId) (b0 :: bs) db)
    = Some success_true
      :: repeat (Some success_true) (Nat.min (N - 1) (List.length bs))
      ++ repeat (Some out_of_stock) (List.length bs - (N - 1))
    /\ countVouchersByValue (Some (content c))
         (vouchers (snd (serve (post_vouchers s bindId) (b0 :: bs) db)))
       = 1 + Nat.min (N - 1) (List.length bs).
Proof.
  intros s bindId c N db b0 bs HN H0 Hf Hv Hall.
  cbn [serve]. rewrite (post_falsy bindId b0 db s Hf).
  assert (H1 : issued c (insertVoucher b0 db) = 1).
  { unfold issued. rewrite (count_insert_same (content c) b0 db Hv), H0.
    reflexivity. }
  assert (Hall' : Forall (grabs bindId c (insertVoucher b0 db)) bs).
  { eapply Forall_impl; [| exact Hall]. intros b' [Hr Hb]. split; assumption. }
  destruct (serve_stock s bindId c N HN bs (insertVoucher b0 db) Hall')
    as [Hr Hc].
  cbn zeta in Hr, Hc. rewrite H1 in Hr, Hc.
  destruct (serve (post_vouchers s bindId) bs (insertVoucher b0 db))
    as [rs db2]. cbn [fst snd] in *.
  split; [now rewrite Hr | exact Hc].
Qed.

Lemma X3_campaignless_voucher_takes_stock_witness :
  fst (serve (post_vouchers Relational Drivers.intKey)
         [Scenario.grab "10% off" JUndefined;
          Scenario.grab "10% off" (JNum 1);
          Scenario.grab "10% off" (JNum 1)] Scenario.shop)
  = [Some success_true; Some success_true; Some out_of_stock].
Proof.
  apply (X3_campaignless_voucher_takes_stock Relational Drivers.intKey
           Scenario.promo 2 Scenario.shop
           (Scenario.grab "10% off" JUndefined)
           [Scenario.grab "10% off" (JNum 1); Scenario.grab "10% off" (JNum 1)]);
    try reflexivity.
  repeat constructor; exists 1%N; split; reflexivity.
Defined.

(* ===================================================================== *)
(** * The whole document server *)

Ltac run_world :=
  unfold respond, MongoApp.server_error, SqlApp.server_error,
    MongoApp.new_ObjectId, wtry, wbind, wret, wthrow, reply, get_world,
    put_world;
  cbn [fst snd].

Lemma set_db_same (w : World) : set_db (w_db w) w = w.
Proof. destruct w; reflexivity. Qed.

Lemma respond_lift (m : M unit) (w : World) :
  respond (lift m) w
  = (option_map to_answer (fst (handle m (w_db w))),
     set_db (snd (handle m (w_db w))) w).
Proof.
  unfold respond, lift, handle.
  destruct (m (w_db w)) as [[a | r | msg] db']; reflexivity.
Qed.

(** A property of every handler the router can pick is a property of the
    router. *)
Lemma dispatch_inv (P : W unit -> Prop) (req : Request) (routes : list Route) :
  P (reply 404 NotFoundPage) ->
  Forall (fun r => r_method r = method req ->
                   forall params, P (r_handler r params req)) routes ->
  P (dispatch routes req).
Proof.
  intros H404. induction 1 as [| r rest Hr _ IH]; cbn; [exact H404 |].
  destruct (method_eqb (r_method r) (method req)) eqn:E; [| exact IH].
  destruct (match_path (r_path r) (path req)); [| exact IH].
  apply Hr. destruct (r_method r), (method req); cbn in E; congruence.
Qed.

Lemma dispatch_index (routes : list Route) (req : Request) :
  dispatch routes req
  = match route_index routes (method req) (path req) with
    | Some (i, params) =>
        match nth_error routes i with
        | Some r => r_handler r params req
        | None => reply 404 NotFoundPage
        end
    | None => reply 404 NotFoundPage
    end.
Proof.
  induction routes as [| r rest IH]; cbn; [reflexivity |].
  rewrite IH.
  destruct (method_eqb (r_method r) (method req)).
  - destruct (match_path (r_path r) (path req)); [reflexivity |].
    destruct (route_index rest (method req) (path req)) as [[i ps] |];
      reflexivity.
  - destruct (route_index rest (method req) (path req)) as [[i ps] |];
      reflexivity.
Qed.

(** Picking the route of a request whose method and path are known. *)
Ltac pick_route Hm Hp :=
  rewrite dispatch_index, Hm, Hp;
  match goal with
  | |- context [route_index ?rs ?m ?p] =>
      let r := eval vm_compute in (route_index rs m p) in
      replace (route_index rs m p) with r by (vm_compute; reflexivity)
  end;
  unfold MongoApp.routes; cbn [nth_error r_handler].

Lemma count_get_keeps_db (s : Server) bindId cid db :
  snd (handle (get_vouchers_count s bindId cid) db) = db.
Proof.
  destruct (truthy cid) eqn:Ht.
  2:{ now rewrite (count_falsy bindId cid db s Ht). }
  destruct (bindId cid) as [msg | k |] eqn:Hb.
  - now rewrite (count_throws bindId cid db s msg Ht Hb).
  - destruct (getCampaign k (voucher_campaigns db)) as [c |] eqn:Hc.
    + assert (Hr : references bindId db c cid) by (split; eauto).
      now rewrite (count_found bindId cid db s c Hr).
    + assert (Hu : unknown_campaign bindId db cid)
        by (split; [assumption | right; eauto]).
      now rewrite (count_unknown bindId cid db s Hu).
  - assert (Hu : unknown_campaign bindId db cid)
      by (split; [assumption | now left]).
    now rewrite (count_unknown bindId cid db s Hu).
Qed.

(** X4: on the document server a [GET] request never changes a table,
    whatever its path, query and origin. *)
Theorem X4_document_get_is_read_only :
  forall (bindId : JsValue -> Bound)
         (distinct_values : list string -> list string) (req : Request) (w : World),
    method req = GET ->
    snd (respond (MongoApp.app bindId distinct_values req) w) = w.
Proof.
  intros bindId distinct_values req w Hget. unfold MongoApp.app.
  destruct (cors_origin (origin req)); [reflexivity |].
  apply (dispatch_inv (fun m => snd (respond m w) = w)); [reflexivity |].
  unfold MongoApp.routes.
  repeat (apply Forall_cons; [cbn [r_method r_handler]; intros Hm params;
                              try (rewrite Hget in Hm; discriminate) |]);
    [ .. | apply Forall_nil ].
  - reflexivity.
  - reflexivity.
  - reflexivity.
  - reflexivity.
  - reflexivity.
  - reflexivity.
  - reflexivity.
  - reflexivity.
  - unfold MongoApp.get_vouchers_count. rewrite respond_lift. cbn [snd].
    rewrite (count_get_keeps_db Document). apply set_db_same.
  - run_world. unfold MongoApp.get_spin_wheel_active. run_world.
    destruct (filter _ _); reflexivity.
Qed.

Lemma X4_document_get_is_read_only_witness :
  let req :=
    mkRequest GET ["api"; "vouchers"; "count"] None (JStr "not-an-id") None
      (mkReqBody (Scenario.grab "" JUndefined) "" 0 None) Scenario.noon in
  let w := mkWorld Scenario.wallet_docs [] [] [] [] 6 in
  snd (respond (MongoApp.app Drivers.objectId Query.distinct req) w) = w.
Proof.
  cbn zeta.
  apply (X4_document_get_is_read_only Drivers.objectId Query.distinct
           (mkRequest GET ["api"; "vouchers"; "count"] None (JStr "not-an-id")
              None (mkReqBody (Scenario.grab "" JUndefined) "" 0 None)
              Scenario.noon)
           (mkWorld Scenario.wallet_docs [] [] [] [] 6)).
  reflexivity.
Defined.

Lemma app_keeps_referrals bindId distinct_values req w :
  referrals (snd (respond (MongoApp.app bindId distinct_values req) w))
  = referrals w.
Proof.
  unfold MongoApp.app.
  destruct (cors_origin (origin req)); [reflexivity |].
  apply (dispatch_inv (fun m => referrals (snd (respond m w)) = referrals w));
    [reflexivity |].
  unfold MongoApp.routes.
  repeat (apply Forall_cons; [cbn [r_method r_handler]; intros _ params |]);
    [ .. | apply Forall_nil ];
    try (unfold MongoApp.post_vouchers, MongoApp.put_voucher_status,
           MongoApp.get_vouchers_count; rewrite respond_lift; reflexivity);
    try reflexivity.
  - unfold MongoApp.delete_campaign. run_world.
    destruct (bindId (JStr (param_id params))); cbn; try reflexivity;
      destruct (Coll.deleteFirst _ _); reflexivity.
  - unfold MongoApp.post_spin_wheel. run_world.
    destruct (b_prizes (req_body req)) as [[| p ps] |]; reflexivity.
  - unfold MongoApp.put_spin_wheel_status. run_world.
    destruct (bindId (JStr (param_id params))); cbn; try reflexivity;
      destruct (Coll.setStatusFirst _ _ _); reflexivity.
  - unfold MongoApp.delete_reward. run_world.
    destruct (bindId (JStr (param_id params))); cbn; try reflexivity;
      destruct (Coll.deleteFirst _ _); reflexivity.
  - unfold MongoApp.delete_voucher. run_world.
    destruct (bindId (JStr (param_id params))); cbn; try reflexivity;
      destruct (Coll.deleteFirst _ _); reflexivity.
  - unfold MongoApp.post_spin_wheel_id_start. run_world.
    destruct (bindId (JStr (param_id params))); reflexivity.
  - unfold MongoApp.get_spin_wheel_active. run_world.
    destruct (filter _ _); reflexivity.
Qed.

(** X5: the document server never writes the [referrals] collection: after
    any sequence of requests it is what it was, and [GET /api/top-referrers]
    (from an admitted origin) answers what it answered at the start. *)
Theorem X5_document_never_writes_referrals :
  forall (bindId : JsValue -> Bound)
         (distinct_values : list string -> list string) (reqs : list Request) (w : World),
    referrals (snd (MongoApp.serve_all bindId distinct_values reqs w)) = referrals w
    /\ (forall req : Request,
          method req = GET -> path req = ["api"; "top-referrers"] ->
          fst (respond (MongoApp.app bindId distinct_values req)
                 (snd (MongoApp.serve_all bindId distinct_values reqs w)))
          = fst (respond (MongoApp.app bindId distinct_values req) w)).
Proof.
  intros bindId distinct_values reqs.
  assert (H : forall w, referrals (snd (MongoApp.serve_all bindId distinct_values reqs w))
                        = referrals w).
  { induction reqs as [| r rest IH]; intros w; cbn; [reflexivity |].
    pose proof (app_keeps_referrals bindId distinct_values r w) as Hr.
    destruct (respond (MongoApp.app bindId distinct_values r) w) as [a w1].
    cbn [snd] in Hr.
    specialize (IH w1).
    destruct (MongoApp.serve_all bindId distinct_values rest w1) as [answers w2].
    cbn [snd] in *. congruence. }
  intros w. split; [apply H |].
  intros req Hm Hp. specialize (H w).
  unfold MongoApp.app. destruct (cors_origin (origin req)); [reflexivity |].
  pick_route Hm Hp.
  unfold MongoApp.get_top_referrers. run_world. now rewrite H.
Qed.

Lemma X5_document_never_writes_referrals_witness :
  let req m p :=
    mkRequest m p None JUndefined None
      (mkReqBody (Scenario.grab "10% off" JUndefined) "" 0 None) Scenario.noon in
  let w :=
    mkWorld Scenario.shop_docs [mkReferral 1 "bob" "carol" "2024-01-01"]
      [] [] [] 6 in
  fst (respond (MongoApp.app Drivers.objectId Query.distinct (req GET ["api"; "top-referrers"]))
         (snd (MongoApp.serve_all Drivers.objectId Query.distinct
                 [req POST ["api"; "vouchers"];
                  req POST ["api"; "admin"; "spin-wheel"; "start"]] w)))
  = fst (respond (MongoApp.app Drivers.objectId Query.distinct
                    (req GET ["api"; "top-referrers"])) w).
Proof.
  cbn zeta.
  apply (proj2 (X5_document_never_writes_referrals Drivers.objectId Query.distinct _ _));
    reflexivity.
Defined.

(** ** The spin wheel *)

Lemma dispatch_unmatched (r : Route) (req : Request) (l : list Route) :
  (method_eqb (r_method r) (method req) = false
   \/ match_path (r_path r) (path req) = None) ->
  dispatch (l ++ [r]) req = dispatch l req.
Proof.
  intros Hno. induction l as [| x rest IH]; cbn.
  - destruct Hno as [-> | Hp]; [reflexivity |].
    rewrite Hp. destruct (method_eqb _ _); reflexivity.
  - rewrite IH. reflexivity.
Qed.

(** A route registered again later, with the same method and path, handles
    nothing. *)
Lemma dispatch_shadowed (l1 l2 : list Route) (r r' : Route) (req : Request) :
  r_method r' = r_method r ->
  r_path r' = r_path r ->
  dispatch (l1 ++ r :: l2 ++ [r']) req = dispatch (l1 ++ r :: l2) req.
Proof.
  intros Hm Hp. induction l1 as [| x rest IH]; cbn.
  - destruct (method_eqb (r_method r) (method req)) eqn:Em.
    + destruct (match_path (r_path r) (path req)) eqn:Ep; [reflexivity |].
      apply dispatch_unmatched. right. now rewrite Hp.
    + apply dispatch_unmatched. left. now rewrite Hm.
  - rewrite IH. reflexivity.
Qed.

(** X6: the second registration of [POST /api/admin/spin-wheel/stop]
    (part_000 lines 305-312) is never reached: the routes answer every request
    as they would without it.  The request is handled by the first
    registration (lines 266-273), which empties [spin_wheel_active], answers
    [{ success: true }] and leaves [spin_wheel_config] alone. *)
Theorem X6_second_stop_route_is_dead :
  forall (bindId : JsValue -> Bound)
         (distinct_values : list string -> list string) (req : Request),
    dispatch (MongoApp.routes bindId distinct_values) req
    = dispatch (removelast (MongoApp.routes bindId distinct_values)) req
    /\ (method req = POST ->
        path req = ["api"; "admin"; "spin-wheel"; "stop"] ->
        forall w : World,
          respond (dispatch (MongoApp.routes bindId distinct_values) req) w
          = (Some (mkAnswer 200 (Plain (Success true))), set_active [] w)
          /\ spin_wheel_config (set_active [] w) = spin_wheel_config w).
Proof.
  intros bindId distinct_values req. split.
  - unfold MongoApp.routes. cbn [removelast].
    match goal with
    | |- dispatch ?l _ = _ =>
        change l with
          (firstn 19 l
           ++ mkRoute POST (MongoApp.api ["admin"; "spin-wheel"; "stop"])
                MongoApp.post_spin_wheel_stop_active
           :: [mkRoute GET (MongoApp.api ["spin-wheel"; "active"])
                 MongoApp.get_spin_wheel_active;
               mkRoute POST (MongoApp.api ["admin"; "spin-wheel"; "start"])
                 MongoApp.post_spin_wheel_start]
           ++ [mkRoute POST (MongoApp.api ["admin"; "spin-wheel"; "stop"])
                 MongoApp.post_spin_wheel_stop])
    end.
    rewrite dispatch_shadowed by reflexivity. reflexivity.
  - intros Hm Hp w. split; [| reflexivity].
    pick_route Hm Hp. reflexivity.
Qed.

Lemma X6_second_stop_route_is_dead_witness :
  respond (dispatch (MongoApp.routes Drivers.objectId Query.distinct)
             (mkRequest POST ["api"; "admin"; "spin-wheel"; "stop"] None
                JUndefined None
                (mkReqBody (Scenario.grab "" JUndefined) "" 0 None)
                Scenario.noon))
    (mkWorld Scenario.shop_docs []
       [mkPrize 5 (Some "Free coffee") (Some 10%Z) JNull (Some "active") None]
       [] [Some 5%N] 6)
  = (Some (mkAnswer 200 (Plain (Success true))),
     mkWorld Scenario.shop_docs []
       [mkPrize 5 (Some "Free coffee") (Some 10%Z) JNull (Some "active") None]
       [] [] 6).
Proof.
  apply (proj2 (X6_second_stop_route_is_dead Drivers.objectId Query.distinct
                  (mkRequest POST ["api"; "admin"; "spin-wheel"; "stop"] None
                     JUndefined None
                     (mkReqBody (Scenario.grab "" JUndefined) "" 0 None)
                     Scenario.noon)) eq_refl eq_refl).
Defined.

Lemma filter_active_all (ps : list Prize) :
  filter (fun p => status_is (p_status p) "active")
    (map (Coll.with_p_status (Some "active")) ps)
  = map (Coll.with_p_status (Some "active")) ps.
Proof. induction ps as [| p rest IH]; cbn; [reflexivity | now rewrite IH]. Qed.

(** X7: "stop" does not stop the wheel.  With at least one configured prize,
    [POST /api/admin/spin-wheel/start], then [POST /api/admin/spin-wheel/stop],
    then [GET /api/spin-wheel/active] (all from admitted origins): every prize
    is made active, stop answers [{ success: true }], and the wheel still shows
    all the configured prizes, not the default ones. *)
Theorem X7_stop_leaves_wheel_active :
  forall (bindId : JsValue -> Bound)
         (distinct_values : list string -> list string) (start stop active : Request) (w : World)
         (p : Prize) (ps : list Prize),
    method start = POST -> path start = ["api"; "admin"; "spin-wheel"; "start"] ->
    method stop = POST -> path stop = ["api"; "admin"; "spin-wheel"; "stop"] ->
    method active = GET -> path active = ["api"; "spin-wheel"; "active"] ->
    cors_origin (origin start) = None ->
    cors_origin (origin stop) = None ->
    cors_origin (origin active) = None ->
    spin_wheel_config w = p :: ps ->
    fst (MongoApp.serve_all bindId distinct_values [start; stop; active] w)
    = [ Some (mkAnswer 200
                (SuccessMessage "Spin is now started. Admin rewards are active."));
        Some (mkAnswer 200 (Plain (Success true)));
        Some (mkAnswer 200
                (ActiveWheel (p_id p)
                   (map (Coll.with_p_status (Some "active")) (p :: ps)))) ].
Proof.
  intros bindId distinct_values start stop active w p ps Hm1 Hp1 Hm2 Hp2 Hm3 Hp3 Ho1 Ho2 Ho3 Hcfg.
  cbn [MongoApp.serve_all]. unfold MongoApp.app. rewrite Ho1, Ho2, Ho3.
  pick_route Hm1 Hp1. unfold MongoApp.post_spin_wheel_start at 1. run_world.
  pick_route Hm2 Hp2. unfold MongoApp.post_spin_wheel_stop_active at 1. run_world.
  pick_route Hm3 Hp3. unfold MongoApp.get_spin_wheel_active at 1. run_world.
  cbn [set_active set_config spin_wheel_config]. rewrite Hcfg, filter_active_all.
  reflexivity.
Qed.

Lemma X7_stop_leaves_wheel_active_witness :
  let req m p :=
    mkRequest m p None JUndefined None
      (mkReqBody (Scenario.grab "" JUndefined) "" 0 None) Scenario.noon in
  fst (MongoApp.serve_all Drivers.objectId Query.distinct
         [req POST ["api"; "admin"; "spin-wheel"; "start"];
          req POST ["api"; "admin"; "spin-wheel"; "stop"];
          req GET ["api"; "spin-wheel"; "active"]]
         (mkWorld Scenario.shop_docs []
            [mkPrize 5 (Some "Free coffee") (Some 10%Z) JNull (Some "inactive")
               None] [] [] 6))
  = [ Some (mkAnswer 200
              (SuccessMessage "Spin is now started. Admin rewards are active."));
      Some (mkAnswer 200 (Plain (Success true)));
      Some (mkAnswer 200
              (ActiveWheel 5
                 [mkPrize 5 (Some "Free coffee") (Some 10%Z) JNull
                    (Some "active") None])) ].
Proof.
  cbn zeta.
  apply (X7_stop_leaves_wheel_active Drivers.objectId Query.distinct _ _ _ _
           (mkPrize 5 (Some "Free coffee") (Some 10%Z) JNull (Some "inactive")
              None) []); reflexivity.
Defined.

(** X8: [GET /api/spin-wheel/active] never shows an empty wheel.  It answers
    [200]; when no configured prize has the status "active" it shows the two
    built-in prizes, otherwise exactly the active prizes, in the order of the
    collection, with the key of the first as [activeSpinConfigId]. *)
Theorem X8_active_wheel_is_never_empty :
  forall (bindId : JsValue -> Bound)
         (distinct_values : list string -> list string) (req : Request) (w : World),
    method req = GET -> path req = ["api"; "spin-wheel"; "active"] ->
    cors_origin (origin req) = None ->
    let actives :=
      filter (fun p => status_is (p_status p) "active") (spin_wheel_config w) in
    (actives = []
     /\ respond (MongoApp.app bindId distinct_values req) w
        = (Some (mkAnswer 200
                   (DefaultWheel [("Better luck next time", 100%Z);
                                  ("Try again", 0%Z)])), w))
    \/ (exists p rest,
          actives = p :: rest
          /\ respond (MongoApp.app bindId distinct_values req) w
             = (Some (mkAnswer 200 (ActiveWheel (p_id p) (p :: rest))), w)).
Proof.
  intros bindId distinct_values req w Hm Hp Ho. cbn zeta.
  unfold MongoApp.app. rewrite Ho. pick_route Hm Hp.
  unfold MongoApp.get_spin_wheel_active. run_world.
  destruct (filter _ (spin_wheel_config w)) as [| p rest].
  - left. split; reflexivity.
  - right. exists p, rest. split; reflexivity.
Qed.

Lemma X8_active_wheel_is_never_empty_witness :
  let req :=
    mkRequest GET ["api"; "spin-wheel"; "active"] (Some "http://localhost:3000")
      JUndefined None (mkReqBody (Scenario.grab "" JUndefined) "" 0 None)
      Scenario.noon in
  let w :=
    mkWorld Scenario.shop_docs []
      [mkPrize 5 (Some "Free coffee") (Some 10%Z) JNull (Some "inactive") None]
      [] [] 6 in
  respond (MongoApp.app Drivers.objectId Query.distinct req) w
  = (Some (mkAnswer 200
             (DefaultWheel [("Better luck next time", 100%Z);
                            ("Try again", 0%Z)])), w).
Proof.
  cbn zeta.
  destruct (X8_active_wheel_is_never_empty Drivers.objectId Query.distinct
              (mkRequest GET ["api"; "spin-wheel"; "active"]
                 (Some "http://localhost:3000") JUndefined None
                 (mkReqBody (Scenario.grab "" JUndefined) "" 0 None)
                 Scenario.noon)
              (mkWorld Scenario.shop_docs []
                 [mkPrize 5 (Some "Free coffee") (Some 10%Z) JNull
                    (Some "inactive") None] [] [] 6)
              eq_refl eq_refl eq_refl) as [[_ H] | (p & rest & Hne & _)].
  - exact H.
  - discriminate Hne.
Defined.

Lemma prize_docs_spec (next : N) (now : string) (prizes : list PrizeIn) :
  map prize_label (Coll.prize_docs next now prizes) = map in_label prizes
  /\ map win_chance (Coll.prize_docs next now prizes) = map in_chance prizes
  /\ Forall (fun p => p_created_at p = Some now
                      /\ exists s, p_status p = Some s /\ s <> "")
       (Coll.prize_docs next now prizes).
Proof.
  revert next. induction prizes as [| p rest IH]; intros next; cbn.
  - repeat split; constructor.
  - destruct (IH (N.succ next)) as (H1 & H2 & H3).
    rewrite H1, H2. repeat split. constructor; [| exact H3].
    split; [reflexivity |].
    destruct (in_status p) as [s |].
    + destruct (String.eqb_spec s "") as [E | E].
      * exists "active". split; [reflexivity | discriminate].
      * exists s. split; [reflexivity | exact E].
    + exists "active". split; [reflexivity | discriminate].
Qed.

(** Each document against the prize it was made from. *)
Lemma prize_docs_each (next : N) (now : string) (prizes : list PrizeIn) :
  Forall2 (fun p d =>
             campaign_id d = in_campaign p
             /\ (in_status p = None \/ in_status p = Some "" ->
                 p_status d = Some "active")
             /\ (forall s, in_status p = Some s -> s <> "" ->
                           p_status d = Some s))
    prizes (Coll.prize_docs next now prizes).
Proof.
  revert next. induction prizes as [| p rest IH]; intros next; cbn;
    constructor; [| apply IH].
  cbn. split; [reflexivity |]. split.
  - intros [-> | ->]; reflexivity.
  - intros s -> Hs. destruct (String.eqb_spec s ""); [contradiction |].
    reflexivity.
Qed.

(** X9: [POST /api/admin/spin-wheel] replaces the configuration, and empties
    it first.  With a non-empty [prizes] array it answers [{ success: true }]
    and the collection holds one document per prize, in order, with the
    label, the chance and the campaign of the prize and the clock reading as
    [created_at]; its status is the prize's when the prize has one that is
    not empty, and "active" when the prize has none or an empty one, so it is
    never missing or empty.  Without [prizes], or with an empty array, it
    answers [500] and leaves the collection empty: the old configuration is
    lost. *)
Theorem X9_spin_wheel_replaced_or_wiped :
  forall (bindId : JsValue -> Bound)
         (distinct_values : list string -> list string)
         (req : Request) (w : World),
    method req = POST -> path req = ["api"; "admin"; "spin-wheel"] ->
    cors_origin (origin req) = None ->
    let config :=
      spin_wheel_config
        (snd (respond (MongoApp.app bindId distinct_values req) w)) in
    (forall p rest,
        b_prizes (req_body req) = Some (p :: rest) ->
        fst (respond (MongoApp.app bindId distinct_values req) w)
        = Some (mkAnswer 200 (Plain (Success true)))
        /\ map prize_label config = map in_label (p :: rest)
        /\ map win_chance config = map in_chance (p :: rest)
        /\ Forall (fun d => p_created_at d = Some (at_time req)
                            /\ exists s, p_status d = Some s /\ s <> "")
             config
        /\ Forall2 (fun p d =>
                      campaign_id d = in_campaign p
                      /\ (in_status p = None \/ in_status p = Some "" ->
                          p_status d = Some "active")
                      /\ (forall s, in_status p = Some s -> s <> "" ->
                                    p_status d = Some s))
             (p :: rest) config)
    /\ (b_prizes (req_body req) = None \/ b_prizes (req_body req) = Some [] ->
        (exists msg,
            fst (respond (MongoApp.app bindId distinct_values req) w)
            = Some (mkAnswer 500 (Plain (Error msg))))
        /\ config = []).
Proof.
  intros bindId distinct_values req w Hm Hp Ho. cbn zeta.
  unfold MongoApp.app. rewrite Ho. pick_route Hm Hp.
  unfold MongoApp.post_spin_wheel. run_world. split.
  - intros p rest Hpr. rewrite Hpr.
    destruct (prize_docs_spec (w_next w) (at_time req) (p :: rest))
      as (H1 & H2 & H3).
    pose proof (prize_docs_each (w_next w) (at_time req) (p :: rest)) as H4.
    destruct (Coll.prize_docs (w_next w) (at_time req) (p :: rest))
      as [| d ds] eqn:Ed; [discriminate H1 |].
    cbn [fst snd set_next set_config spin_wheel_config].
    repeat split; assumption.
  - intros [Hpr | Hpr]; rewrite Hpr; cbn; split; eauto.
Qed.

(** Two prizes replace the old configuration: the first comes without a
    status and is stored as "active", the second keeps its "inactive". *)
Lemma X9_spin_wheel_replaced_or_wiped_witness :
  let coffee := mkPrizeIn (Some "Free coffee") (Some 10%Z) JNull None in
  let tea := mkPrizeIn (Some "Tea") (Some 5%Z) JNull (Some "inactive") in
  let req :=
    mkRequest POST ["api"; "admin"; "spin-wheel"] None JUndefined None
      (mkReqBody (Scenario.grab "" JUndefined) "" 0 (Some [coffee; tea]))
      Scenario.noon in
  let w :=
    mkWorld Scenario.shop_docs []
      [mkPrize 5 (Some "Old prize") (Some 1%Z) JNull (Some "active") None]
      [] [] 6 in
  fst (respond (MongoApp.app Drivers.objectId Query.distinct req) w)
  = Some (mkAnswer 200 (Plain (Success true)))
  /\ exists d1 d2,
       spin_wheel_config
         (snd (respond (MongoApp.app Drivers.objectId Query.distinct req) w))
       = [d1; d2]
       /\ p_status d1 = Some "active" /\ p_status d2 = Some "inactive".
Proof.
  cbn zeta.
  destruct (proj1 (X9_spin_wheel_replaced_or_wiped Drivers.objectId
                     Query.distinct
                     (mkRequest POST ["api"; "admin"; "spin-wheel"] None
                        JUndefined None
                        (mkReqBody (Scenario.grab "" JUndefined) "" 0
                           (Some [mkPrizeIn (Some "Free coffee") (Some 10%Z)
                                    JNull None;
                                  mkPrizeIn (Some "Tea") (Some 5%Z) JNull
                                    (Some "inactive")]))
                        Scenario.noon)
                     (mkWorld Scenario.shop_docs []
                        [mkPrize 5 (Some "Old prize") (Some 1%Z) JNull
                           (Some "active") None] [] [] 6)
                     eq_refl eq_refl eq_refl) _ _ eq_refl)
    as (Hans & _ & _ & _ & Heach).
  split; [exact Hans |].
  inversion Heach as [| p1 d1 ps1 ds1 (_ & Hd1 & _) Hrest Ep Ed]; subst.
  inversion Hrest as [| p2 d2 ps2 ds2 (_ & _ & Hd2) Hnil Ep2 Ed2]; subst.
  inversion Hnil; subst.
  eexists _, _. split; [reflexivity |]. split.
  - apply Hd1. left. reflexivity.
  - apply (Hd2 "inactive"); [reflexivity | discriminate].
Defined.


Lemma mem_In (x : string) (xs : list string) :
  Query.mem x xs = true <-> In x xs.
Proof.
  unfold Query.mem. rewrite existsb_exists. split.
  - intros (y & Hy & E). apply String.eqb_eq in E. now subst.
  - intros H. exists x. split; [exact H | apply String.eqb_refl].
Qed.

(** X10: the [cors] origin check.  A request is let through exactly when it
    has no [Origin] header (or an empty one) or its origin is one of the five
    listed; any other origin is answered [500] before any route is tried, and
    no table changes. *)
Theorem X10_cors_origin_check :
  forall (bindId : JsValue -> Bound)
         (distinct_values : list string -> list string) (req : Request) (w : World),
    (cors_origin (origin req) = None
     <-> origin req = None \/ origin req = Some ""
         \/ exists o, origin req = Some o /\ In o allowedOrigins)
    /\ (cors_origin (origin req) <> None ->
        respond (MongoApp.app bindId distinct_values req) w
        = (Some (mkAnswer 500 (ErrorPage cors_message)), w)).
Proof.
  intros bindId distinct_values req w. split.
  - unfold cors_origin. destruct (origin req) as [o |].
    + destruct (String.eqb_spec o "") as [E | E].
      * subst. split; auto.
      * destruct (Query.mem o allowedOrigins) eqn:Em.
        -- apply mem_In in Em. split; eauto.
        -- split; [discriminate |].
           intros [H | [H | (o' & H & Hin)]]; try congruence.
           injection H as <-. apply mem_In in Hin. congruence.
    + split; auto.
  - intros Hno. unfold MongoApp.app, cors_origin in *.
    destruct (origin req) as [o |]; [| contradiction].
    destruct (o =? ""); [contradiction |].
    destruct (Query.mem o allowedOrigins); [contradiction | reflexivity].
Qed.

Lemma X10_cors_origin_check_witness :
  let req :=
    mkRequest DELETE ["api"; "admin"; "vouchers"; Scenario.oid]
      (Some "https://example.org") JUndefined None
      (mkReqBody (Scenario.grab "" JUndefined) "" 0 None) Scenario.noon in
  let w := mkWorld Scenario.wallet_docs [] [] [] [] 6 in
  respond (MongoApp.app Drivers.objectId Query.distinct req) w
  = (Some (mkAnswer 500 (ErrorPage cors_message)), w).
Proof.
  cbn zeta.
  apply (proj2 (X10_cors_origin_check Drivers.objectId Query.distinct
                  (mkRequest DELETE ["api"; "admin"; "vouchers"; Scenario.oid]
                     (Some "https://example.org") JUndefined None
                     (mkReqBody (Scenario.grab "" JUndefined) "" 0 None)
                     Scenario.noon)
                  (mkWorld Scenario.wallet_docs [] [] [] [] 6))).
  vm_compute. discriminate.
Defined.

(** ** Deleting vouchers and campaigns on the document server *)


Lemma deleteFirst_some {A} (hit : A -> bool) (xs : list A) (v : A) :
  find hit xs = Some v ->
  exists l1 l2,
    xs = l1 ++ v :: l2 /\ find hit l1 = None
    /\ Coll.deleteFirst hit xs = (l1 ++ l2, 1).
Proof.
  induction xs as [| x rest IH]; cbn; [discriminate |].
  destruct (hit x) eqn:E.
  - intros H. injection H as ->. exists [], rest. repeat split.
  - intros H. destruct (IH H) as (l1 & l2 & -> & Hn & Hd).
    exists (x :: l1), l2. cbn. rewrite E, Hd. repeat split. exact Hn.
Qed.


Section DeleteVoucher.

Variable bindId : JsValue -> Bound.
Variable distinct_values : list string -> list string.
Variables (req : Request) (w : World) (id : string) (k : N).
Hypothesis is_delete : method req = DELETE.
Hypothesis to_voucher : path req = ["api"; "admin"; "vouchers"; id].
Hypothesis some_id : id <> "".
Hypothesis admitted : cors_origin (origin req) = None.
Hypothesis bound : bindId (JStr id) = Key k.

Lemma delete_voucher_run :
  respond (MongoApp.app bindId distinct_values req) w
  = (Some (mkAnswer 200
             (Plain (Success
                       (0 <? snd (Coll.deleteFirst
                                    (fun v => (v_id v =? k)%N)
                                    (vouchers (w_db w))))%nat))),
     set_db (set_vouchers
               (fst (Coll.deleteFirst (fun v => (v_id v =? k)%N)
                       (vouchers (w_db w)))) (w_db w)) w).
Proof.
  unfold MongoApp.app. rewrite admitted.
  destruct id as [| ch rest] eqn:Eid; [contradiction |].
  pick_route is_delete to_voucher.
  unfold MongoApp.delete_voucher. run_world. cbn [param_id]. rewrite bound.
  cbn [MongoApp.is_key].
  destruct (Coll.deleteFirst _ _) as [vs n]. reflexivity.
Qed.


Lemma delete_voucher_present (v : Voucher) :
  getVoucher k (vouchers (w_db w)) = Some v ->
  exists l1 l2,
    vouchers (w_db w) = l1 ++ v :: l2
    /\ getVoucher k l1 = None
    /\ respond (MongoApp.app bindId distinct_values req) w
       = (Some (mkAnswer 200 (Plain (Success true))),
          set_db (set_vouchers (l1 ++ l2) (w_db w)) w).
Proof.
  intros Hs. rewrite delete_voucher_run.
  destruct (deleteFirst_some _ _ v Hs) as (l1 & l2 & Hv & Hn & Hd).
  exists l1, l2. rewrite Hd. repeat split; assumption.
Qed.

End DeleteVoucher.



(** X12: deleting a voucher returns its unit of stock.  On the document
    server, when the vouchers of the content of [c] number exactly its
    quantity, a request for [c] is answered [400 Out of stock]; once
    [DELETE /api/admin/vouchers/:id] has removed one of those vouchers, the
    same request is served. *)
Theorem X12_document_delete_frees_stock :
  forall (bindId : JsValue -> Bound)
         (distinct_values : list string -> list string) (req : Request) (w : World) (id : string)
         (k : N) (v : Voucher) (c : Campaign) (b : VoucherBody),
    method req = DELETE ->
    path req = ["api"; "admin"; "vouchers"; id] ->
    id <> "" ->
    cors_origin (origin req) = None ->
    bindId (JStr id) = Key k ->
    getVoucher k (vouchers (w_db w)) = Some v ->
    value v = Some (content c) ->
    references bindId (w_db w) c (campaignId b) ->
    Z.of_nat (countVouchersByValue (Some (content c)) (vouchers (w_db w)))
    = quantity c ->
    handle (post_vouchers Document bindId b) (w_db w)
    = (Some out_of_stock, w_db w)
    /\ fst (handle (post_vouchers Document bindId b)
              (w_db (snd (respond (MongoApp.app bindId distinct_values req) w))))
       = Some success_true.
Proof.
  intros bindId distinct_values req w id k v c b Hm Hp Hid Ho Hb Hv Hval Href Hfull.
  destruct Href as (Ht & kc & Hbc & Hc).
  split.
  - rewrite (post_found bindId b (w_db w) Document kc c Ht Hbc Hc), Hfull.
    destruct (Z.geb_spec (quantity c) (quantity c)); [reflexivity | lia].
  - destruct (delete_voucher_present bindId distinct_values req w id k Hm Hp Hid Ho Hb v Hv)
      as (l1 & l2 & Hvs & _ & Hrun).
    rewrite Hrun. cbn [snd set_db w_db].
    rewrite (post_found bindId b _ Document kc c Ht Hbc)
      by (cbn [set_vouchers voucher_campaigns]; exact Hc).
    cbn [set_vouchers vouchers].
    rewrite Hvs, count_app in Hfull. rewrite count_app.
    unfold countVouchersByValue at 2 in Hfull. cbn [filter] in Hfull.
    rewrite Hval, text_eq_refl in Hfull. cbn [List.length] in Hfull.
    fold (countVouchersByValue (Some (content c)) l2) in Hfull.
    destruct (Z.geb_spec
                (Z.of_nat (countVouchersByValue (Some (content c)) l1
                           + countVouchersByValue (Some (content c)) l2))
                (quantity c)); [lia | reflexivity].
Qed.

Lemma X12_document_delete_frees_stock_witness :
  let req :=
    mkRequest DELETE ["api"; "admin"; "vouchers"; Scenario.oid] None JUndefined
      None (mkReqBody (Scenario.grab "" JUndefined) "" 0 None) Scenario.noon in
  let full :=
    mkDb [Scenario.pending_doc; Scenario.pending] [Scenario.promo_doc] 3 in
  let w := mkWorld full [] [] [] [] 6 in
  handle (post_vouchers Document Drivers.objectId
            (Scenario.grab "10% off" (JStr Scenario.oid))) full
  = (Some out_of_stock, full)
  /\ fst (handle (post_vouchers Document Drivers.objectId
                    (Scenario.grab "10% off" (JStr Scenario.oid)))
            (w_db (snd (respond (MongoApp.app Drivers.objectId Query.distinct req) w))))
     = Some success_true.
Proof.
  cbn zeta.
  apply (X12_document_delete_frees_stock Drivers.objectId Query.distinct
           (mkRequest DELETE ["api"; "admin"; "vouchers"; Scenario.oid] None
              JUndefined None
              (mkReqBody (Scenario.grab "" JUndefined) "" 0 None) Scenario.noon)
           (mkWorld (mkDb [Scenario.pending_doc; Scenario.pending]
                       [Scenario.promo_doc] 3) [] [] [] [] 6)
           Scenario.oid
           (Scenario.key_of (Drivers.objectId (JStr Scenario.oid)))
           Scenario.pending_doc Scenario.promo_doc
           (Scenario.grab "10% off" (JStr Scenario.oid)));
    try reflexivity; try discriminate; try (vm_compute; reflexivity).
  split; [reflexivity |]. eexists. split; vm_compute; reflexivity.
Defined.

Lemma getCampaign_key (k : N) (cs : list Campaign) (c : Campaign) :
  getCampaign k cs = Some c -> c_id c = k.
Proof.
  unfold getCampaign. intros H. apply find_some in H.
  now apply N.eqb_eq.
Qed.

Lemma getCampaign_not_in (k : N) (cs : list Campaign) :
  ~ In k (map c_id cs) -> getCampaign k cs = None.
Proof.
  unfold getCampaign. induction cs as [| c rest IH]; cbn; [reflexivity |].
  intros Hn. destruct (N.eqb_spec (c_id c) k) as [E | E].
  - exfalso. apply Hn. now left.
  - apply IH. intros Hin. apply Hn. now right.
Qed.

Lemma getCampaign_app (k : N) (l1 l2 : list Campaign) :
  getCampaign k l1 = None -> getCampaign k (l1 ++ l2) = getCampaign k l2.
Proof.
  unfold getCampaign. induction l1 as [| c rest IH]; cbn; [reflexivity |].
  destruct (c_id c =? k)%N; [discriminate | exact IH].
Qed.

(** X13: deleting a campaign on the document server orphans its vouchers.
    With unique campaign keys, [DELETE /api/admin/voucher-campaigns/:id] of an
    existing campaign answers [{ success: true }] and removes that campaign
    only; every voucher stays.  Afterwards the count endpoint answers
    [{ count: 0 }] for the id, however many vouchers carry the content, and a
    voucher request for the id is answered [400 Campaign not found]. *)
Theorem X13_document_delete_campaign :
  forall (bindId : JsValue -> Bound)
         (distinct_values : list string -> list string) (req : Request) (w : World) (id : string)
         (k : N) (c : Campaign),
    method req = DELETE ->
    path req = ["api"; "admin"; "voucher-campaigns"; id] ->
    id <> "" ->
    cors_origin (origin req) = None ->
    bindId (JStr id) = Key k ->
    NoDup (map c_id (voucher_campaigns (w_db w))) ->
    getCampaign k (voucher_campaigns (w_db w)) = Some c ->
    let w' := snd (respond (MongoApp.app bindId distinct_values req) w) in
    fst (respond (MongoApp.app bindId distinct_values req) w)
    = Some (mkAnswer 200 (Plain (Success true)))
    /\ vouchers (w_db w') = vouchers (w_db w)
    /\ (exists l1 l2,
           voucher_campaigns (w_db w) = l1 ++ c :: l2
           /\ voucher_campaigns (w_db w') = l1 ++ l2)
    /\ handle (get_vouchers_count Document bindId (JStr id)) (w_db w')
       = (Some (mkResponse 200 (Count 0)), w_db w')
    /\ (forall b : VoucherBody,
          campaignId b = JStr id ->
          handle (post_vouchers Document bindId b) (w_db w')
          = (Some campaign_not_found, w_db w')).
Proof.
  intros bindId distinct_values req w id k c Hm Hp Hid Ho Hb Hnd Hc. cbn zeta.
  assert (Hrun : exists l1 l2,
             voucher_campaigns (w_db w) = l1 ++ c :: l2
             /\ getCampaign k l1 = None
             /\ respond (MongoApp.app bindId distinct_values req) w
                = (Some (mkAnswer 200 (Plain (Success true))),
                   set_db (mkDb (vouchers (w_db w)) (l1 ++ l2)
                             (next_id (w_db w))) w)).
  { unfold MongoApp.app. rewrite Ho.
    destruct id as [| ch rest] eqn:Eid; [contradiction |].
    pick_route Hm Hp.
    unfold MongoApp.delete_campaign. run_world. cbn [param_id]. rewrite Hb.
    change (MongoApp.is_key c_id (Some k))
      with (fun x : Campaign => (c_id x =? k)%N).
    destruct (deleteFirst_some _ _ c Hc) as (l1 & l2 & Hcs & Hn & Hd).
    unfold getCampaign in Hn. rewrite Hd. exists l1, l2. repeat split; assumption. }
  destruct Hrun as (l1 & l2 & Hcs & Hn1 & Hrun). rewrite Hrun.
  cbn [fst snd set_db w_db vouchers voucher_campaigns].
  assert (Hgone : getCampaign k (l1 ++ l2) = None).
  { rewrite (getCampaign_app k l1 l2 Hn1). apply getCampaign_not_in.
    rewrite Hcs, map_app in Hnd. cbn [map] in Hnd.
    apply NoDup_remove_2 in Hnd.
    rewrite <- (getCampaign_key k _ c Hc).
    intros Hin. apply Hnd. apply in_or_app. now right. }
  assert (Ht : truthy (JStr id) = true).
  { destruct id; [contradiction | reflexivity]. }
  assert (Hu : unknown_campaign bindId
                 (mkDb (vouchers (w_db w)) (l1 ++ l2) (next_id (w_db w)))
                 (JStr id)).
  { split; [exact Ht |]. right. exists k. split; [exact Hb | exact Hgone]. }
  split; [reflexivity |]. split; [reflexivity |].
  split; [exists l1, l2; split; [exact Hcs | reflexivity] |].
  split.
  - now apply count_unknown.
  - intros b Hcid. apply mongo_post_unknown. now rewrite Hcid.
Qed.

Lemma X13_document_delete_campaign_witness :
  let req :=
    mkRequest DELETE ["api"; "admin"; "voucher-campaigns"; Scenario.oid] None
      JUndefined None (mkReqBody (Scenario.grab "" JUndefined) "" 0 None)
      Scenario.noon in
  let w := mkWorld Scenario.wallet_docs [] [] [] [] 6 in
  fst (respond (MongoApp.app Drivers.objectId Query.distinct req) w)
  = Some (mkAnswer 200 (Plain (Success true)))
  /\ vouchers (w_db (snd (respond (MongoApp.app Drivers.objectId Query.distinct req) w)))
     = [Scenario.pending_doc].
Proof.
  cbn zeta.
  destruct (X13_document_delete_campaign Drivers.objectId Query.distinct
              (mkRequest DELETE ["api"; "admin"; "voucher-campaigns"; Scenario.oid]
                 None JUndefined None
                 (mkReqBody (Scenario.grab "" JUndefined) "" 0 None)
                 Scenario.noon)
              (mkWorld Scenario.wallet_docs [] [] [] [] 6)
              Scenario.oid
              (Scenario.key_of (Drivers.objectId (JStr Scenario.oid)))
              Scenario.promo_doc
              eq_refl eq_refl ltac:(discriminate) eq_refl
              ltac:(vm_compute; reflexivity)
              ltac:(repeat constructor; cbn; tauto)
              ltac:(vm_compute; reflexivity)) as (H1 & H2 & _).
  split; [exact H1 | exact H2].
Defined.

(** ** Deleting a campaign on the relational servers *)

Lemma getCampaign_filtered (k : N) (cs : list Campaign) :
  getCampaign k (filter (fun c => negb (c_id c =? k)%N) cs) = None.
Proof.
  unfold getCampaign. induction cs as [| c rest IH]; cbn; [reflexivity |].
  destruct (c_id c =? k)%N eqn:E; cbn; [exact IH |].
  rewrite E. exact IH.
Qed.

Lemma filter_hit_positive (k : N) (cs : list Campaign) (c : Campaign) :
  getCampaign k cs = Some c ->
  exists n, List.length (filter (fun c => (c_id c =? k)%N) cs) = S n.
Proof.
  unfold getCampaign. induction cs as [| x rest IH]; cbn; [discriminate |].
  destruct (c_id x =? k)%N; cbn; eauto.
Qed.

(** X14: [DELETE /api/admin/voucher-campaigns/:id] on the relational servers.
    The [sqlite3] server reads [rowCount], which its result does not have: it
    never answers [200], and answers [404 Campaign not found] also when it has
    deleted the campaign.  For an existing campaign that no enforced foreign
    key protects, all three servers delete it and keep every voucher; the
    [pg] and [better-sqlite3] servers answer [{ success: true }]. *)
Theorem X14_relational_delete_campaign :
  forall (bindId : JsValue -> Bound) (foreign_keys : bool) (refusal : string),
    (forall (id : string) (w : World),
        exists a : Answer,
          fst (respond
                 (SqlApp.delete_campaign bindId foreign_keys refusal Sqlite3 id) w)
          = Some a
          /\ a_code a <> 200)
    /\ (forall (e : Engine) (id : string) (k : N) (w : World) (c : Campaign),
          bindId (JStr id) = Key k ->
          getCampaign k (voucher_campaigns (w_db w)) = Some c ->
          foreign_keys = false
          \/ existsb (SqlApp.points_to k) (spin_wheel_config w) = false ->
          getCampaign k
            (voucher_campaigns
               (w_db (snd (respond
                             (SqlApp.delete_campaign bindId foreign_keys
                                refusal e id) w))))
          = None
          /\ vouchers
               (w_db (snd (respond
                             (SqlApp.delete_campaign bindId foreign_keys
                                refusal e id) w)))
             = vouchers (w_db w)
          /\ fst (respond
                    (SqlApp.delete_campaign bindId foreign_keys refusal e id) w)
             = Some (match e with
                     | Sqlite3 =>
                         mkAnswer 404 (Plain (Error "Campaign not found"))
                     | _ => mkAnswer 200 (Plain (Success true))
                     end)).
Proof.
  intros bindId fk refusal. split.
  - intros id w. unfold SqlApp.delete_campaign, SqlApp.delete_campaign_rows.
    run_world.
    destruct (bindId (JStr id)) as [msg | k |]; cbn.
    + eexists. split; [reflexivity | cbn; discriminate].
    + destruct (fk && _ && _); cbn;
        eexists; (split; [reflexivity | cbn; discriminate]).
    + eexists. split; [reflexivity | cbn; discriminate].
  - intros e id k w c Hb Hc Hfk.
    unfold SqlApp.delete_campaign, SqlApp.delete_campaign_rows. run_world.
    rewrite Hb. cbn.
    assert (Hguard : fk
                     && existsb (fun c0 => (c_id c0 =? k)%N)
                          (voucher_campaigns (w_db w))
                     && existsb (SqlApp.points_to k) (spin_wheel_config w)
                     = false).
    { destruct Hfk as [-> | ->]; [reflexivity | apply andb_false_r]. }
    rewrite Hguard. cbn.
    destruct (filter_hit_positive k _ c Hc) as [n Hn].
    destruct e; cbn; rewrite ?Hn; cbn;
      (split; [apply getCampaign_filtered | split; reflexivity]).
Qed.

Lemma X14_relational_delete_campaign_witness :
  let w := mkWorld Scenario.wallet [] [] [] [] 1 in
  getCampaign 1
    (voucher_campaigns
       (w_db (snd (respond
                     (SqlApp.delete_campaign Drivers.intKey false "" Sqlite3 "1") w))))
  = None
  /\ vouchers
       (w_db (snd (respond
                     (SqlApp.delete_campaign Drivers.intKey false "" Sqlite3 "1") w)))
     = [Scenario.pending]
  /\ fst (respond (SqlApp.delete_campaign Drivers.intKey false "" Sqlite3 "1") w)
     = Some (mkAnswer 404 (Plain (Error "Campaign not found"))).
Proof.
  cbn zeta.
  apply (proj2 (X14_relational_delete_campaign Drivers.intKey false "") Sqlite3 "1"
           1%N (mkWorld Scenario.wallet [] [] [] [] 1) Scenario.promo).
  - reflexivity.
  - reflexivity.
  - left. reflexivity.
Defined.

(* ===================================================================== *)
(** * Referrers and users *)

Lemma insert_by_perm {A} (before : A -> A -> bool) (x : A) (xs : list A) :
  Permutation (Query.insert_by before x xs) (x :: xs).
Proof.
  induction xs as [| y rest IH]; cbn; [reflexivity |].
  destruct (before x y); [reflexivity |].
  rewrite IH. apply perm_swap.
Qed.

Lemma sort_by_perm {A} (before : A -> A -> bool) (xs : list A) :
  Permutation (Query.sort_by before xs) xs.
Proof.
  induction xs as [| x rest IH]; cbn; [reflexivity |].
  rewrite insert_by_perm. now constructor.
Qed.

Section Sorting.

Context {A : Type}.
Variable before : A -> A -> bool.
Variable R : A -> A -> Prop.
Hypothesis before_R : forall x y, before x y = true -> R x y.
Hypothesis not_before_R : forall x y, before x y = false -> R y x.
Hypothesis R_trans : forall x y z, R x y -> R y z -> R x z.

Lemma insert_by_sorted (x : A) (xs : list A) :
  StronglySorted R xs -> StronglySorted R (Query.insert_by before x xs).
Proof.
  induction 1 as [| y rest Hs IH Hall]; cbn.
  - constructor; constructor.
  - destruct (before x y) eqn:E.
    + constructor; [constructor; assumption |].
      constructor; [now apply before_R |].
      eapply Forall_impl; [| exact Hall].
      intros z Hz. eapply R_trans; [apply before_R; exact E | exact Hz].
    + constructor; [exact IH |].
      eapply Permutation_Forall;
        [symmetry; apply insert_by_perm |].
      constructor; [now apply not_before_R | exact Hall].
Qed.

Lemma sort_by_sorted (xs : list A) : StronglySorted R (Query.sort_by before xs).
Proof.
  induction xs as [| x rest IH]; cbn; [constructor |].
  now apply insert_by_sorted.
Qed.

Lemma sorted_firstn (n : nat) (xs : list A) :
  StronglySorted R xs -> StronglySorted R (firstn n xs).
Proof.
  intros H. revert n. induction H as [| x rest Hs IH Hall]; intros [| n]; cbn;
    try constructor.
  - apply IH.
  - rewrite <- (firstn_skipn n rest) in Hall. apply Forall_app in Hall.
    exact (proj1 Hall).
Qed.

Lemma sorted_split (n : nat) (xs : list A) (x y : A) :
  StronglySorted R xs -> In x (firstn n xs) -> In y (skipn n xs) -> R x y.
Proof.
  intros H. revert n. induction H as [| z rest Hs IH Hall]; intros [| n]; cbn;
    try contradiction.
  intros [-> | Hx] Hy.
  - rewrite Forall_forall in Hall. apply Hall.
    rewrite <- (firstn_skipn n rest). apply in_or_app. now right.
  - now apply (IH n).
Qed.

End Sorting.

Lemma dedup_In (x : string) (xs seen : list string) :
  In x (Query.dedup seen xs) <-> In x xs /\ ~ In x seen.
Proof.
  revert seen. induction xs as [| y rest IH]; intros seen; cbn.
  - tauto.
  - destruct (Query.mem y seen) eqn:E.
    + apply mem_In in E. rewrite IH. split.
      * intros [H1 H2]. auto.
      * intros [[-> | H1] H2]; [contradiction | auto].
    + assert (Hy : ~ In y seen)
        by (intros H; apply mem_In in H; congruence).
      cbn. rewrite IH. cbn. split.
      * intros [<- | [H1 H2]]; [auto | split; [auto | tauto]].
      * intros [[<- | H1] H2]; [auto |].
        destruct (string_dec y x) as [-> | Hne]; [auto |].
        right. split; [exact H1 |]. intros [H | H]; [congruence | auto].
Qed.

Lemma dedup_NoDup (xs seen : list string) : NoDup (Query.dedup seen xs).
Proof.
  revert seen. induction xs as [| y rest IH]; intros seen; cbn; [constructor |].
  destruct (Query.mem y seen); [apply IH |].
  constructor; [| apply IH].
  rewrite dedup_In. cbn. tauto.
Qed.

Lemma distinct_In (x : string) (xs : list string) :
  In x (Query.distinct xs) <-> In x xs.
Proof. unfold Query.distinct. rewrite dedup_In. cbn. tauto. Qed.

Lemma distinct_NoDup (xs : list string) : NoDup (Query.distinct xs).
Proof. apply dedup_NoDup. Qed.

Lemma count_of_positive (x : string) (xs : list string) :
  In x xs -> 1 <= Query.count_of x xs.
Proof.
  unfold Query.count_of. induction xs as [| y rest IH]; cbn; [contradiction |].
  intros [-> | H].
  - rewrite String.eqb_refl. cbn. lia.
  - destruct (x =? y); cbn; [lia | auto].
Qed.

Lemma groups_fst (rs : list Referral) :
  map fst (Query.referrals_by_referrer rs) = Query.distinct (map referrer rs).
Proof.
  unfold Query.referrals_by_referrer. rewrite map_map. cbn. apply map_id.
Qed.

Lemma groups_In (rs : list Referral) (who : string) (n : nat) :
  In (who, n) (Query.referrals_by_referrer rs)
  <-> In who (map referrer rs) /\ n = Query.count_of who (map referrer rs).
Proof.
  unfold Query.referrals_by_referrer. rewrite in_map_iff. split.
  - intros (x & E & Hin). injection E as Hx Hn. subst x.
    apply (proj1 (distinct_In _ _)) in Hin. split; [exact Hin | now symmetry].
  - intros [Hin ->]. exists who.
    split; [reflexivity | exact (proj2 (distinct_In _ _) Hin)].
Qed.

Lemma In_firstn {A} (n : nat) (x : A) (xs : list A) :
  In x (firstn n xs) -> In x xs.
Proof.
  intros H. rewrite <- (firstn_skipn n xs). apply in_or_app. now left.
Qed.

Lemma NoDup_firstn_keep {A} (n : nat) (xs : list A) :
  NoDup xs -> NoDup (firstn n xs).
Proof.
  intros H. rewrite <- (firstn_skipn n xs) in H.
  now apply NoDup_app_remove_r in H.
Qed.

Lemma ranks_before_true leb (a b : string * nat) :
  Query.ranks_before leb a b = true -> snd b <= snd a.
Proof.
  unfold Query.ranks_before. intros H. apply orb_true_iff in H.
  destruct H as [H | H].
  - apply Nat.ltb_lt in H. lia.
  - apply andb_true_iff in H. destruct H as [H _]. apply Nat.eqb_eq in H. lia.
Qed.

Lemma ranks_before_false leb (a b : string * nat) :
  Query.ranks_before leb a b = false -> snd a <= snd b.
Proof.
  unfold Query.ranks_before. intros H. apply orb_false_iff in H.
  destruct H as [H _]. apply Nat.ltb_ge in H. exact H.
Qed.

(** X15: [GET /api/top-referrers], on every server and for every text order
    of the store.  The answer has at most ten rows and no referrer twice; the
    number in a row is the number of referrals of its referrer, at least one;
    the numbers never increase down the list; and a referrer that is left out
    has no more referrals than any referrer listed.  No table changes. *)
Theorem X15_top_referrers :
  forall (leb : string -> string -> bool) (w : World),
    let rows := Query.top_referrers leb (referrals w) in
    respond (SqlApp.get_top_referrers leb) w
    = (Some (mkAnswer 200 (TopReferrers rows)), w)
    /\ (forall params req,
          respond (MongoApp.get_top_referrers params req) w
          = (Some (mkAnswer 200
                     (TopReferrers (Query.top_referrers String.leb (referrals w)))),
             w))
    /\ List.length rows <= 10
    /\ NoDup (map fst rows)
    /\ (forall who n,
          In (who, n) rows ->
          1 <= n /\ n = Query.count_of who (map referrer (referrals w)))
    /\ StronglySorted (fun a b => snd b <= snd a) rows
    /\ (forall who n r,
          In (who, n) rows ->
          In r (referrals w) ->
          ~ In (referrer r) (map fst rows) ->
          Query.count_of (referrer r) (map referrer (referrals w)) <= n).
Proof.
  intros leb w. cbn zeta. unfold Query.top_referrers.
  set (groups := Query.referrals_by_referrer (referrals w)).
  set (sorted := Query.sort_by (Query.ranks_before leb) groups).
  assert (Hperm : Permutation sorted groups) by apply sort_by_perm.
  assert (Hsorted : StronglySorted (fun a b : string * nat => snd b <= snd a)
                      sorted).
  { apply sort_by_sorted.
    - apply ranks_before_true.
    - apply ranks_before_false.
    - intros x y z H1 H2. lia. }
  split; [reflexivity |]. split; [reflexivity |].
  split; [apply firstn_le_length |].
  split.
  { rewrite <- firstn_map. apply NoDup_firstn_keep.
    apply (Permutation_NoDup (l := map fst groups)).
    - symmetry. now apply Permutation_map.
    - unfold groups. rewrite groups_fst. apply distinct_NoDup. }
  split.
  { intros who n Hin. apply In_firstn in Hin.
    apply (Permutation_in _ Hperm) in Hin. apply groups_In in Hin.
    destruct Hin as [Hin ->]. split; [now apply count_of_positive | reflexivity]. }
  split; [now apply sorted_firstn |].
  intros who n r Hin Hr Hout.
  assert (Hg : In (referrer r,
                   Query.count_of (referrer r) (map referrer (referrals w)))
                  sorted).
  { apply (Permutation_in _ (Permutation_sym Hperm)). apply groups_In.
    split; [now apply in_map | reflexivity]. }
  rewrite <- (firstn_skipn 10 sorted) in Hg. apply in_app_or in Hg.
  destruct Hg as [Hg | Hg].
  - exfalso. apply Hout.
    apply (in_map fst) in Hg. exact Hg.
  - apply (sorted_split (fun a b : string * nat => snd b <= snd a) 10 sorted
             (who, n) _ Hsorted Hin Hg).
Qed.

Lemma X15_top_referrers_witness :
  Query.top_referrers String.leb
    [mkReferral 1 "bob" "carol" "2024-01-01";
     mkReferral 2 "alice" "dave" "2024-01-02";
     mkReferral 3 "bob" "erin" "2024-01-03"]
  = [("bob", 2); ("alice", 1)]
  /\ (1 <= 2 /\ 2 = Query.count_of "bob" ["bob"; "alice"; "bob"]).
Proof.
  split; [vm_compute; reflexivity |].
  apply (proj1 (proj2 (proj2 (proj2 (proj2
           (X15_top_referrers String.leb
              (mkWorld Scenario.shop
                 [mkReferral 1 "bob" "carol" "2024-01-01";
                  mkReferral 2 "alice" "dave" "2024-01-02";
                  mkReferral 3 "bob" "erin" "2024-01-03"] [] [] [] 1))))))
           "bob" 2).
  vm_compute. left. reflexivity.
Defined.

Lemma nonempty_true (s : string) : Query.nonempty s = true <-> s <> "".
Proof.
  unfold Query.nonempty. destruct (String.eqb_spec s ""); cbn; split;
    congruence.
Qed.

Lemma admin_users_In store_distinct (vs : list Voucher) (rs : list Referral)
  (u : string) :
  Query.is_distinct store_distinct ->
  In u (Query.admin_users store_distinct vs rs)
  <-> u <> ""
      /\ ((exists v, In v vs /\ username v = Some u)
          \/ (exists r, In r rs /\ (referrer r = u \/ referred r = u))).
Proof.
  intros Hstore. unfold Query.admin_users. cbn zeta.
  rewrite distinct_In, filter_In, nonempty_true, !in_app_iff.
  rewrite !(fun xs => proj2 (Hstore xs) u), in_flat_map, !in_map_iff.
  split.
  - intros [[(v & Hv & Hu) | [(r & <- & Hr) | (r & <- & Hr)]] Hne];
      (split; [exact Hne |]).
    + left. exists v. split; [exact Hv |].
      destruct (username v) as [u' |]; cbn in Hu; [| contradiction].
      destruct Hu as [-> | []]. reflexivity.
    + right. exists r. auto.
    + right. exists r. auto.
  - intros [Hne [(v & Hv & Hu) | (r & Hr & [<- | <-])]];
      (split; [| exact Hne]).
    + left. exists v. split; [exact Hv |]. rewrite Hu. now left.
    + right. left. exists r. auto.
    + right. right. exists r. auto.
Qed.

Lemma rev_first_distinct :
  Query.is_distinct (fun xs => rev (Query.distinct xs)).
Proof.
  intros xs. split.
  - apply NoDup_rev, distinct_NoDup.
  - intros x. rewrite <- in_rev. apply distinct_In.
Qed.

(** X16: [GET /api/admin/users], on every server.  The three lists of names
    come from the store, which returns each distinct value once in an order
    of its own ([SELECT DISTINCT], [collection.distinct]); the handler puts
    them one after the other, drops the empty string and keeps the first
    place of every name.  Whatever order the store chooses, the answer has no
    name twice and never the empty string, a name is in it exactly when it is
    not empty and is the username of a voucher, or the referrer or the
    referred of a referral, and two stores that differ only in that order
    answer with the same names, up to their order.  No table changes. *)
Theorem X16_admin_users :
  forall (store_distinct : list string -> list string) (w : World),
    Query.is_distinct store_distinct ->
    let users :=
      Query.admin_users store_distinct (vouchers (w_db w)) (referrals w) in
    respond (SqlApp.get_admin_users store_distinct) w
    = (Some (mkAnswer 200 (Names users)), w)
    /\ (forall params req,
          respond (MongoApp.get_admin_users store_distinct params req) w
          = (Some (mkAnswer 200 (Names users)), w))
    /\ NoDup users
    /\ ~ In "" users
    /\ (forall u : string,
          In u users
          <-> u <> ""
              /\ ((exists v, In v (vouchers (w_db w)) /\ username v = Some u)
                  \/ (exists r, In r (referrals w)
                                /\ (referrer r = u \/ referred r = u))))
    /\ (forall other : list string -> list string,
          Query.is_distinct other ->
          Permutation users
            (Query.admin_users other (vouchers (w_db w)) (referrals w))).
Proof.
  intros store_distinct w Hstore. cbn zeta.
  split; [reflexivity |]. split; [reflexivity |].
  split; [apply distinct_NoDup |].
  split; [| split].
  - intros H. apply (admin_users_In store_distinct _ _ _ Hstore) in H.
    destruct H as [H _]. now apply H.
  - intros u. apply admin_users_In. exact Hstore.
  - intros other Hother. apply NoDup_Permutation.
    + apply distinct_NoDup.
    + apply distinct_NoDup.
    + intros u. rewrite (admin_users_In store_distinct _ _ u Hstore).
      rewrite (admin_users_In other _ _ u Hother). reflexivity.
Qed.

(** Three vouchers of zed, bob and zed, one referral of alice by bob, and a
    store that lists distinct values last seen first. *)
Lemma X16_admin_users_witness :
  let w := mkWorld
             (mkDb [mkVoucher 1 (Some "zed") (Some "10% off") None None None;
                    mkVoucher 2 (Some "bob") (Some "10% off") None None None;
                    mkVoucher 3 (Some "zed") None None None None]
                   [] 4)
             [mkReferral 1 "bob" "alice" "2024-01-01T00:00:00.000Z"]
             [] [] [] 2 in
  respond (SqlApp.get_admin_users (fun xs => rev (Query.distinct xs))) w
  = (Some (mkAnswer 200 (Names ["bob"; "zed"; "alice"])), w).
Proof.
  cbn zeta.
  exact (proj1 (X16_admin_users (fun xs => rev (Query.distinct xs)) _
                  rev_first_distinct)).
Defined.

(* ===================================================================== *)
(** * A user's vouchers *)







(* ===================================================================== *)
(** * The collection nobody reads *)

Lemma lift_blind (m : M unit) : blind_to_active (lift m).
Proof.
  intros w xs. exists xs. rewrite !respond_lift. reflexivity.
Qed.

Lemma app_blind bindId distinct_values req :
  blind_to_active (MongoApp.app bindId distinct_values req).
Proof.
  unfold MongoApp.app.
  destruct (cors_origin (origin req));
    [intros w xs; exists xs; reflexivity |].
  apply dispatch_inv; [intros w xs; exists xs; reflexivity |].
  unfold MongoApp.routes.
  repeat (apply Forall_cons; [cbn [r_method r_handler]; intros _ params |]);
    [ .. | apply Forall_nil ];
    try (apply lift_blind);
    try (intros w xs; exists xs; reflexivity).
  - intros w xs. exists xs. unfold MongoApp.delete_campaign. run_world.
    destruct (bindId (JStr (param_id params))); cbn; try reflexivity;
      destruct (Coll.deleteFirst _ _); reflexivity.
  - intros w xs. exists xs. unfold MongoApp.post_spin_wheel. run_world.
    destruct (b_prizes (req_body req)) as [[| p ps] |]; reflexivity.
  - intros w xs. exists xs. unfold MongoApp.put_spin_wheel_status. run_world.
    destruct (bindId (JStr (param_id params))); cbn; try reflexivity;
      destruct (Coll.setStatusFirst _ _ _); reflexivity.
  - intros w xs. exists xs. unfold MongoApp.delete_reward. run_world.
    destruct (bindId (JStr (param_id params))); cbn; try reflexivity;
      destruct (Coll.deleteFirst _ _); reflexivity.
  - intros w xs. exists xs. unfold MongoApp.delete_voucher. run_world.
    destruct (bindId (JStr (param_id params))); cbn; try reflexivity;
      destruct (Coll.deleteFirst _ _); reflexivity.
  - intros w xs. unfold MongoApp.post_spin_wheel_id_start. run_world.
    destruct (bindId (JStr (param_id params))); cbn; eexists; reflexivity.
  - intros w xs. exists []. reflexivity.
  - intros w xs. exists xs. unfold MongoApp.get_spin_wheel_active. run_world.
    cbn [set_active spin_wheel_config]. destruct (filter _ _); reflexivity.
Qed.

(** X18: [spin_wheel_active] is written and never read.  Whatever that
    collection holds, every sequence of requests to the document server gets
    the same answers: what [POST /api/admin/spin-wheel/:id/start] and the stop
    route store there shows in no answer. *)
Theorem X18_spin_wheel_active_is_never_read :
  forall (bindId : JsValue -> Bound)
         (distinct_values : list string -> list string) (reqs : list Request) (w : World)
         (xs : list (option N)),
    fst (MongoApp.serve_all bindId distinct_values reqs (set_active xs w))
    = fst (MongoApp.serve_all bindId distinct_values reqs w).
Proof.
  intros bindId distinct_values reqs. induction reqs as [| r rest IH]; intros w xs; cbn;
    [reflexivity |].
  destruct (app_blind bindId distinct_values r w xs) as [ys Hr]. rewrite Hr.
  destruct (respond (MongoApp.app bindId distinct_values r) w) as [a w1].
  cbn [fst snd].
  specialize (IH w1 ys).
  destruct (MongoApp.serve_all bindId distinct_values rest (set_active ys w1)) as [as1 w2].
  destruct (MongoApp.serve_all bindId distinct_values rest w1) as [as2 w3].
  cbn [fst] in *. now rewrite IH.
Qed.

(* ===================================================================== *)
(** * A new campaign *)

(** X19: a new campaign starts with the stock that vouchers of its content
    have already taken.  On the document server
    [POST /api/admin/voucher-campaigns] answers [{ success: true }], appends
    the campaign with the content, quantity and status of the body and the
    clock reading, and touches no voucher; for an id that binds to the new
    key, the count endpoint at once answers the number of vouchers that carry
    the content. *)
Theorem X19_new_campaign_counts_old_vouchers :
  forall (bindId : JsValue -> Bound)
         (distinct_values : list string -> list string) (req : Request) (w : World) (cid : JsValue),
    method req = POST ->
    path req = ["api"; "admin"; "voucher-campaigns"] ->
    cors_origin (origin req) = None ->
    getCampaign (w_next w) (voucher_campaigns (w_db w)) = None ->
    truthy cid = true ->
    bindId cid = Key (w_next w) ->
    let created :=
      mkCampaign (w_next w) (b_content (req_body req)) (b_quantity (req_body req))
                 (b_status (voucher (req_body req))) (at_time req) in
    let w' := snd (respond (MongoApp.app bindId distinct_values req) w) in
    fst (respond (MongoApp.app bindId distinct_values req) w)
    = Some (mkAnswer 200 (Plain (Success true)))
    /\ voucher_campaigns (w_db w') = voucher_campaigns (w_db w) ++ [created]
    /\ vouchers (w_db w') = vouchers (w_db w)
    /\ references bindId (w_db w') created cid
    /\ handle (get_vouchers_count Document bindId cid) (w_db w')
       = (Some (mkResponse 200
                  (Count (countVouchersByValue (Some (b_content (req_body req)))
                            (vouchers (w_db w))))), w_db w').
Proof.
  intros bindId distinct_values req w cid Hm Hp Ho Hfresh Ht Hb. cbn zeta.
  unfold MongoApp.app. rewrite Ho. pick_route Hm Hp.
  unfold MongoApp.post_campaign. run_world.
  cbn [set_next set_db w_db voucher_campaigns vouchers].
  assert (Href : references bindId
                   (mkDb (vouchers (w_db w))
                      (voucher_campaigns (w_db w)
                       ++ [mkCampaign (w_next w) (b_content (req_body req))
                             (b_quantity (req_body req))
                             (b_status (voucher (req_body req))) (at_time req)])
                      (next_id (w_db w)))
                   (mkCampaign (w_next w) (b_content (req_body req))
                      (b_quantity (req_body req))
                      (b_status (voucher (req_body req))) (at_time req)) cid).
  { split; [exact Ht |]. exists (w_next w). split; [exact Hb |].
    cbn [voucher_campaigns]. rewrite (getCampaign_app _ _ _ Hfresh).
    unfold getCampaign. cbn. now rewrite N.eqb_refl. }
  split; [reflexivity |]. split; [reflexivity |]. split; [reflexivity |].
  split; [exact Href |].
  now rewrite (count_found bindId cid _ Document _ Href).
Qed.

Lemma X19_new_campaign_counts_old_vouchers_witness :
  let req :=
    mkRequest POST ["api"; "admin"; "voucher-campaigns"] None JUndefined None
      (mkReqBody (Scenario.grab "" JUndefined) "10% off" 5 None) Scenario.noon in
  let w :=
    mkWorld (mkDb [Scenario.pending] [] 2) [] [] [] []
      (Scenario.key_of (Drivers.objectId (JStr Scenario.oid))) in
  handle (get_vouchers_count Document Drivers.objectId (JStr Scenario.oid))
    (w_db (snd (respond (MongoApp.app Drivers.objectId Query.distinct req) w)))
  = (Some (mkResponse 200 (Count 1)),
     w_db (snd (respond (MongoApp.app Drivers.objectId Query.distinct req) w))).
Proof.
  cbn zeta.
  apply (X19_new_campaign_counts_old_vouchers Drivers.objectId Query.distinct
           (mkRequest POST ["api"; "admin"; "voucher-campaigns"] None JUndefined
              None (mkReqBody (Scenario.grab "" JUndefined) "10% off" 5 None)
              Scenario.noon)
           (mkWorld (mkDb [Scenario.pending] [] 2) [] [] [] []
              (Scenario.key_of (Drivers.objectId (JStr Scenario.oid))))
           (JStr Scenario.oid));
    reflexivity.
Defined.

(* ===================================================================== *)
(** * The migration script *)

Lemma existsb_app_one (f : string -> bool) (cols : list string) (x : string) :
  existsb f (cols ++ [x]) = existsb f cols || f x.
Proof. rewrite existsb_app. cbn. now rewrite orb_false_r. Qed.

(** X20: the migration script only ever appends one [status] column.  It
    leaves a missing table missing; on an existing table it keeps every column
    in place and adds [status] at the end exactly when no column has that
    name in any letter case; afterwards such a column exists, and a second
    run changes nothing. *)
Theorem X20_add_status_column :
  forall columns : option (list string),
    Migration.add_status_column (Migration.add_status_column columns)
    = Migration.add_status_column columns
    /\ (columns = None <-> Migration.add_status_column columns = None)
    /\ (forall cols,
          columns = Some cols ->
          let present :=
            existsb (fun name => (Migration.fold_case name =? "status")) cols in
          Migration.add_status_column columns
          = Some (if present then cols else cols ++ ["status"])
          /\ exists cols',
               Migration.add_status_column columns = Some cols'
               /\ existsb (fun name => (Migration.fold_case name =? "status"))
                    cols' = true).
Proof.
  intros columns.
  assert (Hfold : forall cols,
             existsb (fun name => (name =? "status")) cols = true ->
             existsb (fun name => (Migration.fold_case name =? "status")) cols
             = true).
  { intros cols H. apply existsb_exists in H. destruct H as (x & Hx & E).
    apply existsb_exists. exists x. split; [exact Hx |].
    apply String.eqb_eq in E. subst x. reflexivity. }
  destruct columns as [cols |]; cbn.
  2:{ split; [reflexivity |]. split; [split; reflexivity |].
      intros cols H. discriminate H. }
  destruct (existsb (fun name => (name =? "status")) cols) eqn:E1.
  - pose proof (Hfold cols E1) as E2. cbn. rewrite E1.
    split; [reflexivity |]. split; [split; discriminate |].
    intros cols0 H. injection H as <-. rewrite E2.
    split; [reflexivity |]. exists cols. split; [reflexivity | exact E2].
  - destruct (existsb (fun name => (Migration.fold_case name =? "status")) cols)
      eqn:E2.
    + cbn. rewrite E1, E2. split; [reflexivity |].
      split; [split; discriminate |].
      intros cols0 H. injection H as <-. rewrite E2.
      split; [reflexivity |]. exists cols. split; [reflexivity | exact E2].
    + cbn. rewrite existsb_app_one. cbn. rewrite orb_true_r.
      split; [reflexivity |]. split; [split; discriminate |].
      intros cols0 H. injection H as <-. rewrite E2.
      split; [reflexivity |]. exists (cols ++ ["status"]).
      split; [reflexivity |]. rewrite existsb_app_one. cbn. apply orb_true_r.
Qed.

Lemma X20_add_status_column_witness :
  Migration.add_status_column
    (Some ["id"; "prize_label"; "win_chance"; "campaign_id"; "created_at"])
  = Some ["id"; "prize_label"; "win_chance"; "campaign_id"; "created_at";
          "status"]
  /\ Migration.add_status_column (Some ["id"; "Status"]) = Some ["id"; "Status"].
Proof.
  split.
  - apply (proj2 (proj2 (X20_add_status_column
                           (Some ["id"; "prize_label"; "win_chance";
                                  "campaign_id"; "created_at"]))) _ eq_refl).
  - apply (proj2 (proj2 (X20_add_status_column (Some ["id"; "Status"]))) _
             eq_refl).
Defined.

(* ===================================================================== *)
(** * Rewards *)

Lemma deleteFirst_last {A} (hit : A -> bool) (xs : list A) (x : A) :
  find hit xs = None -> hit x = true ->
  Coll.deleteFirst hit (xs ++ [x]) = (xs, 1).
Proof.
  intros Hn Hx. induction xs as [| y rest IH]; cbn.
  - now rewrite Hx.
  - cbn in Hn. destruct (hit y); [discriminate |]. now rewrite (IH Hn).
Qed.

(** X21: a referral reward that is created and then deleted leaves the
    collection as it was.  On the document server
    [POST /api/admin/referral-reward] appends a reward with the content and
    status of the body and the clock reading, under a new key;
    [DELETE /api/admin/referral-reward/:id] for that key then removes exactly
    it.  Both answer [{ success: true }]. *)
Theorem X21_reward_created_then_deleted :
  forall (bindId : JsValue -> Bound)
         (distinct_values : list string -> list string) (post del : Request) (w : World)
         (id : string),
    method post = POST -> path post = ["api"; "admin"; "referral-reward"] ->
    method del = DELETE -> path del = ["api"; "admin"; "referral-reward"; id] ->
    id <> "" ->
    cors_origin (origin post) = None ->
    cors_origin (origin del) = None ->
    bindId (JStr id) = Key (w_next w) ->
    find (fun r => (rw_id r =? w_next w)%N) (referral_rewards w) = None ->
    referral_rewards (snd (respond (MongoApp.app bindId distinct_values post) w))
    = referral_rewards w
      ++ [mkReward (w_next w) (b_content (req_body post))
            (b_status (voucher (req_body post))) (Some (at_time post))]
    /\ fst (MongoApp.serve_all bindId distinct_values [post; del] w)
       = [Some (mkAnswer 200 (Plain (Success true)));
          Some (mkAnswer 200 (Plain (Success true)))]
    /\ referral_rewards (snd (MongoApp.serve_all bindId distinct_values [post; del] w))
       = referral_rewards w.
Proof.
  intros bindId distinct_values post del w id Hm1 Hp1 Hm2 Hp2 Hid Ho1 Ho2 Hb Hfresh.
  set (created := mkReward (w_next w) (b_content (req_body post))
                    (b_status (voucher (req_body post))) (Some (at_time post))).
  set (w1 := set_next (N.succ (w_next w))
               (set_rewards (referral_rewards w ++ [created]) w)).
  assert (Hpost : respond (MongoApp.app bindId distinct_values post) w
                  = (Some (mkAnswer 200 (Plain (Success true))), w1)).
  { unfold MongoApp.app. rewrite Ho1. pick_route Hm1 Hp1. reflexivity. }
  assert (Hdel : respond (MongoApp.app bindId distinct_values del) w1
                 = (Some (mkAnswer 200 (Plain (Success true))),
                    set_rewards (referral_rewards w) w1)).
  { unfold MongoApp.app. rewrite Ho2.
    destruct id as [| ch rest] eqn:Eid; [contradiction |].
    pick_route Hm2 Hp2. unfold MongoApp.delete_reward. run_world.
    cbn [param_id]. rewrite Hb.
    change (MongoApp.is_key rw_id (Some (w_next w)))
      with (fun r : Reward => (rw_id r =? w_next w)%N).
    unfold w1 at 1. cbn [set_next set_rewards referral_rewards].
    rewrite (deleteFirst_last _ _ created Hfresh) by (cbn; apply N.eqb_refl).
    reflexivity. }
  cbn [MongoApp.serve_all]. rewrite Hpost, Hdel. cbn [fst snd].
  repeat split.
Qed.

Lemma X21_reward_created_then_deleted_witness :
  let req m p :=
    mkRequest m p None JUndefined None
      (mkReqBody (Scenario.grab "" JUndefined) "5 points" 0 None)
      Scenario.noon in
  let w :=
    mkWorld Scenario.shop_docs [] [] [] []
      (Scenario.key_of (Drivers.objectId (JStr Scenario.oid))) in
  fst (MongoApp.serve_all Drivers.objectId Query.distinct
         [req POST ["api"; "admin"; "referral-reward"];
          req DELETE ["api"; "admin"; "referral-reward"; Scenario.oid]] w)
  = [Some (mkAnswer 200 (Plain (Success true)));
     Some (mkAnswer 200 (Plain (Success true)))].
Proof.
  cbn zeta.
  apply (X21_reward_created_then_deleted Drivers.objectId Query.distinct _ _ _ Scenario.oid);
    try reflexivity.
  discriminate.
Defined.

(* ===================================================================== *)
(** * The success flag of the document server's status update *)

Lemma updateFirst_matched k u vs v :
  getVoucher k vs = Some v ->
  Mongo.modifiedCount (snd (Mongo.updateFirst k u vs))
  = if Mongo.voucher_eqb v (Mongo.apply_set u v) then 0 else 1.
Proof.
  unfold getVoucher. induction vs as [| x rest IH]; cbn; [discriminate |].
  destruct (v_id x =? k)%N.
  - intros H. injection H as ->. reflexivity.
  - intros H. specialize (IH H).
    destruct (Mongo.updateFirst k u rest) as [rest' r]. exact IH.
Qed.

Lemma transition_fixed st now v :
  transition st now v = v
  <-> status v = st
      /\ (st = Some "Issued" -> claimedAt v = Some now)
      /\ (st = Some "Void" -> claimedAt v = None).
Proof.
  unfold transition. destruct (status_is st "Issued") eqn:Hi.
  - apply status_is_eq in Hi. subst st. destruct v; cbn. split.
    + intros H. injection H as Hs Hc.
      split; [now symmetry |]. split; [intros _; now symmetry | discriminate].
    + intros (Hs & Hc & _). rewrite Hs, (Hc eq_refl). reflexivity.
  - destruct (status_is st "Void") eqn:Hv.
    + apply status_is_eq in Hv. subst st. destruct v; cbn. split.
      * intros H. injection H as Hs Hc.
        split; [now symmetry |]. split; [discriminate | intros _; now symmetry].
      * intros (Hs & _ & Hc). rewrite Hs, (Hc eq_refl). reflexivity.
    + assert (Hni : st <> Some "Issued").
      { intros E. apply status_is_eq in E. congruence. }
      assert (Hnv : st <> Some "Void").
      { intros E. apply status_is_eq in E. congruence. }
      destruct v; cbn. split.
      * intros H. injection H as Hs.
        split; [now symmetry |]. split; intros E; contradiction.
      * intros (Hs & _ & _). rewrite Hs. reflexivity.
Qed.

(** X22: on the document server the success flag of
    [PUT /api/voucher/:id/status] tells whether the voucher changed.  When the
    id is one the driver accepts, the answer is [200 { success: b }] with [b]
    true exactly when the database is not what it was.  An id that is the key
    of no voucher is answered [{ success: false }] and changes nothing.  For
    the voucher the id names, the answer is [{ success: false }] exactly when
    the voucher already has the status sent and the [claimedAt] the update
    would write: the clock reading for "Issued", [null] for "Void", whatever
    it holds for any other status.  So "Void" sent again to a voided voucher
    that still carries a [claimedAt] is answered [{ success: true }], and any
    other status than "Issued" and "Void" sent again is answered
    [{ success: false }]. *)
Theorem X22_document_status_flag :
  forall (bindId : JsValue -> Bound) (id : string) (st : option string)
         (now : string) (db : Db),
    (forall msg, bindId (JStr id) <> Throws msg) ->
    (exists b : bool,
        fst (handle (put_voucher_status Document bindId id st now) db)
        = Some (mkResponse 200 (Success b))
        /\ (b = true
            <-> snd (handle (put_voucher_status Document bindId id st now) db)
                <> db))
    /\ (bindId (JStr id) = NoRow
        \/ (exists k, bindId (JStr id) = Key k
                      /\ getVoucher k (vouchers db) = None) ->
        handle (put_voucher_status Document bindId id st now) db
        = (Some (mkResponse 200 (Success false)), db))
    /\ (forall k v,
          bindId (JStr id) = Key k ->
          getVoucher k (vouchers db) = Some v ->
          exists b : bool,
            fst (handle (put_voucher_status Document bindId id st now) db)
            = Some (mkResponse 200 (Success b))
            /\ (b = false
                <-> status v = st
                    /\ (st = Some "Issued" -> claimedAt v = Some now)
                    /\ (st = Some "Void" -> claimedAt v = None))).
Proof.
  intros bindId id st now db Hok.
  split; [| split].
  - destruct (bindId (JStr id)) as [msg | k |] eqn:Hb.
    + exfalso. now apply (Hok msg).
    + cbn [put_voucher_status].
      pose proof (mongo_put_key bindId id st now db k Hb) as Hrun.
      eexists. split; [rewrite Hrun; reflexivity |].
      apply (mongo_put_success_iff bindId id st now db).
      rewrite Hrun. reflexivity.
    + cbn [put_voucher_status].
      rewrite (mongo_put_norow bindId id st now db Hb).
      exists false. split; [reflexivity |].
      split; [discriminate | intros H; now contradiction H].
  - cbn [put_voucher_status]. intros [Hb | (k & Hb & Hnone)].
    + apply mongo_put_norow. exact Hb.
    + rewrite (mongo_put_key bindId id st now db k Hb).
      rewrite (updateFirst_unmatched k (update_doc st now) (vouchers db) Hnone).
      cbn [fst snd Mongo.modifiedCount]. now rewrite set_vouchers_same.
  - intros k v Hb Hv. cbn [put_voucher_status].
    rewrite (mongo_put_key bindId id st now db k Hb). cbn [fst].
    rewrite (updateFirst_matched k (update_doc st now) (vouchers db) v Hv).
    rewrite mongo_update_doc.
    destruct (Mongo.voucher_eqb v (transition st now v)) eqn:E.
    + exists false. split; [reflexivity |].
      rewrite <- (transition_fixed st now v).
      apply voucher_eqb_eq in E. split; [intros _; now symmetry | reflexivity].
    + exists true. split; [reflexivity |].
      rewrite <- (transition_fixed st now v).
      split; [discriminate |]. intros Hfix.
      assert (Ht : Mongo.voucher_eqb v (transition st now v) = true)
        by (apply voucher_eqb_eq; now symmetry).
      congruence.
Qed.

(** The pending voucher of the scenario: "Pending" sent again changes
    nothing and is answered false; so is any status sent to an id that is
    the key of no voucher. *)
Lemma X22_document_status_flag_witness :
  (exists b : bool,
      fst (handle (put_voucher_status Document Drivers.objectId Scenario.oid
                     (Some "Pending") Scenario.noon) Scenario.wallet_docs)
      = Some (mkResponse 200 (Success b))
      /\ (b = false
          <-> status Scenario.pending_doc = Some "Pending"
              /\ (Some "Pending" = Some "Issued" ->
                  claimedAt Scenario.pending_doc = Some Scenario.noon)
              /\ (Some "Pending" = Some "Void" ->
                  claimedAt Scenario.pending_doc = None)))
  /\ handle (put_voucher_status Document Drivers.objectId Scenario.other_oid
               (Some "Void") Scenario.noon) Scenario.wallet_docs
     = (Some (mkResponse 200 (Success false)), Scenario.wallet_docs).
Proof.
  split.
  - apply (proj2 (proj2 (X22_document_status_flag Drivers.objectId Scenario.oid
                           (Some "Pending") Scenario.noon Scenario.wallet_docs
                           ltac:(intros msg; vm_compute; discriminate)))
             (Scenario.key_of (Drivers.objectId (JStr Scenario.oid)))
             Scenario.pending_doc); reflexivity.
  - apply (proj1 (proj2 (X22_document_status_flag Drivers.objectId
                           Scenario.other_oid (Some "Void") Scenario.noon
                           Scenario.wallet_docs
                           ltac:(intros msg; vm_compute; discriminate)))).
    right. exists (Scenario.key_of (Drivers.objectId (JStr Scenario.other_oid))).
    split; reflexivity.
Defined.

(* ===================================================================== *)
(** * The admin lists *)

Lemma compare_lt_trans (a b c : string) :
  String.compare a b = Lt -> String.compare b c = Lt -> String.compare a c = Lt.
Proof.
  intros H1 H2.
  apply String_as_OT.cmp_lt in H1. apply String_as_OT.cmp_lt in H2.
  apply String_as_OT.cmp_lt. eapply String_as_OT.lt_trans; eassumption.
Qed.

Lemma compare_refl_eq (a : string) : String.compare a a = Eq.
Proof. now apply String_as_OT.cmp_eq. Qed.

Lemma desc_asym (a b : option string) :
  Coll.desc a b = true -> Coll.desc b a = false.
Proof.
  destruct a as [x |], b as [y |]; cbn; try reflexivity; try discriminate.
  unfold String.ltb. rewrite (String.compare_antisym x y).
  destruct (String.compare y x); cbn; congruence.
Qed.

Lemma desc_trans (a b c : option string) :
  Coll.desc b a = false -> Coll.desc c b = false -> Coll.desc c a = false.
Proof.
  destruct a as [x |], b as [y |], c as [z |]; cbn; try reflexivity;
    try discriminate.
  unfold String.ltb. intros H1 H2.
  destruct (String.compare x z) eqn:Exz; try reflexivity. exfalso.
  destruct (String.compare x y) eqn:Exy; try discriminate.
  - apply String.compare_eq_iff in Exy. subst y. now rewrite Exz in H2.
  - destruct (String.compare y z) eqn:Eyz; try discriminate.
    + apply String.compare_eq_iff in Eyz. subst z. congruence.
    + assert (Hzy : String.compare z y = Lt)
        by (rewrite String.compare_antisym, Eyz; reflexivity).
      assert (Hyx : String.compare y x = Lt)
        by (rewrite String.compare_antisym, Exy; reflexivity).
      pose proof (compare_lt_trans _ _ _ Hzy Hyx) as Hzx.
      pose proof (compare_lt_trans _ _ _ Exz Hzx) as Hxx.
      rewrite compare_refl_eq in Hxx. discriminate.
Qed.

Lemma sort_newest_first {A} (key : A -> option string) (xs : list A) :
  newest_first key
    (Query.sort_by (fun a b => Coll.desc (key a) (key b)) xs).
Proof.
  apply sort_by_sorted.
  - intros x y. apply desc_asym.
  - intros x y H. exact H.
  - intros x y z. apply desc_trans.
Qed.

(** X23: the admin lists of the document server
    ([GET /api/admin/vouchers], [/api/admin/referrals],
    [/api/admin/voucher-campaigns], [/api/admin/spin-wheel],
    [/api/admin/referral-reward]) answer [200] with every row of their
    collection exactly once, newest first ([claimedAt] for vouchers,
    [created_at] for the others; rows without the field come last), and change
    nothing.  The [configVersion] of the spin wheel is the [created_at] of the
    first prize listed, [null] when there is none. *)
Theorem X23_admin_lists :
  forall (params : list string) (req : Request) (w : World),
    (exists rows,
        respond (MongoApp.get_admin_vouchers params req) w
        = (Some (mkAnswer 200 (VoucherRows rows)), w)
        /\ Permutation rows (vouchers (w_db w))
        /\ newest_first claimedAt rows)
    /\ (exists rows,
          respond (MongoApp.get_admin_referrals params req) w
          = (Some (mkAnswer 200 (ReferralRows rows)), w)
          /\ Permutation rows (referrals w)
          /\ newest_first (fun r => Some (r_created_at r)) rows)
    /\ (exists rows,
          respond (MongoApp.get_campaigns params req) w
          = (Some (mkAnswer 200 (CampaignRows rows)), w)
          /\ Permutation rows (voucher_campaigns (w_db w))
          /\ newest_first (fun c => Some (created_at c)) rows)
    /\ (exists rows,
          respond (MongoApp.get_spin_wheel params req) w
          = (Some (mkAnswer 200
                     (WheelConfig (match rows with
                                   | first :: _ => p_created_at first
                                   | [] => None
                                   end) rows)), w)
          /\ Permutation rows (spin_wheel_config w)
          /\ newest_first p_created_at rows)
    /\ (exists rows,
          respond (MongoApp.get_rewards params req) w
          = (Some (mkAnswer 200 (RewardRows rows)), w)
          /\ Permutation rows (referral_rewards w)
          /\ newest_first rw_created_at rows).
Proof.
  intros params req w.
  split; [| split; [| split; [| split]]];
    eexists; (split; [reflexivity | split; [apply sort_by_perm |]]).
  - apply (sort_newest_first claimedAt).
  - apply (sort_newest_first (fun r => Some (r_created_at r))).
  - apply (sort_newest_first (fun c => Some (created_at c))).
  - apply (sort_newest_first p_created_at).
  - apply (sort_newest_first rw_created_at).
Qed.
